(** * MySQLConnectionPool (src/mysql.py): a shallow embedding

    The pool class of [src/mysql.py] is embedded as state-passing code in a
    small state-and-exception monad.  The Python object ([self]) is a
    record, Python exceptions are values of [exn], and every call that
    leaves the module (pymysql, the blocking queue wait) asks an
    environment oracle for its outcome and records an event in a trace, so
    that every theorem quantifies over every way in which the calls to the
    backend return or raise.  The sizes and the timeout of a pool are
    integers.

    Logger calls are omitted: they neither change the pool nor the control
    flow. *)

From Stdlib Require Import ZArith Lia DecimalString.
From stdpp Require Import base gmap strings list.

Local Open Scope string_scope.
Local Open Scope list_scope.
Local Open Scope Z_scope.

(** ** Python values and exceptions *)

(** A session is the handle of one backend connection (a
    [pymysql.Connection] object); handles are told apart by a number. *)
Definition Session := nat.

(** The exception classes that the module raises or names in an [except]
    clause.  [DatabaseError] .. [PoolExhaustedError] are the classes
    declared at lines 23-55 (the module's [ConnectionError] hides the
    builtin of the same name). *)
Inductive exn_class :=
| Exception
| queue_Empty
| ValueError
| TypeError
| AttributeError
| KeyError
| IOError
| JSONDecodeError
| pymysql_OperationalError
| pymysql_ProgrammingError
| pymysql_IntegrityError
| pymysql_InternalError
| DatabaseError
| ConnectionError
| QueryError
| UpdateError
| PoolExhaustedError.

#[global] Instance exn_class_eq_dec : EqDecision exn_class.
Proof. solve_decision. Defined.

(** An exception object: its class and [str(e)]. *)
Record exn := Exn { exn_cls : exn_class; exn_str : string }.

(** [issubclass c d], for the classes above. *)
Definition issubclass (c d : exn_class) : bool :=
  bool_decide (c = d) ||
  match d, c with
  | Exception, _ => true
  | ValueError, JSONDecodeError => true
  | DatabaseError, (ConnectionError | QueryError | UpdateError | PoolExhaustedError) => true
  | _, _ => false
  end.

Definition isinstance (e : exn) (d : exn_class) : bool := issubclass (exn_cls e) d.

(** [str(n)] for a Python int. *)
Definition str_int (n : Z) : string := NilZero.string_of_int (Z.to_int n).

(** Values kept in a configuration dict. *)
Inductive cfgval :=
| CStr (s : string)
| CInt (n : Z).

(** A row of a [DictCursor] result. *)
Definition Row := list (string * cfgval).

(** ** The class namespace

    Every [def] of the class body of [MySQLConnectionPool], named by the
    line it starts at.  Several names are bound more than once. *)
Inductive defn :=
| def_init_119
| def_safe_config_171
| def_initialize_pool_183
| def_create_connection_204
| def_get_connection_239
| def_is_connection_valid_299
| def_release_connection_316
| def_connection_347
| def_execute_query_360
| def_execute_update_395
| def_close_all_connections_437
| def_from_config_file_462
| def_from_env_510
| def_safe_config_static_536
| def_safe_config_551
| def_connect_563
| def_from_config_file_608
| def_from_env_626
| def_update_config_644
| def_close_658
| def_execute_query_671
| def_execute_update_712.

#[global] Instance defn_eq_dec : EqDecision defn.
Proof. solve_decision. Defined.

(** The statements of the class body, in source order. *)
Definition class_body : list (string * defn) :=
  [ ("__init__", def_init_119);
    ("_safe_config", def_safe_config_171);
    ("_initialize_pool", def_initialize_pool_183);
    ("_create_connection", def_create_connection_204);
    ("get_connection", def_get_connection_239);
    ("_is_connection_valid", def_is_connection_valid_299);
    ("release_connection", def_release_connection_316);
    ("connection", def_connection_347);
    ("execute_query", def_execute_query_360);
    ("execute_update", def_execute_update_395);
    ("close_all_connections", def_close_all_connections_437);
    ("from_config_file", def_from_config_file_462);
    ("from_env", def_from_env_510);
    ("_safe_config_static", def_safe_config_static_536);
    ("_safe_config", def_safe_config_551);
    ("connect", def_connect_563);
    ("from_config_file", def_from_config_file_608);
    ("from_env", def_from_env_626);
    ("update_config", def_update_config_644);
    ("close", def_close_658);
    ("execute_query", def_execute_query_671);
    ("execute_update", def_execute_update_712) ].

(** Executing a class body binds each name in turn in the class dict; a
    later [def] of a name replaces the earlier one. *)
Definition exec_class_body (body : list (string * defn)) : gmap string defn :=
  foldl (fun ns b => <[b.1 := b.2]> ns) ∅ body.

Definition MySQLConnectionPool_dict : gmap string defn := exec_class_body class_body.

(** What an attribute of the pool object can hold, as far as the code
    looks at it. *)
Inductive pyval :=
| PyNone
| PyConn (s : Session)
| PyBoundMethod (d : defn).

Definition truthy (v : pyval) : bool :=
  match v with PyNone => false | _ => true end.

(** ** The pool object and the world *)

(** [queue.Queue(maxsize)]: a FIFO, the head of [items] leaves first. *)
Record Queue := mkQueue { maxsize : Z; items : list Session }.

Record Pool := mkPool {
  min_connections : Z;
  max_connections : Z;
  current_connections : Z;
  lock : nat;                          (* threading.RLock: how often it is held *)
  connection_timeout : Z;
  config : gmap string cfgval;
  connection_queue : Queue;
  inst_connection : option pyval       (* the entry "connection" of self.__dict__ *)
}.

(** What the module does to the outside, and what the outside answered. *)
Inductive Event :=
| EvConnect (r : option Session)          (* pymysql.connect *)
| EvPing (s : Session) (reconnect ok : bool)
| EvClose (s : Session) (ok : bool)
| EvCursor (s : Session) (ok : bool)      (* conn.cursor() *)
| EvExecute (s : Session) (sql : string) (ok : bool)
| EvFetchall (s : Session) (ok : bool)
| EvCursorClose (s : Session) (ok : bool) (* leaving [with conn.cursor()] *)
| EvCommit (s : Session) (ok : bool)
| EvRollback (s : Session) (ok : bool)
| EvWait (r : option Session)             (* a blocking get on the empty queue *)
| EvCounter (v : Z) (locked : bool).      (* a store to current_connections *)

Record St := mkSt { self : Pool; trace : list Event }.

(** The environment: what call number [t] (the length of the trace when
    it is made) meets.  [env_raises t = Some e]: the call raises [e].
    [env_released t]: whether another thread puts a session on the idle
    queue while this one waits.  Every backend call returns or raises (an
    [Exception]); a backend call that hangs is outside the model. *)
Record Env := mkEnv {
  env_raises : nat -> option exn;
  env_rows : nat -> list Row;
  env_rowcount : nat -> Z;
  env_released : nat -> option Session
}.

(** ** Field updates *)

Definition set_current (v : Z) (p : Pool) : Pool :=
  mkPool (min_connections p) (max_connections p) v (lock p)
         (connection_timeout p) (config p) (connection_queue p) (inst_connection p).

Definition set_lock (n : nat) (p : Pool) : Pool :=
  mkPool (min_connections p) (max_connections p) (current_connections p) n
         (connection_timeout p) (config p) (connection_queue p) (inst_connection p).

Definition set_items (l : list Session) (p : Pool) : Pool :=
  mkPool (min_connections p) (max_connections p) (current_connections p) (lock p)
         (connection_timeout p) (config p)
         (mkQueue (maxsize (connection_queue p)) l) (inst_connection p).

Definition set_inst_connection (v : option pyval) (p : Pool) : Pool :=
  mkPool (min_connections p) (max_connections p) (current_connections p) (lock p)
         (connection_timeout p) (config p) (connection_queue p) v.

Definition set_config (c : gmap string cfgval) (p : Pool) : Pool :=
  mkPool (min_connections p) (max_connections p) (current_connections p) (lock p)
         (connection_timeout p) c (connection_queue p) (inst_connection p).

Definition on_self (f : Pool -> Pool) (st : St) : St := mkSt (f (self st)) (trace st).
Definition record (ev : Event) (st : St) : St := mkSt (self st) (trace st ++ [ev]).

(** ** The monad: state, exceptions, and calls that do not return *)

Inductive Res (A : Type) :=
| Ok (a : A)
| Raise (e : exn)
| Blocked.                (* the thread waits for another thread for ever *)
Arguments Ok {A} a.
Arguments Raise {A} e.
Arguments Blocked {A}.

(** Computations over a state [S]; the methods of a pool object run over
    [St], class methods (which have no [self]) over the trace alone. *)
Definition MS (S A : Type) : Type := S -> Res A * S.
Abbreviation M := (MS St).

Definition ret {S A} (a : A) : MS S A := fun st => (Ok a, st).
Definition raise {S A} (e : exn) : MS S A := fun st => (Raise e, st).
Definition bind {S A B} (c : MS S A) (k : A -> MS S B) : MS S B := fun st =>
  match c st with
  | (Ok a, st') => k a st'
  | (Raise e, st') => (Raise e, st')
  | (Blocked, st') => (Blocked, st')
  end.

Declare Scope py_scope.
Delimit Scope py_scope with py.
Notation "'let!' x ':=' c 'in' k" := (bind c (fun x => k))
  (at level 10, x name, c at level 100, k at level 200) : py_scope.
Notation "c '>>' k" := (bind c (fun _ => k))
  (at level 100, k at level 200, right associativity) : py_scope.
Local Open Scope py_scope.

Definition get_self : M Pool := fun st => (Ok (self st), st).
Definition modify_self (f : Pool -> Pool) : M unit := fun st => (Ok tt, on_self f st).

(** [try: body except <all>: handler]. *)
Definition try_except {S A} (body : MS S A) (handler : exn -> MS S A) : MS S A := fun st =>
  match body st with
  | (Raise e, st') => handler e st'
  | r => r
  end.

(** [try: body finally: fin]; [fin] also runs when [body] raises, and an
    exception of [fin] replaces the one in flight. *)
Definition try_finally {S A} (body : MS S A) (fin : MS S unit) : MS S A := fun st =>
  match body st with
  | (Ok a, st') => (fin >> ret a) st'
  | (Raise e, st') => (fin >> raise e) st'
  | (Blocked, st') => (Blocked, st')
  end.

(** [try: c except: pass] *)
Definition absorb {S} (c : MS S unit) : MS S unit := try_except c (fun _ => ret tt).

(** ** The methods of the pool *)

Section PoolMethods.

Variable env : Env.

(** *** Calls that leave the module *)

(** A backend call that returns nothing: it succeeds or raises as the
    environment says, and is recorded with its outcome. *)
Definition backend_call (ev : bool -> Event) : M unit := fun st =>
  match env_raises env (length (trace st)) with
  | None => (Ok tt, record (ev true) st)
  | Some e => (Raise e, record (ev false) st)
  end.

(** [pymysql.connect(...)]: a new session, named by the call's number. *)
Definition pymysql_connect : M Session := fun st =>
  let t := length (trace st) in
  match env_raises env t with
  | None => (Ok t, record (EvConnect (Some t)) st)
  | Some e => (Raise e, record (EvConnect None) st)
  end.

Definition conn_ping (s : Session) (reconnect : bool) : M unit :=
  backend_call (EvPing s reconnect).
Definition conn_close (s : Session) : M unit := backend_call (EvClose s).
Definition conn_commit (s : Session) : M unit := backend_call (EvCommit s).
Definition conn_rollback (s : Session) : M unit := backend_call (EvRollback s).
Definition conn_cursor (s : Session) : M unit := backend_call (EvCursor s).
Definition cursor_close (s : Session) : M unit := backend_call (EvCursorClose s).

(** [cursor.execute(query, params)] returns the number of affected rows. *)
Definition cursor_execute (s : Session) (query : string) : M Z := fun st =>
  let t := length (trace st) in
  match env_raises env t with
  | None => (Ok (env_rowcount env t), record (EvExecute s query true) st)
  | Some e => (Raise e, record (EvExecute s query false) st)
  end.

Definition cursor_fetchall (s : Session) : M (list Row) := fun st =>
  let t := length (trace st) in
  match env_raises env t with
  | None => (Ok (env_rows env t), record (EvFetchall s true) st)
  | Some e => (Raise e, record (EvFetchall s false) st)
  end.

(** *** The idle queue: [queue.Queue] *)

(** [Queue.get(block=False)] *)
Definition queue_get_nowait : M Session := fun st =>
  match items (connection_queue (self st)) with
  | [] => (Raise (Exn queue_Empty ""), st)
  | s :: q => (Ok s, on_self (set_items q) st)
  end.

(** [Queue.get(block=True, timeout=t)] for a number [t]: a negative [t]
    is refused; an item at hand is taken; otherwise the thread waits, and
    either another thread puts a session within [t] seconds or [Empty] is
    raised.  ([connection_timeout] is a number throughout; with
    [timeout=None] the wait would have no end.) *)
Definition queue_get_timeout (t : Z) : M Session := fun st =>
  if t <? 0 then (Raise (Exn ValueError "'timeout' must be a non-negative number"), st)
  else match items (connection_queue (self st)) with
       | s :: q => (Ok s, on_self (set_items q) st)
       | [] => match env_released env (length (trace st)) with
               | Some s => (Ok s, record (EvWait (Some s)) st)
               | None => (Raise (Exn queue_Empty ""), record (EvWait None) st)
               end
       end.

Definition queue_full (q : Queue) : bool :=
  (0 <? maxsize q) && (maxsize q <=? Z.of_nat (length (items q))).

(** [Queue.put(item)] (block=True, no timeout): waits while a bounded
    queue is full. *)
Definition queue_put (s : Session) : M unit := fun st =>
  let q := connection_queue (self st) in
  if queue_full q then (Blocked, st)
  else (Ok tt, on_self (set_items (items q ++ [s])) st).

(** *** The lock and the counter *)

(** [with self.lock: body]: the lock is released on every exit. *)
Definition with_lock {A} (body : M A) : M A :=
  modify_self (fun p => set_lock (S (lock p)) p) >>
  try_finally body (modify_self (fun p => set_lock (pred (lock p)) p)).

(** A store to [self.current_connections]; the trace keeps the value
    stored and whether the lock was held. *)
Definition store_current (v : Z) : M unit := fun st =>
  (Ok tt, record (EvCounter v (negb (Nat.eqb (lock (self st)) 0))) (on_self (set_current v) st)).

(** [self.current_connections += d] *)
Definition add_current (d : Z) : M unit :=
  let! p := get_self in store_current (current_connections p + d).

(** *** [_create_connection], lines 204-237 *)

(** [self.config[key]] *)
Definition config_item (key : string) : M cfgval := fun st =>
  match config (self st) !! key with
  | Some v => (Ok v, st)
  | None => (Raise (Exn KeyError ("'" +:+ key +:+ "'")), st)
  end.

Definition _create_connection : M Session :=
  try_except
    (config_item "host" >> config_item "user" >> config_item "password" >>
     config_item "database" >> config_item "port" >> config_item "charset" >>
     pymysql_connect)
    (fun e =>
       if isinstance e pymysql_OperationalError
       then raise (Exn ConnectionError ("创建连接失败 - 操作错误: " +:+ exn_str e))
       else if isinstance e pymysql_ProgrammingError
       then raise (Exn ConnectionError ("创建连接失败 - 配置错误: " +:+ exn_str e))
       else raise (Exn ConnectionError ("创建连接失败: " +:+ exn_str e))).

(** *** [_is_connection_valid], lines 299-314 *)

Definition _is_connection_valid (connection : Session) : M bool :=
  try_except (conn_ping connection false >> ret true) (fun _ => ret false).

(** *** [get_connection], lines 239-297 *)

(** Close a session found invalid and make another, lines 255-260 and
    284-289. *)
Definition replace_invalid (connection : Session) : M Session :=
  absorb (conn_close connection) >> _create_connection.

(** Lines 252-262: the body of the inner [try]. *)
Definition fast_path : M Session :=
  let! connection := queue_get_nowait in
  let! valid := _is_connection_valid connection in
  if negb valid then replace_invalid connection else ret connection.

(** Lines 264-277: the [with self.lock] block.  [Some c]: the block
    returned [c]; [None]: the pool is full and control goes on after the
    block. *)
Definition grow_path : M (option Session) :=
  with_lock
    (let! p := get_self in
     if current_connections p <? max_connections p then
       try_except
         (let! connection := _create_connection in
          add_current 1 >> ret (Some connection))
         (fun e => raise (Exn ConnectionError ("创建新连接失败: " +:+ exn_str e)))
     else ret None).

(** Lines 280-294. *)
Definition wait_path : M Session :=
  let! p := get_self in
  try_except
    (let! connection := queue_get_timeout (connection_timeout p) in
     let! valid := _is_connection_valid connection in
     if negb valid then replace_invalid connection else ret connection)
    (fun _ =>
       raise (Exn PoolExhaustedError
                ("连接池资源耗尽，无法获取连接，超时时间: " +:+
                 str_int (connection_timeout p) +:+ "秒"))).

(** Lines 263-294: the handler of the inner [try]. *)
Definition grow_or_wait : M Session :=
  let! r := grow_path in
  match r with
  | Some connection => ret connection
  | None => wait_path
  end.

Definition get_connection : M Session :=
  try_except
    (try_except fast_path (fun _ => grow_or_wait))
    (fun e => raise e).

(** *** [release_connection], lines 316-344 *)

Definition release_connection (connection : Session) : M unit :=
  try_except
    (let! valid := _is_connection_valid connection in
     if valid then queue_put connection
     else with_lock (add_current (-1)) >> absorb (conn_close connection))
    (fun _ =>
       absorb (conn_close connection >> with_lock (add_current (-1)))).

(** *** [_initialize_pool], lines 183-202 *)

Fixpoint initialize_loop (n : nat) : M unit :=
  match n with
  | O => ret tt
  | S n' =>
      try_except
        (let! connection := _create_connection in
         queue_put connection >> add_current 1)
        (fun _ => ret tt) >>
      initialize_loop n'
  end.

Definition _initialize_pool : M unit :=
  let! p := get_self in initialize_loop (Z.to_nat (min_connections p)).

(** *** [__init__], lines 119-169 *)

(** The arguments of the constructor, each with the default of line
    119-122. *)
Record InitArgs := mkInitArgs {
  arg_min_connections : Z;
  arg_max_connections : Z;
  arg_host : string;
  arg_user : string;
  arg_password : string;
  arg_database : string;
  arg_port : Z;
  arg_charset : string;
  arg_config : option (gmap string cfgval);
  arg_connection_timeout : Z
}.

Definition default_args : InitArgs :=
  mkInitArgs 5 20 "localhost" "root" "" "" 3306 "utf8mb4" None 30.

(** Lines 150-160: the default dict, then [self.config.update(config)]
    when [config] is given and not empty. *)
Definition initial_config (a : InitArgs) : gmap string cfgval :=
  let defaults : gmap string cfgval :=
    <["host" := CStr (arg_host a)]> (
    <["user" := CStr (arg_user a)]> (
    <["password" := CStr (arg_password a)]> (
    <["database" := CStr (arg_database a)]> (
    <["port" := CInt (arg_port a)]> (
    <["charset" := CStr (arg_charset a)]> ∅))))) in
  match arg_config a with
  | Some c => if bool_decide (c = ∅) then defaults else c ∪ defaults
  | None => defaults
  end.

(** The object after line 163, before [_initialize_pool] runs. *)
Definition new_pool (a : InitArgs) : Pool :=
  mkPool (arg_min_connections a) (arg_max_connections a) 0 0
         (arg_connection_timeout a) (initial_config a)
         (mkQueue (arg_max_connections a) []) None.

(** [MySQLConnectionPool(...)], in a world whose trace so far is [tr],
    from line 143 on: lines 140-141 ([logger.setLevel(log_level)]) come
    before and do nothing else when [logging] accepts the level, as it does
    the default [logging.INFO]. *)
Definition __init__ (a : InitArgs) (tr : list Event) : Res unit * St :=
  _initialize_pool (mkSt (new_pool a) tr).

(** *** Attribute lookup on the instance *)

(** [self.connection]: the instance dict comes first (a function is not
    a data descriptor), then the class dict, where the name is bound to
    the context manager of line 347. *)
Definition self_connection : M pyval :=
  let! p := get_self in
  match inst_connection p with
  | Some v => ret v
  | None =>
      match MySQLConnectionPool_dict !! "connection" with
      | Some d => ret (PyBoundMethod d)
      | None => raise (Exn AttributeError
                  "'MySQLConnectionPool' object has no attribute 'connection'")
      end
  end.

(** [v.name] for a method [name] of a pymysql connection: only a
    connection has it. *)
Definition conn_attr (v : pyval) (name : string) : M Session :=
  match v with
  | PyConn s => ret s
  | PyNone => raise (Exn AttributeError
                ("'NoneType' object has no attribute '" +:+ name +:+ "'"))
  | PyBoundMethod _ => raise (Exn AttributeError
                ("'function' object has no attribute '" +:+ name +:+ "'"))
  end.

(** [with conn.cursor() as cursor: body]; leaving the block closes the
    cursor. *)
Definition with_cursor {A} (s : Session) (body : M A) : M A :=
  conn_cursor s >> try_finally body (cursor_close s).

(** *** [connection], lines 346-358: scoped acquisition *)

Definition connection {A} (body : Session -> M A) : M A :=
  let! conn := get_connection in
  try_finally (body conn) (release_connection conn).

(** [with self.connection() as conn: body]: the call of whatever
    [self.connection] is. *)
Definition with_self_connection {A} (body : Session -> M A) : M A :=
  let! v := self_connection in
  match v with
  | PyBoundMethod def_connection_347 => connection body
  | PyBoundMethod _ => raise (Exn TypeError "object does not support the context manager protocol")
  | PyConn _ => raise (Exn TypeError "'Connection' object is not callable")
  | PyNone => raise (Exn TypeError "'NoneType' object is not callable")
  end.

(** *** [connect], lines 563-605, and [close], lines 658-669 *)

Definition connect : M Session :=
  try_except
    (config_item "host" >> config_item "user" >> config_item "password" >>
     config_item "database" >> config_item "port" >> config_item "charset" >>
     let! c := pymysql_connect in
     modify_self (set_inst_connection (Some (PyConn c))) >> ret c)
    (fun e =>
       if isinstance e pymysql_OperationalError
       then raise (Exn ConnectionError ("数据库操作错误: " +:+ exn_str e))
       else if isinstance e pymysql_InternalError
       then raise (Exn ConnectionError ("数据库内部错误: " +:+ exn_str e))
       else if isinstance e pymysql_ProgrammingError
       then raise (Exn ConnectionError ("数据库编程错误: " +:+ exn_str e))
       else raise (Exn ConnectionError ("数据库连接失败: " +:+ exn_str e))).

Definition close : M unit :=
  let! v := self_connection in
  if truthy v then
    try_except
      (let! s := conn_attr v "close" in
       conn_close s >> modify_self (set_inst_connection (Some PyNone)))
      (fun _ => modify_self (set_inst_connection (Some PyNone)))
  else ret tt.

(** *** [execute_query]: lines 360-393, and again at lines 671-710 *)

Definition execute_query_360 (query : string) (params : option (list cfgval))
  : M (list Row) :=
  try_except
    (with_self_connection (fun conn =>
       with_cursor conn
         (cursor_execute conn query >> cursor_fetchall conn)))
    (fun e =>
       if isinstance e pymysql_ProgrammingError
       then raise (Exn QueryError ("查询语法错误: " +:+ exn_str e))
       else raise (Exn QueryError ("查询执行失败: " +:+ exn_str e))).

Definition execute_query_671 (query : string) (params : option (list cfgval))
  : M (list Row) :=
  (let! v := self_connection in
   if negb (truthy v) then connect >> ret tt else ret tt) >>
  try_except
    (let! v := self_connection in
     let! c := conn_attr v "cursor" in
     with_cursor c (cursor_execute c query >> cursor_fetchall c))
    (fun e =>
       if isinstance e pymysql_ProgrammingError
       then raise (Exn QueryError ("查询语法错误: " +:+ exn_str e))
       else if isinstance e pymysql_InternalError
       then raise (Exn QueryError ("查询内部错误: " +:+ exn_str e))
       else raise (Exn QueryError ("查询执行失败: " +:+ exn_str e))).

(** *** [execute_update]: lines 395-435, and again at lines 712-754 *)

Definition execute_update_395 (query : string) (params : option (list cfgval))
  : M Z :=
  try_except
    (with_self_connection (fun conn =>
       with_cursor conn
         (try_except
            (let! affected_rows := cursor_execute conn query in
             conn_commit conn >> ret affected_rows)
            (fun e =>
               if isinstance e pymysql_IntegrityError
               then conn_rollback conn >>
                    raise (Exn UpdateError ("数据完整性错误: " +:+ exn_str e))
               else conn_rollback conn >>
                    raise (Exn UpdateError ("更新执行失败: " +:+ exn_str e))))))
    (fun e =>
       if isinstance e UpdateError then raise e
       else raise (Exn UpdateError ("更新操作异常: " +:+ exn_str e))).

(** [self.connection.rollback()] *)
Definition self_connection_rollback : M unit :=
  let! v := self_connection in
  let! c := conn_attr v "rollback" in conn_rollback c.

Definition execute_update_712 (query : string) (params : option (list cfgval))
  : M Z :=
  (let! v := self_connection in
   if negb (truthy v) then connect >> ret tt else ret tt) >>
  try_except
    (let! v := self_connection in
     let! c := conn_attr v "cursor" in
     with_cursor c
       (let! affected_rows := cursor_execute c query in
        (let! v' := self_connection in
         let! c' := conn_attr v' "commit" in conn_commit c') >>
        ret affected_rows))
    (fun e =>
       if isinstance e pymysql_IntegrityError
       then self_connection_rollback >>
            raise (Exn UpdateError ("数据完整性错误: " +:+ exn_str e))
       else if isinstance e pymysql_ProgrammingError
       then self_connection_rollback >>
            raise (Exn UpdateError ("更新语法错误: " +:+ exn_str e))
       else self_connection_rollback >>
            raise (Exn UpdateError ("更新执行失败: " +:+ exn_str e))).

(** *** Method calls on a pool object

    [pool.execute_query(...)] runs the function that the class dict binds
    to the name. *)
Definition no_attribute {A} (name : string) : M A :=
  raise (Exn AttributeError
    ("'MySQLConnectionPool' object has no attribute '" +:+ name +:+ "'")).

Definition execute_query (query : string) (params : option (list cfgval))
  : M (list Row) :=
  match MySQLConnectionPool_dict !! "execute_query" with
  | Some def_execute_query_360 => execute_query_360 query params
  | Some def_execute_query_671 => execute_query_671 query params
  | _ => no_attribute "execute_query"
  end.

Definition execute_update (query : string) (params : option (list cfgval))
  : M Z :=
  match MySQLConnectionPool_dict !! "execute_update" with
  | Some def_execute_update_395 => execute_update_395 query params
  | Some def_execute_update_712 => execute_update_712 query params
  | _ => no_attribute "execute_update"
  end.

End PoolMethods.

(** ** Building a pool from a configuration file *)

(** What a path holds: nothing, text that [json.load] rejects with the
    [JSONDecodeError] of text [msg], or a JSON object.  (The files of the
    model are these; a file that cannot be read, and one that holds a JSON
    value other than an object, are left out.) *)
Inductive file_content :=
| NotJSON (msg : string)
| JSONObject (d : gmap string cfgval).

(** The files: what each path holds, and [str(e)] of the [OSError] that
    [open] raises for a path that holds nothing. *)
Record FileSystem := mkFileSystem {
  fs_content :> string -> option file_content;
  fs_strerror : string -> string
}.

Section ConfigFile.

Variable env : Env.
Variable fs : FileSystem.

(** [cls(...)]: the constructor call; the new object is the result. *)
Definition cls (a : InitArgs) : MS (list Event) Pool := fun tr =>
  match __init__ env a tr with
  | (Ok _, st) => (Ok (self st), trace st)
  | (Raise e, st) => (Raise e, trace st)
  | (Blocked, st) => (Blocked, trace st)
  end.

(** [with open(config_file) as f: json.load(f)] *)
Definition open_json_load (config_file : string) : MS (list Event) (gmap string cfgval) :=
  match fs config_file with
  | None => raise (Exn IOError (fs_strerror fs config_file))
  | Some (NotJSON msg) => raise (Exn JSONDecodeError msg)
  | Some (JSONObject d) => ret d
  end.

Definition required_fields : list string := ["host"; "user"; "password"; "database"].

(** Lines 494-497: the first required key that [config] lacks raises. *)
Fixpoint check_required (fields : list string) (config : gmap string cfgval)
  : MS (list Event) unit :=
  match fields with
  | [] => ret tt
  | field :: rest =>
      if bool_decide (config !! field = None)
      then raise (Exn ValueError ("配置文件缺少必要项: " +:+ field))
      else check_required rest config
  end.

(** Lines 461-507. *)
Definition from_config_file_462 (config_file : string) (min_connections max_connections : Z)
  : MS (list Event) Pool :=
  try_except
    ((if bool_decide (fs config_file = None)
      then raise (Exn IOError ("配置文件不存在: " +:+ config_file))
      else ret tt) >>
     let! config :=
       try_except (open_json_load config_file)
         (fun e => if isinstance e JSONDecodeError
                   then raise (Exn ValueError ("配置文件格式错误: " +:+ exn_str e))
                   else raise e) in
     check_required required_fields config >>
     cls (mkInitArgs min_connections max_connections
            (arg_host default_args) (arg_user default_args)
            (arg_password default_args) (arg_database default_args)
            (arg_port default_args) (arg_charset default_args)
            (Some config) (arg_connection_timeout default_args)))
    (fun e =>
       if isinstance e IOError || isinstance e ValueError then raise e
       else raise (Exn Exception ("从配置文件加载失败: " +:+ exn_str e))).

(** Lines 607-623. *)
Definition from_config_file_608 (config_file : string) : MS (list Event) Pool :=
  try_except
    (let! config := open_json_load config_file in
     cls (mkInitArgs (arg_min_connections default_args) (arg_max_connections default_args)
            (arg_host default_args) (arg_user default_args)
            (arg_password default_args) (arg_database default_args)
            (arg_port default_args) (arg_charset default_args)
            (Some config) (arg_connection_timeout default_args)))
    (fun e => raise (Exn Exception ("从配置文件加载失败: " +:+ exn_str e))).

(** [MySQLConnectionPool.from_config_file(config_file)]: the function the
    class dict binds to the name. *)
Definition from_config_file (config_file : string) : MS (list Event) Pool :=
  match MySQLConnectionPool_dict !! "from_config_file" with
  | Some def_from_config_file_462 => from_config_file_462 config_file 5 20
  | Some def_from_config_file_608 => from_config_file_608 config_file
  | _ => raise (Exn AttributeError
           "type object 'MySQLConnectionPool' has no attribute 'from_config_file'")
  end.

End ConfigFile.

(** ** Notions used in the statements *)

(** Whether backend call number [length (trace st)] returns normally. *)
Definition call_ok (env : Env) (st : St) : bool :=
  match env_raises env (length (trace st)) with None => true | Some _ => false end.

(** The values stored to [current_connections], oldest first. *)
Definition stored (ev : Event) : option Z :=
  match ev with EvCounter v _ => Some v | _ => None end.
Definition stores (tr : list Event) : list Z := omap stored tr.

(** What the bound on the pool size is about: the maximum, the counter,
    and every value the counter has had. *)
Definition view (st : St) : Z * Z * list Z :=
  (max_connections (self st), current_connections (self st), stores (trace st)).

(** The view after [current_connections += d]. *)
Definition bump (d : Z) (v : Z * Z * list Z) : Z * Z * list Z :=
  (v.1.1, v.1.2 + d, v.2 ++ [v.1.2 + d]).

(** A computation that leaves the view alone, however it ends. *)
Definition neutral {A} (c : M A) : Prop := forall st, view (c st).2 = view st.

(** The counter, now and at every earlier moment, is at most the maximum. *)
Definition within_max (st : St) : Prop :=
  current_connections (self st) <= max_connections (self st) /\
  Forall (fun v => v <= max_connections (self st)) (stores (trace st)).

(** A caller's calls, one after the other.  A call that raises returns
    the error to the caller, who goes on; a call that blocks for ever ends
    the run. *)
Inductive call :=
| Acquire
| Release (connection : Session).

Definition do_call (env : Env) (c : call) : M unit :=
  match c with
  | Acquire => get_connection env >> ret tt
  | Release connection => release_connection env connection
  end.

Fixpoint run_calls (env : Env) (cs : list call) (st : St) : St :=
  match cs with
  | [] => st
  | c :: cs' =>
      match do_call env c st with
      | (Blocked, st') => st'
      | (_, st') => run_calls env cs' st'
      end
  end.

(** The sessions that were opened and not closed since. *)
Definition live_step (X : gset Session) (ev : Event) : gset Session :=
  match ev with
  | EvConnect (Some s) => X ∪ {[s]}
  | EvClose s _ => X ∖ {[s]}
  | _ => X
  end.
Definition live_sessions (tr : list Event) : gset Session := foldl live_step ∅ tr.

(** An environment given by the list of the outcomes of the first calls
    ([None]: the call succeeds); later calls succeed, nobody else releases
    a session. *)
Definition scripted (outcomes : list (option exn)) : Env :=
  mkEnv (fun t => default None (outcomes !! t)) (fun _ => []) (fun _ => 1) (fun _ => None).

Definition server_gone : exn :=
  Exn pymysql_OperationalError "(2006, 'MySQL server has gone away')".

(** The state on entering and on leaving [with self.lock]. *)
Definition enter_lock (st : St) : St := on_self (fun p => set_lock (S (lock p)) p) st.
Definition leave_lock (st : St) : St := on_self (fun p => set_lock (pred (lock p)) p) st.

(** The message of [PoolExhaustedError], line 294. *)
Definition exhausted_message (timeout : Z) : string :=
  "连接池资源耗尽，无法获取连接，超时时间: " +:+ str_int timeout +:+ "秒".

(** ** Concrete pools and backends used in the examples *)

(** [MySQLConnectionPool(min_connections=-1, max_connections=-1)] *)
Definition negative_args : InitArgs :=
  mkInitArgs (-1) (-1) "localhost" "root" "" "" 3306 "utf8mb4" None 30.

(** [MySQLConnectionPool(min_connections=1, max_connections=2)] *)
Definition small_args : InitArgs :=
  mkInitArgs 1 2 "localhost" "root" "" "" 3306 "utf8mb4" None 30.

(** [MySQLConnectionPool(min_connections=1, max_connections=1)] *)
Definition single_args : InitArgs :=
  mkInitArgs 1 1 "localhost" "root" "" "" 3306 "utf8mb4" None 30.

(** A backend that serves three calls and is gone after that. *)
Definition stale_env : Env :=
  scripted [None; None; None; Some server_gone; Some server_gone].

(** [MySQLConnectionPool(min_connections=2, max_connections=2)] *)
Definition pair_args : InitArgs :=
  mkInitArgs 2 2 "localhost" "root" "" "" 3306 "utf8mb4" None 30.


(** The backend serves the warm-up of [pair_args] and then goes away:
    pings and connects fail, closes return. *)
Definition outage_env : Env :=
  scripted [None; None; None; None;
            Some server_gone; None; Some server_gone;
            Some server_gone; None; Some server_gone].

(** As [outage_env], but the backend is back for the second connect. *)
Definition flapping_env : Env :=
  scripted [None; None; None; None;
            Some server_gone; None; Some server_gone;
            Some server_gone; None; None].

(** The backend serves the warm-up of [small_args]; then the idle session
    is stale and the first attempt to replace it fails, the next connect
    is served. *)
Definition hiccup_env : Env :=
  scripted [None; None; Some server_gone; None; Some server_gone; None].

(** A configuration file without the key "host". *)
Definition config_without_host : gmap string cfgval :=
  <["user" := CStr "app"]> (<["password" := CStr "secret"]> (<["database" := CStr "shop"]> ∅)).

(** One file, "db.json"; the other paths used in the examples are plain
    names, for which [open] reports the name in quotes. *)
Definition one_file_fs : FileSystem :=
  mkFileSystem
    (fun path => if bool_decide (path = "db.json") then Some (JSONObject config_without_host)
                 else None)
    (fun path => "[Errno 2] No such file or directory: '" +:+ path +:+ "'").

(** The arguments the function of line 608 passes to the constructor. *)
Definition file_args (d : gmap string cfgval) : InitArgs :=
  mkInitArgs 5 20 "localhost" "root" "" "" 3306 "utf8mb4" (Some d) 30.

(** ** More of the class: masking, shutdown, reconfiguration, environment *)

(** [_safe_config_static], lines 535-549: a copy of the dict in which the
    password, when there is one, reads ["******"].  The bodies of
    [_safe_config] (lines 171-181 and 551-561, on [self.config]) and of
    [MySQLConnection._safe_config] (lines 99-109) are the same. *)
Definition _safe_config_static (config : gmap string cfgval) : gmap string cfgval :=
  match config !! "password" with
  | Some _ => <["password" := CStr "******"]> config
  | None => config
  end.

Definition _safe_config : M (gmap string cfgval) :=
  let! p := get_self in ret (_safe_config_static (config p)).

Section MoreMethods.

Variable env : Env.

(** *** [close_all_connections], lines 437-459

    The [while] loop runs on fuel; [None] is "out of fuel".  The result
    of a finished run is the pair [(closed_count, error_count)] that the
    last log line reports. *)
Fixpoint drain_loop (fuel : nat) (closed_count error_count : Z) : M (option (Z * Z)) :=
  match fuel with
  | O => ret None
  | S fuel' =>
      let! p := get_self in
      if bool_decide (items (connection_queue p) = [])
      then ret (Some (closed_count, error_count))
      else
        let! counts :=
          try_except
            (let! connection := queue_get_nowait in
             try_except
               (conn_close env connection >> ret (closed_count + 1, error_count))
               (fun _ => ret (closed_count, error_count + 1)))
            (fun _ => ret (closed_count, error_count)) in
        drain_loop fuel' counts.1 counts.2
  end.

Definition close_all_connections (fuel : nat) : M (option (Z * Z)) :=
  with_lock
    (let! r := drain_loop fuel 0 0 in
     match r with
     | Some counts => store_current 0 >> ret (Some counts)
     | None => ret None
     end).

(** *** [update_config], lines 644-656 *)
Definition update_config (config_dict : option (gmap string cfgval)) : M unit :=
  match config_dict with
  | None => ret tt
  | Some d =>
      if bool_decide (d = ∅) then ret tt
      else
        modify_self (fun p => set_config (d ∪ config p) p) >>
        let! v := self_connection in
        if truthy v then close env >> (connect env >> ret tt) else ret tt
  end.

End MoreMethods.

(** *** The constructor with its [log_level], lines 119-169

    [self.log_level = log_level; logger.setLevel(log_level)] are the
    first statements of the constructor, and [logging] raises for a level
    it does not accept ([ValueError] for a name it does not know,
    [TypeError] for a value that is neither an [int] nor a [str]).
    [setLevel] is that answer of the [logging] module: the exception it
    raises for a level, if any. *)
Section LogLevel.

Context {Level : Type}.
Variable setLevel : Level -> option exn.
Variable env : Env.


End LogLevel.

(** *** [from_env], lines 509-533 and again at lines 625-642

    [os.environ] is a map from names to strings; the builtin [int] on a
    string is a parameter: the number it returns, or [str(e)] of the
    [ValueError] it raises. *)
Section FromEnv.

Variable env : Env.
Variable environ : gmap string string.
Variable py_int : string -> Z + string.

(** [os.getenv(name, default)] for a string default. *)
Definition getenv (name fallback : string) : string := default fallback (environ !! name).

(** [int(os.getenv('MYSQL_PORT', 3306))] *)
Definition getenv_port : MS (list Event) Z :=
  match environ !! "MYSQL_PORT" with
  | None => ret 3306
  | Some s =>
      match py_int s with
      | inl n => ret n
      | inr msg => raise (Exn ValueError msg)
      end
  end.

(** The dict literal of lines 522-529 and 634-641. *)
Definition environ_config : MS (list Event) (gmap string cfgval) :=
  let! port := getenv_port in
  ret (<["host" := CStr (getenv "MYSQL_HOST" "localhost")]> (
       <["user" := CStr (getenv "MYSQL_USER" "root")]> (
       <["password" := CStr (getenv "MYSQL_PASSWORD" "")]> (
       <["database" := CStr (getenv "MYSQL_DATABASE" "")]> (
       <["port" := CInt port]> (
       <["charset" := CStr (getenv "MYSQL_CHARSET" "utf8mb4")]> ∅)))))).

Definition from_env_510 (min_connections max_connections : Z) : MS (list Event) Pool :=
  let! config := environ_config in
  cls env (mkInitArgs min_connections max_connections
             (arg_host default_args) (arg_user default_args)
             (arg_password default_args) (arg_database default_args)
             (arg_port default_args) (arg_charset default_args)
             (Some config) (arg_connection_timeout default_args)).

Definition from_env_626 : MS (list Event) Pool :=
  let! config := environ_config in
  cls env (mkInitArgs (arg_min_connections default_args) (arg_max_connections default_args)
             (arg_host default_args) (arg_user default_args)
             (arg_password default_args) (arg_database default_args)
             (arg_port default_args) (arg_charset default_args)
             (Some config) (arg_connection_timeout default_args)).

(** [MySQLConnectionPool.from_env()] *)
Definition from_env : MS (list Event) Pool :=
  match MySQLConnectionPool_dict !! "from_env" with
  | Some def_from_env_510 => from_env_510 5 20
  | Some def_from_env_626 => from_env_626
  | _ => raise (Exn AttributeError
           "type object 'MySQLConnectionPool' has no attribute 'from_env'")
  end.

End FromEnv.

(** ** Notions used in the further statements *)

(** A backend that answers every call. *)
Definition healthy (env : Env) : Prop := forall t, env_raises env t = None.

(** The six keys that [pymysql.connect] is given. *)
Definition connect_keys : list string :=
  ["host"; "user"; "password"; "database"; "port"; "charset"].
Definition complete (c : gmap string cfgval) : Prop :=
  Forall (fun k => is_Some (c !! k)) connect_keys.

(** The stores to the counter in a trace, with whether the lock was held. *)
Definition locked_store (ev : Event) : option bool :=
  match ev with EvCounter _ locked => Some locked | _ => None end.
Definition store_locks (tr : list Event) : list bool := omap locked_store tr.

(** A computation that keeps an observation [g] of the state, however
    it ends; one that is never left waiting on the queue. *)
Definition keeps {X A} (g : St -> X) (c : M A) : Prop := forall st, g (c st).2 = g st.
Definition nonblocking {A} (c : M A) : Prop := forall st, (c st).1 <> Blocked.

(** An observation that neither a backend event nor a change of the idle
    queue touches. *)
Record insensitive {X} (g : St -> X) : Prop := mkInsensitive {
  ins_record : forall ev st, stored ev = None -> g (record ev st) = g st;
  ins_items : forall l st, g (on_self (set_items l) st) = g st
}.

Definition acquisition_error (e : exn) : Prop :=
  exn_cls e = ConnectionError \/ exn_cls e = PoolExhaustedError.

(** The [ConnectionError] into which [_create_connection] turns an
    exception of [pymysql.connect], lines 229-237. *)
Definition create_error (e : exn) : exn :=
  Exn ConnectionError
    (if isinstance e pymysql_OperationalError
     then "创建连接失败 - 操作错误: " +:+ exn_str e
     else if isinstance e pymysql_ProgrammingError
     then "创建连接失败 - 配置错误: " +:+ exn_str e
     else "创建连接失败: " +:+ exn_str e).

(** How many of the outcomes are [b]. *)
Definition count_of (b : bool) (oks : list bool) : Z :=
  Z.of_nat (count_occ Bool.bool_dec oks b).

(** How a pooled statement helper ends: the outcome [r] of its block goes
    through [release_connection] on the session it acquired. *)
Definition after_release {A} (env : Env) (conn : Session) (r : Res A) (st2 : St)
  : Res A * St :=
  match release_connection env conn st2 with
  | (Blocked, st3) => (Blocked, st3)
  | (_, st3) => (r, st3)
  end.

(** The text of the [UpdateError] of lines 422-429 for an exception of the
    statement. *)
Definition update_message (e : exn) : string :=
  if isinstance e pymysql_IntegrityError
  then "数据完整性错误: " +:+ exn_str e
  else "更新执行失败: " +:+ exn_str e.

(** The text of the [QueryError] of lines 386-393. *)
Definition query_message (e : exn) : string :=
  if isinstance e pymysql_ProgrammingError
  then "查询语法错误: " +:+ exn_str e
  else "查询执行失败: " +:+ exn_str e.

(** The text of the [ConnectionError] of [connect], lines 590-605. *)
Definition connect_message (e : exn) : string :=
  if isinstance e pymysql_OperationalError then "数据库操作错误: " +:+ exn_str e
  else if isinstance e pymysql_InternalError then "数据库内部错误: " +:+ exn_str e
  else if isinstance e pymysql_ProgrammingError then "数据库编程错误: " +:+ exn_str e
  else "数据库连接失败: " +:+ exn_str e.

(** The text of the [QueryError] of lines 699-710. *)
Definition query_message_671 (e : exn) : string :=
  if isinstance e pymysql_ProgrammingError then "查询语法错误: " +:+ exn_str e
  else if isinstance e pymysql_InternalError then "查询内部错误: " +:+ exn_str e
  else "查询执行失败: " +:+ exn_str e.

(** The text of the [UpdateError] of lines 740-754. *)
Definition update_message_712 (e : exn) : string :=
  if isinstance e pymysql_IntegrityError then "数据完整性错误: " +:+ exn_str e
  else if isinstance e pymysql_ProgrammingError then "更新语法错误: " +:+ exn_str e
  else "更新执行失败: " +:+ exn_str e.

(** The required keys that a configuration lacks, in the order in which
    they are checked. *)
Definition missing_fields (d : gmap string cfgval) : list string :=
  filter (fun k => d !! k = None) required_fields.

(** The arguments that the function of line 462 passes to the
    constructor. *)
Definition sized_file_args (min_connections max_connections : Z)
    (d : gmap string cfgval) : InitArgs :=
  mkInitArgs min_connections max_connections "localhost" "root" "" "" 3306 "utf8mb4"
             (Some d) 30.

(** The names [from_env] reads. *)
Definition environ_names : list string :=
  ["MYSQL_HOST"; "MYSQL_USER"; "MYSQL_PASSWORD"; "MYSQL_DATABASE"; "MYSQL_PORT";
   "MYSQL_CHARSET"].


(** ** Concrete pools and backends used in the further examples *)

(** [MySQLConnectionPool(min_connections=3, max_connections=2)] *)
Definition inverted_args : InitArgs :=
  mkInitArgs 3 2 "localhost" "root" "" "" 3306 "utf8mb4" None 30.

(** A backend that answers every call. *)
Definition calm_env : Env := scripted [].

(** The pool of [small_args] after its warm-up: one idle session, 0. *)
Definition warm_pool : St := (__init__ calm_env small_args []).2.

(** The same pool with its session checked out. *)
Definition busy_pool : St := (get_connection calm_env warm_pool).2.

(** The pool of [pair_args] after its warm-up: idle sessions 0 and 2. *)
Definition warm_pair : St := (__init__ calm_env pair_args []).2.

Definition duplicate_key : exn :=
  Exn pymysql_IntegrityError "(1062, 'Duplicate entry')".
Definition syntax_error : exn :=
  Exn pymysql_ProgrammingError "(1064, 'You have an error in your SQL syntax')".

(** The backend serves the warm-up of [small_args], the ping of the
    acquisition and the cursor; then the statement fails. *)
Definition duplicate_env : Env := scripted [None; None; None; None; Some duplicate_key].
Definition syntax_env : Env := scripted [None; None; None; None; Some syntax_error].
(** ... and the rollback fails as well. *)
Definition broken_rollback_env : Env :=
  scripted [None; None; None; None; Some duplicate_key; Some server_gone].

(** The warm pool of [small_args] after [connect]: session 2 is its own
    connection. *)
Definition connected_pool : St := (connect calm_env warm_pool).2.

(** The backend serves the warm-up and [connect] and the cursor; then
    the statement fails. *)
Definition own_syntax_env : Env := scripted [None; None; None; None; Some syntax_error].
(** ... the cursor closes and the rollback fails. *)
Definition own_broken_rollback_env : Env :=
  scripted [None; None; None; None; Some duplicate_key; None; Some server_gone].

(** The warm pool of [small_args] after [close]. *)
Definition closed_pool : St := (close calm_env warm_pool).2.

(** The backend serves the warm-up of [small_args] and is gone. *)
Definition gone_env : Env := scripted [None; None; Some server_gone].

(** [int] on the strings of the examples, "3307" and "three" (its answer
    for any other string is not used). *)
Definition example_int (s : string) : Z + string :=
  if bool_decide (s = "3307") then inl 3307
  else inr "invalid literal for int() with base 10: 'three'".
(** * Properties *)

(** ** Equations of the monad *)

Section MonadLaws.

Context {S A B : Type}.

Lemma bind_Ok (c : MS S A) (k : A -> MS S B) st a st' :
  c st = (Ok a, st') -> bind c k st = k a st'.
Proof. unfold bind. intros ->. reflexivity. Qed.

Lemma bind_Raise (c : MS S A) (k : A -> MS S B) st e st' :
  c st = (Raise e, st') -> bind c k st = (Raise e, st').
Proof. unfold bind. intros ->. reflexivity. Qed.

Lemma bind_Blocked (c : MS S A) (k : A -> MS S B) st st' :
  c st = (Blocked, st') -> bind c k st = (Blocked, st').
Proof. unfold bind. intros ->. reflexivity. Qed.

Lemma try_except_Ok (c : MS S A) h st a st' :
  c st = (Ok a, st') -> try_except c h st = (Ok a, st').
Proof. unfold try_except. intros ->. reflexivity. Qed.

Lemma try_except_Raise (c : MS S A) h st e st' :
  c st = (Raise e, st') -> try_except c h st = h e st'.
Proof. unfold try_except. intros ->. reflexivity. Qed.

Lemma try_except_Blocked (c : MS S A) h st st' :
  c st = (Blocked, st') -> try_except c h st = (Blocked, st').
Proof. unfold try_except. intros ->. reflexivity. Qed.

(** [except Exception as e: ...; raise] changes nothing. *)
Lemma try_except_reraise (c : MS S A) st :
  try_except c (fun e => raise e) st = c st.
Proof. unfold try_except, raise. destruct (c st) as [[a|e|] st']; reflexivity. Qed.

End MonadLaws.

(** ** The liveness probe *)

Lemma is_connection_valid_eq env connection st :
  _is_connection_valid env connection st =
  (Ok (call_ok env st), record (EvPing connection false (call_ok env st)) st).
Proof.
  unfold _is_connection_valid, try_except, bind, conn_ping, backend_call, call_ok, ret.
  destruct (env_raises env (length (trace st))); reflexivity.
Qed.

(** C9.  The liveness probe [_is_connection_valid] is total: on every
    session, in every state and against every backend it returns a
    boolean and never raises; the boolean is [false] exactly when the
    underlying ping failed; the only thing it does is one ping with
    [reconnect=False], and the pool object is left as it was. *)
Theorem is_connection_valid_total (env : Env) (connection : Session) (st : St) :
  exists b : bool,
    _is_connection_valid env connection st =
      (Ok b, mkSt (self st) (trace st ++ [EvPing connection false b])) /\
    (b = false <-> env_raises env (length (trace st)) <> None).
Proof.
  exists (call_ok env st). split.
  - apply is_connection_valid_eq.
  - unfold call_ok. destruct (env_raises env (length (trace st))); split; congruence.
Qed.

(** ** Computations that leave the counter alone *)

Section Neutral.

Context {A B : Type}.

Lemma neutral_ret (a : A) : neutral (ret a).
Proof. intros st. reflexivity. Qed.

Lemma neutral_raise (e : exn) : neutral (@raise St A e).
Proof. intros st. reflexivity. Qed.

Lemma neutral_bind (c : M A) (k : A -> M B) :
  neutral c -> (forall a, neutral (k a)) -> neutral (bind c k).
Proof.
  intros Hc Hk st. unfold bind. specialize (Hc st).
  destruct (c st) as [[a|e|] st']; simpl in *; try assumption.
  rewrite Hk. assumption.
Qed.

Lemma neutral_try_except (c : M A) (h : exn -> M A) :
  neutral c -> (forall e, neutral (h e)) -> neutral (try_except c h).
Proof.
  intros Hc Hh st. unfold try_except. specialize (Hc st).
  destruct (c st) as [[a|e|] st']; simpl in *; try assumption.
  rewrite Hh. assumption.
Qed.

Lemma neutral_try_finally (c : M A) (fin : M unit) :
  neutral c -> neutral fin -> neutral (try_finally c fin).
Proof.
  intros Hc Hf st. unfold try_finally. specialize (Hc st).
  destruct (c st) as [[a|e|] st']; simpl in *; try assumption.
  - unfold bind. specialize (Hf st'). destruct (fin st') as [[[]|e'|] st'']; simpl in *; congruence.
  - unfold bind. specialize (Hf st'). destruct (fin st') as [[[]|e'|] st'']; simpl in *; congruence.
Qed.

Lemma neutral_if (b : bool) (c1 c2 : M A) :
  neutral c1 -> neutral c2 -> neutral (if b then c1 else c2).
Proof. destruct b; auto. Qed.

End Neutral.

Lemma neutral_absorb (c : M unit) : neutral c -> neutral (absorb c).
Proof. intros. apply neutral_try_except; auto using @neutral_ret. Qed.

Lemma stores_app tr1 tr2 : stores (tr1 ++ tr2) = stores tr1 ++ stores tr2.
Proof. apply omap_app. Qed.

Lemma view_record ev st : stored ev = None -> view (record ev st) = view st.
Proof.
  intros H. unfold view, record. simpl. rewrite stores_app. simpl.
  rewrite H. simpl. rewrite app_nil_r. reflexivity.
Qed.

Lemma neutral_get_self : neutral get_self.
Proof. intros st. reflexivity. Qed.

Lemma neutral_modify_self f :
  (forall p, max_connections (f p) = max_connections p /\
             current_connections (f p) = current_connections p) ->
  neutral (modify_self f).
Proof.
  intros H st. unfold view, modify_self, on_self. simpl.
  destruct (H (self st)) as [-> ->]. reflexivity.
Qed.

Lemma neutral_backend_call env ev :
  (forall ok, stored (ev ok) = None) -> neutral (backend_call env ev).
Proof.
  intros H st. unfold backend_call.
  destruct (env_raises env (length (trace st))); simpl; apply view_record, H.
Qed.

Lemma neutral_pymysql_connect env : neutral (pymysql_connect env).
Proof.
  intros st. unfold pymysql_connect.
  destruct (env_raises env (length (trace st))); simpl; apply view_record; reflexivity.
Qed.

Lemma neutral_config_item key : neutral (config_item key).
Proof. intros st. unfold config_item. destruct (config (self st) !! key); reflexivity. Qed.

Lemma neutral_queue_get_nowait : neutral queue_get_nowait.
Proof.
  intros st. unfold queue_get_nowait.
  destruct (items (connection_queue (self st))); reflexivity.
Qed.

Lemma neutral_queue_get_timeout env t : neutral (queue_get_timeout env t).
Proof.
  intros st. unfold queue_get_timeout.
  destruct (t <? 0); [reflexivity|].
  destruct (items (connection_queue (self st))); [|reflexivity].
  destruct (env_released env (length (trace st))); simpl; apply view_record; reflexivity.
Qed.

Lemma neutral_queue_put s : neutral (queue_put s).
Proof.
  intros st. unfold queue_put.
  destruct (queue_full (connection_queue (self st))); reflexivity.
Qed.

Create HintDb neutral.
#[local] Hint Resolve neutral_ret neutral_raise neutral_bind neutral_try_except
  neutral_try_finally neutral_if neutral_absorb neutral_get_self neutral_backend_call
  neutral_pymysql_connect neutral_config_item neutral_queue_get_nowait
  neutral_queue_get_timeout neutral_queue_put : neutral.

Lemma neutral_create_connection env : neutral (_create_connection env).
Proof.
  unfold _create_connection. apply neutral_try_except.
  - repeat (apply neutral_bind; [auto with neutral | intros _]). auto with neutral.
  - intros e. repeat apply neutral_if; auto with neutral.
Qed.

Lemma neutral_is_connection_valid env s : neutral (_is_connection_valid env s).
Proof.
  intros st. rewrite is_connection_valid_eq. simpl. apply view_record. reflexivity.
Qed.

Lemma neutral_conn_close env s : neutral (conn_close env s).
Proof. apply neutral_backend_call. reflexivity. Qed.

Lemma neutral_replace_invalid env s : neutral (replace_invalid env s).
Proof.
  unfold replace_invalid. apply neutral_bind; [|intros _; apply neutral_create_connection].
  apply neutral_absorb, neutral_conn_close.
Qed.

#[local] Hint Resolve neutral_create_connection neutral_is_connection_valid
  neutral_conn_close neutral_replace_invalid : neutral.

Lemma neutral_fast_path env : neutral (fast_path env).
Proof.
  unfold fast_path. apply neutral_bind; [auto with neutral|]. intros c.
  apply neutral_bind; [auto with neutral|]. intros b.
  apply neutral_if; auto with neutral.
Qed.

Lemma neutral_wait_path env : neutral (wait_path env).
Proof.
  unfold wait_path. apply neutral_bind; [auto with neutral|]. intros p.
  apply neutral_try_except; [|auto with neutral].
  apply neutral_bind; [auto with neutral|]. intros c.
  apply neutral_bind; [auto with neutral|]. intros b.
  apply neutral_if; auto with neutral.
Qed.

(** ** The lock *)

Lemma with_lock_eq {A} (body : M A) st :
  with_lock body st =
  match body (enter_lock st) with
  | (Blocked, st') => (Blocked, st')
  | (r, st') => (r, leave_lock st')
  end.
Proof.
  unfold with_lock, bind, modify_self, try_finally, ret, raise. simpl.
  fold (enter_lock st).
  destruct (body (enter_lock st)) as [[a|e|] st']; reflexivity.
Qed.

Lemma leave_enter_lock st : leave_lock (enter_lock st) = st.
Proof. destruct st as [[] ?]. reflexivity. Qed.

Lemma view_enter_lock st : view (enter_lock st) = view st.
Proof. reflexivity. Qed.

Lemma view_leave_lock st : view (leave_lock st) = view st.
Proof. reflexivity. Qed.

Lemma neutral_with_lock {A} (body : M A) : neutral body -> neutral (with_lock body).
Proof.
  intros H st. rewrite with_lock_eq. specialize (H (enter_lock st)).
  destruct (body (enter_lock st)) as [[a|e|] st']; simpl in *;
    rewrite ?view_leave_lock, H; apply view_enter_lock.
Qed.

(** ** Acquiring from a full pool *)

(** On an empty queue the fast path raises [queue.Empty] at once. *)
Lemma fast_path_empty env st :
  items (connection_queue (self st)) = [] ->
  fast_path env st = (Raise (Exn queue_Empty ""), st).
Proof.
  intros H. unfold fast_path, bind, queue_get_nowait. rewrite H. reflexivity.
Qed.

(** At the maximum the locked block creates nothing and falls through. *)
Lemma grow_path_full env st :
  max_connections (self st) <= current_connections (self st) ->
  grow_path env st = (Ok None, st).
Proof.
  intros H. unfold grow_path. rewrite with_lock_eq.
  unfold bind, get_self. simpl.
  destruct (Z.ltb_spec (current_connections (self st)) (max_connections (self st))); [lia|].
  unfold ret. rewrite leave_enter_lock. reflexivity.
Qed.

(** Any exception of the fast path hands over to the grow-or-wait code. *)
Lemma get_connection_after_fast_path env st e st1 :
  fast_path env st = (Raise e, st1) ->
  get_connection env st = grow_or_wait env st1.
Proof.
  intros H. unfold get_connection. rewrite try_except_reraise.
  exact (try_except_Raise _ (fun _ => grow_or_wait env) _ _ _ H).
Qed.

Lemma get_connection_fast_path_Ok env st c st1 :
  fast_path env st = (Ok c, st1) ->
  get_connection env st = (Ok c, st1).
Proof.
  intros H. unfold get_connection. rewrite try_except_reraise.
  exact (try_except_Ok _ (fun _ => grow_or_wait env) _ _ _ H).
Qed.

(** C3.  When [current_connections] equals [max_connections], every
    session is checked out (the idle queue is empty) and no session is
    released while the call waits, [get_connection] returns (it does not
    block for ever) by raising [PoolExhaustedError], whose message holds
    the decimal text of the configured [connection_timeout]; the pool
    object is left as it was. *)
Theorem get_connection_exhausted (env : Env) (st : St) :
  current_connections (self st) = max_connections (self st) ->
  items (connection_queue (self st)) = [] ->
  env_released env (length (trace st)) = None ->
  exists st',
    get_connection env st =
      (Raise (Exn PoolExhaustedError (exhausted_message (connection_timeout (self st)))),
       st') /\
    self st' = self st /\
    exists pre post,
      exhausted_message (connection_timeout (self st)) =
      pre +:+ str_int (connection_timeout (self st)) +:+ post.
Proof.
  intros Hfull Hempty Hnone.
  exists (if connection_timeout (self st) <? 0 then st else record (EvWait None) st).
  rewrite (get_connection_after_fast_path env st _ st (fast_path_empty env st Hempty)).
  unfold grow_or_wait. rewrite (bind_Ok _ _ _ _ _ (grow_path_full env st ltac:(lia))).
  unfold wait_path, bind, get_self, try_except, queue_get_timeout.
  assert (Hmsg : exists pre post,
             exhausted_message (connection_timeout (self st)) =
             pre +:+ str_int (connection_timeout (self st)) +:+ post).
  { exists "连接池资源耗尽，无法获取连接，超时时间: ", "秒". reflexivity. }
  destruct (connection_timeout (self st) <? 0).
  - split; [reflexivity|]. split; [reflexivity|exact Hmsg].
  - rewrite Hempty, Hnone. split; [reflexivity|]. split; [reflexivity|exact Hmsg].
Qed.

(** A pool of one whose only session is checked out. *)
Lemma get_connection_exhausted_witness :
  let st := run_calls (scripted []) [Acquire] (__init__ (scripted []) single_args []).2 in
  current_connections (self st) = 1 /\
  exists st',
    get_connection (scripted []) st =
      (Raise (Exn PoolExhaustedError (exhausted_message 30)), st') /\
    self st' = self st /\
    exists pre post, exhausted_message 30 = pre +:+ str_int 30 +:+ post.
Proof.
  split; [reflexivity|].
  apply (get_connection_exhausted (scripted [])
           (run_calls (scripted []) [Acquire] (__init__ (scripted []) single_args []).2));
    reflexivity.
Defined.

(** ** Equations of the methods *)

Lemma view_add_current d st : view (add_current d st).2 = bump d (view st).
Proof.
  unfold add_current, bind, get_self, store_current, view, bump. simpl.
  rewrite stores_app. reflexivity.
Qed.

Lemma add_current_Ok d st : exists st', add_current d st = (Ok tt, st').
Proof. eexists. reflexivity. Qed.

Lemma grow_path_eq env st :
  grow_path env st =
  if current_connections (self st) <? max_connections (self st) then
    match _create_connection env (enter_lock st) with
    | (Ok c, st1) => (Ok (Some c), leave_lock (add_current 1 st1).2)
    | (Raise e, st1) =>
        (Raise (Exn ConnectionError ("创建新连接失败: " +:+ exn_str e)), leave_lock st1)
    | (Blocked, st1) => (Blocked, st1)
    end
  else (Ok None, st).
Proof.
  unfold grow_path. rewrite with_lock_eq. unfold bind at 1. unfold get_self at 1.
  cbv beta iota.
  change (self (enter_lock st)) with (set_lock (S (lock (self st))) (self st)).
  change (current_connections (set_lock (S (lock (self st))) (self st)))
    with (current_connections (self st)).
  change (max_connections (set_lock (S (lock (self st))) (self st)))
    with (max_connections (self st)).
  destruct (current_connections (self st) <? max_connections (self st)).
  - unfold try_except, bind.
    destruct (_create_connection env (enter_lock st)) as [[c|e|] st1]; reflexivity.
  - unfold ret. rewrite leave_enter_lock. reflexivity.
Qed.

Lemma absorb_conn_close_eq env s st :
  absorb (conn_close env s) st = (Ok tt, record (EvClose s (call_ok env st)) st).
Proof.
  unfold absorb, try_except, conn_close, backend_call, call_ok.
  destruct (env_raises env (length (trace st))); reflexivity.
Qed.

Lemma replace_invalid_eq env s st :
  replace_invalid env s st =
  _create_connection env (record (EvClose s (call_ok env st)) st).
Proof.
  unfold replace_invalid, bind. rewrite absorb_conn_close_eq. reflexivity.
Qed.

Lemma probe_then_replace_eq env s st :
  (let! valid := _is_connection_valid env s in
   if negb valid then replace_invalid env s else ret s) st =
  if call_ok env st then (Ok s, record (EvPing s false true) st)
  else _create_connection env
         (record (EvClose s (call_ok env (record (EvPing s false false) st)))
                 (record (EvPing s false false) st)).
Proof.
  unfold bind. rewrite is_connection_valid_eq.
  destruct (call_ok env st); simpl; [reflexivity|apply replace_invalid_eq].
Qed.

Lemma fast_path_eq env st :
  fast_path env st =
  match items (connection_queue (self st)) with
  | [] => (Raise (Exn queue_Empty ""), st)
  | s :: q =>
      let st0 := on_self (set_items q) st in
      if call_ok env st0 then (Ok s, record (EvPing s false true) st0)
      else _create_connection env
             (record (EvClose s (call_ok env (record (EvPing s false false) st0)))
                     (record (EvPing s false false) st0))
  end.
Proof.
  unfold fast_path. unfold bind at 1. unfold queue_get_nowait.
  destruct (items (connection_queue (self st))) as [|s q]; [reflexivity|].
  apply probe_then_replace_eq.
Qed.

Lemma release_connection_eq env s st :
  release_connection env s st =
  if call_ok env st then queue_put s (record (EvPing s false true) st)
  else
    let st1 := leave_lock (add_current (-1) (enter_lock (record (EvPing s false false) st))).2 in
    (Ok tt, record (EvClose s (call_ok env st1)) st1).
Proof.
  unfold release_connection, try_except. unfold bind at 1.
  rewrite is_connection_valid_eq.
  destruct (call_ok env st).
  - unfold queue_put.
    destruct (queue_full (connection_queue (self (record (EvPing s false true) st))));
      reflexivity.
  - unfold bind at 1. rewrite with_lock_eq.
    destruct (add_current_Ok (-1) (enter_lock (record (EvPing s false false) st))) as [st2 E].
    rewrite E. simpl. rewrite absorb_conn_close_eq. reflexivity.
Qed.

(** ** The counter never passes the maximum *)

(** The locked block either leaves the view alone or, below the maximum,
    adds one to the counter. *)
Lemma grow_path_view env st :
  view (grow_path env st).2 = view st \/
  (current_connections (self st) < max_connections (self st) /\
   view (grow_path env st).2 = bump 1 (view st)).
Proof.
  rewrite grow_path_eq.
  destruct (Z.ltb_spec (current_connections (self st)) (max_connections (self st)))
    as [Hlt|Hge]; [|left; reflexivity].
  pose proof (neutral_create_connection env (enter_lock st)) as Hc.
  destruct (_create_connection env (enter_lock st)) as [[c|e|] st1];
    cbn [fst snd] in Hc |- *.
  - right. split; [assumption|].
    rewrite view_leave_lock, view_add_current, Hc. reflexivity.
  - left. rewrite view_leave_lock. assumption.
  - left. assumption.
Qed.

Lemma grow_or_wait_view env st :
  view (grow_or_wait env st).2 = view st \/
  (current_connections (self st) < max_connections (self st) /\
   view (grow_or_wait env st).2 = bump 1 (view st)).
Proof.
  unfold grow_or_wait, bind.
  pose proof (grow_path_view env st) as Hg.
  destruct (grow_path env st) as [[[c|]|e|] st1]; simpl in *; try exact Hg.
  rewrite neutral_wait_path.
  destruct Hg as [Hg|[Hlt Hg]]; [left|right]; auto.
Qed.

Lemma get_connection_view env st :
  view (get_connection env st).2 = view st \/
  (current_connections (self st) < max_connections (self st) /\
   view (get_connection env st).2 = bump 1 (view st)).
Proof.
  pose proof (neutral_fast_path env st) as Hf.
  destruct (fast_path env st) as [[c|e|] st1] eqn:E; simpl in Hf.
  - rewrite (get_connection_fast_path_Ok env st c st1 E). left. assumption.
  - rewrite (get_connection_after_fast_path env st e st1 E).
    assert (Hcm : current_connections (self st1) = current_connections (self st) /\
                  max_connections (self st1) = max_connections (self st)).
    { unfold view in Hf. split; congruence. }
    destruct Hcm as [Hc Hm].
    destruct (grow_or_wait_view env st1) as [H|[Hlt H]]; [left|right]; rewrite H, ?Hf; auto.
    split; [lia|reflexivity].
  - left. unfold get_connection. rewrite try_except_reraise.
    rewrite (try_except_Blocked _ (fun _ => grow_or_wait env) _ _ E). assumption.
Qed.

Lemma release_connection_view env s st :
  view (release_connection env s st).2 = view st \/
  view (release_connection env s st).2 = bump (-1) (view st).
Proof.
  rewrite release_connection_eq. destruct (call_ok env st).
  - left. rewrite neutral_queue_put. apply view_record. reflexivity.
  - right. cbv zeta. cbn [snd].
    rewrite view_record by reflexivity.
    rewrite view_leave_lock, view_add_current, view_enter_lock, view_record by reflexivity.
    reflexivity.
Qed.

(** [within_max] only looks at the view. *)
Lemma within_max_view st st' : view st' = view st -> within_max st -> within_max st'.
Proof.
  unfold view, within_max. intros H. injection H as Hm Hc Hs. rewrite Hm, Hc, Hs. auto.
Qed.

Lemma within_max_bump d st st' :
  view st' = bump d (view st) ->
  current_connections (self st) + d <= max_connections (self st) ->
  within_max st -> within_max st'.
Proof.
  unfold view, bump, within_max. simpl. intros H Hd [Hc Hs].
  injection H as Hm Hc' Hs'. rewrite Hm, Hc', Hs'. split; [assumption|].
  apply Forall_app. split; [assumption|]. constructor; [assumption|constructor].
Qed.

Lemma within_max_do_call env c st :
  within_max st -> within_max (do_call env c st).2.
Proof.
  intros Hw. destruct c as [|s]; simpl.
  - assert (E : (bind (get_connection env) (fun _ => ret tt) st).2 = (get_connection env st).2).
    { unfold bind, ret. destruct (get_connection env st) as [[?|?|] ?]; reflexivity. }
    rewrite E.
    destruct (get_connection_view env st) as [H|[Hlt H]].
    + exact (within_max_view _ _ H Hw).
    + apply (within_max_bump 1 st _ H); [lia|assumption].
  - destruct (release_connection_view env s st) as [H|H].
    + exact (within_max_view _ _ H Hw).
    + apply (within_max_bump (-1) st _ H); [destruct Hw; lia|assumption].
Qed.

Lemma within_max_run_calls env cs st :
  within_max st -> within_max (run_calls env cs st).
Proof.
  revert st. induction cs as [|c cs IH]; intros st Hw; simpl; [assumption|].
  pose proof (within_max_do_call env c st Hw) as H.
  destruct (do_call env c st) as [[[]|e|] st']; simpl in H; auto.
Qed.

Lemma max_connections_run_calls env cs st :
  max_connections (self (run_calls env cs st)) = max_connections (self st).
Proof.
  revert st. induction cs as [|c cs IH]; intros st; simpl; [reflexivity|].
  assert (H : max_connections (self (do_call env c st).2) = max_connections (self st)).
  { destruct c as [|s]; simpl.
    - assert (E : (bind (get_connection env) (fun _ => ret tt) st).2 = (get_connection env st).2).
      { unfold bind, ret. destruct (get_connection env st) as [[?|?|] ?]; reflexivity. }
      rewrite E.
      destruct (get_connection_view env st) as [H|[_ H]];
        unfold view, bump in H; simpl in H; congruence.
    - destruct (release_connection_view env s st) as [H|H];
        unfold view, bump in H; simpl in H; congruence. }
  destruct (do_call env c st) as [[[]|e|] st']; simpl in H; rewrite ?IH; assumption.
Qed.
(** One round of the warm-up loop adds at most one to the counter. *)
Lemma initialize_round_view env st :
  let round :=
    try_except
      (let! connection := _create_connection env in
       queue_put connection >> add_current 1)
      (fun _ => ret tt) in
  view (round st).2 = view st \/ view (round st).2 = bump 1 (view st).
Proof.
  cbv zeta. unfold try_except, bind.
  pose proof (neutral_create_connection env st) as Hc.
  destruct (_create_connection env st) as [[c|e|] st1]; cbn [fst snd] in Hc |- *;
    [|left; assumption|left; assumption].
  pose proof (neutral_queue_put c st1) as Hp.
  destruct (queue_put c st1) as [[[]|e|] st2]; cbn [fst snd] in Hp |- *;
    [|left; unfold ret; simpl; congruence|left; congruence].
  pose proof (view_add_current 1 st2) as Ha.
  destruct (add_current 1 st2) as [[[]|e|] st3]; cbn [fst snd] in Ha |- *;
    try (right; rewrite Ha; congruence).
  unfold ret; simpl. right; rewrite Ha; congruence.
Qed.

Lemma initialize_loop_bound env n st b :
  current_connections (self st) + Z.of_nat n <= b ->
  Forall (fun v => v <= b) (stores (trace st)) ->
  max_connections (self (initialize_loop env n st).2) = max_connections (self st) /\
  current_connections (self (initialize_loop env n st).2) <= b /\
  Forall (fun v => v <= b) (stores (trace (initialize_loop env n st).2)).
Proof.
  revert st. induction n as [|n IH]; intros st Hc Hs.
  - simpl. repeat split; [lia|assumption].
  - cbn [initialize_loop].
    pose proof (initialize_round_view env st) as Hr. cbv zeta in Hr.
    set (round := try_except _ _) in *. unfold bind.
    destruct (round st) as [[[]|e|] st1]; cbn [fst snd] in Hr |- *.
    all: assert (Hst1 : max_connections (self st1) = max_connections (self st) /\
                 current_connections (self st1) <= current_connections (self st) + 1 /\
                 Forall (fun v => v <= b) (stores (trace st1)))
      by (destruct Hr as [Hr|Hr]; unfold view, bump in Hr; simpl in Hr;
          injection Hr as Hm Hcur Hst; rewrite Hm, Hcur, Hst;
          (repeat split; [lia|]); try assumption;
          apply Forall_app; split; [assumption|]; constructor; [lia|constructor]).
    all: destruct Hst1 as (Hm & Hcur & Hst).
    + destruct (IH st1) as (IHm & IHc & IHs); [lia|assumption|].
      rewrite IHm. split; [assumption|]. split; assumption.
    + split; [assumption|]. split; [lia|assumption].
    + split; [assumption|]. split; [lia|assumption].
Qed.

(** After construction the counter is between 0 and [min_connections]
    (when that is positive), and so were all the values it went through. *)
Lemma init_within_max env a :
  arg_min_connections a <= arg_max_connections a ->
  0 <= arg_max_connections a ->
  within_max (__init__ env a []).2 /\
  max_connections (self (__init__ env a []).2) = arg_max_connections a.
Proof.
  intros Hmin Hmax. unfold __init__, _initialize_pool. unfold bind at 1, get_self.
  cbv beta iota.
  destruct (initialize_loop_bound env (Z.to_nat (arg_min_connections a))
              (mkSt (new_pool a) []) (arg_max_connections a)) as (Hm & Hc & Hs).
  - simpl. lia.
  - constructor.
  - simpl in Hm. unfold within_max.
    change (min_connections (self (mkSt (new_pool a) []))) with (arg_min_connections a).
    rewrite Hm. auto.
Qed.

(** C1, as amended.  On a pool constructed with
    [min_connections <= max_connections] and [0 <= max_connections], after
    the constructor and after every sequence of [get_connection] and
    [release_connection] calls, [current_connections] is at most
    [max_connections], and so was every value ever stored to the counter
    in between. *)
Theorem current_connections_within_max (env : Env) (a : InitArgs) (cs : list call) :
  arg_min_connections a <= arg_max_connections a ->
  0 <= arg_max_connections a ->
  let st := run_calls env cs (__init__ env a []).2 in
  max_connections (self st) = arg_max_connections a /\
  current_connections (self st) <= arg_max_connections a /\
  Forall (fun v => v <= arg_max_connections a) (stores (trace st)).
Proof.
  intros Hmin Hmax st.
  destruct (init_within_max env a Hmin Hmax) as [Hw Hm].
  pose proof (within_max_run_calls env cs _ Hw) as [Hc Hs].
  fold st in Hc, Hs.
  assert (E : max_connections (self st) = arg_max_connections a).
  { unfold st. rewrite max_connections_run_calls. assumption. }
  rewrite E in Hc, Hs. auto.
Qed.

(** C1, as stated, fails: with a negative [max_connections] (and
    [min_connections <= max_connections]) the constructor returns with
    the counter at 0, above the maximum. *)
Lemma current_connections_above_negative_max :
  arg_min_connections negative_args <= arg_max_connections negative_args /\
  (__init__ (scripted []) negative_args []).1 = Ok tt /\
  max_connections (self (__init__ (scripted []) negative_args []).2) <
    current_connections (self (__init__ (scripted []) negative_args []).2).
Proof. repeat split; try reflexivity; simpl; lia. Qed.

(** A pool of at most two, three acquisitions and a release. *)
Lemma current_connections_within_max_witness :
  let st := run_calls (scripted []) [Acquire; Acquire; Acquire; Release 0%nat]
              (__init__ (scripted []) small_args []).2 in
  max_connections (self st) = arg_max_connections small_args /\
  current_connections (self st) <= arg_max_connections small_args /\
  Forall (fun v => v <= arg_max_connections small_args) (stores (trace st)).
Proof.
  apply (current_connections_within_max (scripted []) small_args
           [Acquire; Acquire; Acquire; Release 0%nat]); simpl; lia.
Defined.
Lemma queue_put_eq s st :
  queue_put s st =
  if queue_full (connection_queue (self st)) then (Blocked, st)
  else (Ok tt, on_self (set_items (items (connection_queue (self st)) ++ [s])) st).
Proof. reflexivity. Qed.

(** C6, as amended.  [release_connection] never raises.  When the probe
    finds the session valid and the idle queue has room, the session is
    put at the back of the queue and the counter is not touched.  When the
    probe finds it invalid, the counter is decremented by a store made
    while the lock is held, then the session is closed, and the call
    returns normally whether or not the close failed; the queue is not
    touched. *)
Theorem release_connection_contract (env : Env) (connection : Session) (st : St) :
  (forall e st', release_connection env connection st <> (Raise e, st')) /\
  (call_ok env st = true ->
   queue_full (connection_queue (self st)) = false ->
   release_connection env connection st =
     (Ok tt, mkSt (set_items (items (connection_queue (self st)) ++ [connection]) (self st))
                  (trace st ++ [EvPing connection false true]))) /\
  (call_ok env st = false ->
   exists close_ok,
     release_connection env connection st =
       (Ok tt, mkSt (set_current (current_connections (self st) - 1) (self st))
                    (trace st ++ [EvPing connection false false;
                                  EvCounter (current_connections (self st) - 1) true;
                                  EvClose connection close_ok]))).
Proof.
  rewrite release_connection_eq. repeat split.
  - intros e st'. destruct (call_ok env st).
    + rewrite queue_put_eq. destruct (queue_full _); discriminate.
    + discriminate.
  - intros -> Hroom. rewrite queue_put_eq. simpl. rewrite Hroom. reflexivity.
  - intros ->. destruct st as [[mn mx cur lk to cfg q ic] tr].
    eexists. cbv zeta. f_equal.
    unfold record, leave_lock, enter_lock, add_current, bind, get_self, store_current,
      on_self, set_lock, set_current. simpl.
    rewrite <- !app_assoc. reflexivity.
Qed.

(** C6, as stated, fails: a caller that releases the same valid session
    twice to a pool of one finds the bounded idle queue full the second
    time; [Queue.put] then waits, the session is not pushed and the call
    does not return. *)
Lemma release_connection_blocks_on_full_queue :
  let env := scripted [] in
  let st := run_calls env [Acquire; Release 0%nat] (__init__ env single_args []).2 in
  call_ok env st = true /\
  (release_connection env 0%nat st).1 = Blocked /\
  items (connection_queue (self (release_connection env 0%nat st).2)) = [0%nat] /\
  items (connection_queue (self st)) = [0%nat].
Proof. repeat split; reflexivity. Qed.

(** Releasing the session of a pool of one after the backend has gone. *)
Lemma release_connection_contract_witness :
  let st := run_calls stale_env [Acquire] (__init__ stale_env single_args []).2 in
  call_ok stale_env st = false /\
  exists close_ok,
    release_connection stale_env 0%nat st =
      (Ok tt, mkSt (set_current (current_connections (self st) - 1) (self st))
                   (trace st ++ [EvPing 0%nat false false;
                                 EvCounter (current_connections (self st) - 1) true;
                                 EvClose 0%nat close_ok])).
Proof.
  split; [reflexivity|].
  apply (release_connection_contract stale_env 0%nat
           (run_calls stale_env [Acquire] (__init__ stale_env single_args []).2)).
  reflexivity.
Defined.
(** ** What [_create_connection] can do *)

Lemma create_connection_cases env st :
  (exists c, _create_connection env st = (Ok c, record (EvConnect (Some c)) st)) \/
  (exists m st', _create_connection env st = (Raise (Exn ConnectionError m), st') /\
                 self st' = self st /\
                 (trace st' = trace st \/ trace st' = trace st ++ [EvConnect None])).
Proof.
  unfold _create_connection, try_except, bind, config_item, pymysql_connect.
  repeat match goal with
  | |- context [config (self st) !! ?k] => destruct (config (self st) !! k)
  end;
  try (right; do 2 eexists; split; [reflexivity|split; [reflexivity|left; reflexivity]]).
  destruct (env_raises env (length (trace st))) as [e|].
  - right. unfold isinstance.
    destruct (issubclass (exn_cls e) pymysql_OperationalError);
      [|destruct (issubclass (exn_cls e) pymysql_ProgrammingError)];
      do 2 eexists; (split; [reflexivity|split; [reflexivity|right; reflexivity]]).
  - left. eexists. reflexivity.
Qed.

Lemma create_connection_Ok env st c st' :
  _create_connection env st = (Ok c, st') -> st' = record (EvConnect (Some c)) st.
Proof.
  intros H. destruct (create_connection_cases env st) as [[c' E]|(m & st'' & E & _)];
    rewrite E in H; [|discriminate].
  injection H as -> ->. reflexivity.
Qed.

(** ** An invalid session met on the way *)



(** ** The wait path *)

Lemma wait_path_eq env st :
  wait_path env st =
  match queue_get_timeout env (connection_timeout (self st)) st with
  | (Ok s, st2) =>
      if call_ok env st2 then (Ok s, record (EvPing s false true) st2)
      else
        match _create_connection env
                (record (EvClose s (call_ok env (record (EvPing s false false) st2)))
                        (record (EvPing s false false) st2)) with
        | (Raise _, st4) =>
            (Raise (Exn PoolExhaustedError
                      (exhausted_message (connection_timeout (self st)))), st4)
        | r => r
        end
  | (Raise _, st2) =>
      (Raise (Exn PoolExhaustedError (exhausted_message (connection_timeout (self st)))), st2)
  | (Blocked, st2) => (Blocked, st2)
  end.
Proof.
  unfold wait_path. unfold bind at 1. unfold get_self at 1. cbv beta iota.
  unfold try_except. unfold bind at 1.
  destruct (queue_get_timeout env (connection_timeout (self st)) st) as [[s|e|] st2];
    try reflexivity.
  rewrite probe_then_replace_eq.
  destruct (call_ok env st2); [reflexivity|].
  destruct (_create_connection env _) as [[c|e|] st4]; reflexivity.
Qed.

(** C5, as amended.  In the wait path (the fast path has failed and the
    counter is at the maximum), when the session obtained from the queue
    within the timeout fails the probe, it is closed and a replacement is
    made at once by the factory: the counter is not decremented, neither
    stored to at all, and no check against [max_connections] is made.
    When the factory succeeds the replacement is what [get_connection]
    returns. *)
Theorem invalid_waited_session_replaced_in_place (env : Env) (st st1 st2 : St)
    (e : exn) (s : Session) :
  fast_path env st = (Raise e, st1) ->
  max_connections (self st1) <= current_connections (self st1) ->
  queue_get_timeout env (connection_timeout (self st1)) st1 = (Ok s, st2) ->
  call_ok env st2 = false ->
  exists close_ok,
    let st3 := mkSt (self st2) (trace st2 ++ [EvPing s false false; EvClose s close_ok]) in
    forall c st4,
      _create_connection env st3 = (Ok c, st4) ->
      get_connection env st = (Ok c, st4) /\
      self st4 = self st2 /\
      trace st4 = trace st2 ++ [EvPing s false false; EvClose s close_ok;
                               EvConnect (Some c)] /\
      current_connections (self st4) = current_connections (self st) /\
      stores (trace st4) = stores (trace st).
Proof.
  intros Hfast Hfull Hget Hping.
  exists (call_ok env (record (EvPing s false false) st2)).
  intros st3 c st4 Hcreate.
  assert (Est3 : st3 = record (EvClose s (call_ok env (record (EvPing s false false) st2)))
                         (record (EvPing s false false) st2)).
  { unfold st3, record. simpl. rewrite <- app_assoc. reflexivity. }
  assert (Hget_conn : get_connection env st = (Ok c, st4)).
  { rewrite (get_connection_after_fast_path env st e st1 Hfast).
    unfold grow_or_wait. rewrite (bind_Ok _ _ _ _ _ (grow_path_full env st1 Hfull)).
    rewrite wait_path_eq, Hget, Hping, <- Est3, Hcreate. reflexivity. }
  split; [exact Hget_conn|].
  pose proof (get_connection_view env st) as Hv. rewrite Hget_conn in Hv. simpl in Hv.
  pose proof (neutral_fast_path env st) as Hv1. rewrite Hfast in Hv1. simpl in Hv1.
  pose proof (neutral_queue_get_timeout env (connection_timeout (self st1)) st1) as Hv2.
  rewrite Hget in Hv2. simpl in Hv2.
  apply create_connection_Ok in Hcreate. subst st4.
  assert (Hv4 : view (record (EvConnect (Some c)) st3) = view st).
  { rewrite view_record by reflexivity. rewrite Est3.
    rewrite !view_record by reflexivity. congruence. }
  unfold view in Hv4. injection Hv4 as _ Hcur Hst.
  split; [reflexivity|]. split; [unfold st3; simpl; rewrite <- app_assoc; reflexivity|].
  split; assumption.
Qed.

(** C5, as stated, fails: with both idle sessions of a full pool of two
    stale and the backend away, the second session comes out of the wait
    path, fails the probe, and the failure to replace it reaches the
    caller as [PoolExhaustedError]; the counter is still 2 though both
    sessions were closed. *)
Lemma waited_replacement_failure_is_pool_exhausted :
  let st := (__init__ outage_env pair_args []).2 in
  current_connections (self st) = 2 /\
  (get_connection outage_env st).1 = Raise (Exn PoolExhaustedError (exhausted_message 30)) /\
  trace (get_connection outage_env st).2 =
    trace st ++ [EvPing 0%nat false false; EvClose 0%nat true; EvConnect None;
                 EvPing 2%nat false false; EvClose 2%nat true; EvConnect None] /\
  current_connections (self (get_connection outage_env st).2) = 2.
Proof. repeat split; reflexivity. Qed.

(** A pool of two stale sessions; the backend is back for the second
    replacement. *)
Lemma invalid_waited_session_replaced_in_place_witness :
  let st := (__init__ flapping_env pair_args []).2 in
  current_connections (self st) = 2 /\
  exists close_ok st4,
    get_connection flapping_env st = (Ok 9%nat, st4) /\
    trace st4 =
      [EvConnect (Some 0%nat); EvCounter 1 false; EvConnect (Some 2%nat); EvCounter 2 false;
       EvPing 0%nat false false; EvClose 0%nat true; EvConnect None;
       EvPing 2%nat false false; EvClose 2%nat close_ok; EvConnect (Some 9%nat)] /\
    current_connections (self st4) = current_connections (self st) /\
    stores (trace st4) = stores (trace st).
Proof.
  cbv zeta. split; [vm_compute; reflexivity|].
  pose (st := (__init__ flapping_env pair_args []).2).
  pose (st1 := (fast_path flapping_env st).2).
  pose (st2 := (queue_get_timeout flapping_env 30 st1).2).
  assert (H1 : fast_path flapping_env st =
               (Raise (Exn ConnectionError
                         ("创建连接失败 - 操作错误: " +:+ exn_str server_gone)), st1))
    by (vm_compute; reflexivity).
  assert (H2 : max_connections (self st1) <= current_connections (self st1))
    by (vm_compute; discriminate).
  assert (H3 : queue_get_timeout flapping_env (connection_timeout (self st1)) st1 =
               (Ok 2%nat, st2))
    by (vm_compute; reflexivity).
  assert (H4 : call_ok flapping_env st2 = false) by (vm_compute; reflexivity).
  destruct (invalid_waited_session_replaced_in_place flapping_env st st1 st2 _ 2%nat
              H1 H2 H3 H4) as [close_ok H].
  exists close_ok.
  cbv zeta in H.
  assert (H5 : _create_connection flapping_env
                 (mkSt (self st2)
                    (trace st2 ++ [EvPing 2%nat false false; EvClose 2%nat close_ok])) =
               (Ok 9%nat,
                record (EvConnect (Some 9%nat))
                  (mkSt (self st2)
                     (trace st2 ++ [EvPing 2%nat false false; EvClose 2%nat close_ok]))))
    by (vm_compute; reflexivity).
  destruct (H _ _ H5) as (E & _ & Htr & Hcur & Hst).
  eexists. split; [exact E|]. split; [rewrite Htr; vm_compute; reflexivity|].
  split; [exact Hcur|exact Hst].
Defined.
(** ** An exception in the fast path *)

Lemma live_sessions_snoc tr ev :
  live_sessions (tr ++ [ev]) = live_step (live_sessions tr) ev.
Proof. unfold live_sessions. rewrite foldl_app. reflexivity. Qed.

Lemma live_sessions_record ev st :
  live_sessions (trace (record ev st)) = live_step (live_sessions (trace st)) ev.
Proof. apply live_sessions_snoc. Qed.

(** Taking one member out of a finite set and putting one element in
    does not make the set larger. *)
Lemma size_remove_add (X : gset Session) (s c : Session) :
  s ∈ X -> (size (X ∖ {[s]} ∪ {[c]}) <= size X)%nat.
Proof.
  intros Hin.
  rewrite size_union_alt.
  assert (S1 : ({[c]} : gset Session) ∖ (X ∖ {[s]}) ⊆ {[c]}) by set_solver.
  assert (S2 : ({[s]} : gset Session) ⊆ X) by set_solver.
  pose proof (subseteq_size _ _ S1) as H1. rewrite size_singleton in H1.
  pose proof (size_difference X {[s]} S2) as H2. rewrite size_singleton in H2.
  pose proof (subseteq_size _ _ S2) as H3. rewrite size_singleton in H3.
  lia.
Qed.

(** A fast path that pops a session and then raises has closed that
    session and opened none. *)
Lemma fast_path_Raise_live env st s q e st1 :
  items (connection_queue (self st)) = s :: q ->
  fast_path env st = (Raise e, st1) ->
  live_sessions (trace st1) = live_sessions (trace st) ∖ {[s]}.
Proof.
  intros Hq H. rewrite fast_path_eq, Hq in H. cbv zeta in H.
  destruct (call_ok env (on_self (set_items q) st)); [discriminate|].
  match type of H with _create_connection env ?x = _ =>
    destruct (create_connection_cases env x) as [[c E]|(m & st' & E & _ & Htr)]
  end; rewrite E in H; [discriminate|].
  injection H as _ <-.
  destruct Htr as [-> | ->]; rewrite ?live_sessions_snoc; simpl;
    rewrite !live_sessions_snoc; reflexivity.
Qed.

(** C10.  Whatever exception the non-blocking fast path raises (the
    [ConnectionError] of a failed replacement of an invalid idle session
    as much as [queue.Empty]) is caught, and the call goes on with the
    grow-or-wait code, the very code a call on an empty queue runs; the
    fast path has not touched the counter.  When the grow path then makes
    a session, the counter is incremented; if the fast path had popped and
    closed a session, that session is still counted: the live sessions are
    the earlier ones without it and with the new one, so that a counter
    which was not below the number of live sessions now exceeds it. *)
Theorem fast_path_exception_falls_through (env : Env) (st st1 : St) (e : exn) :
  fast_path env st = (Raise e, st1) ->
  get_connection env st = grow_or_wait env st1 /\
  (forall st0, items (connection_queue (self st0)) = [] ->
               get_connection env st0 = grow_or_wait env st0) /\
  view st1 = view st /\
  forall c st2,
    current_connections (self st) < max_connections (self st) ->
    _create_connection env (enter_lock st1) = (Ok c, st2) ->
    exists st3,
      get_connection env st = (Ok c, st3) /\
      current_connections (self st3) = current_connections (self st) + 1 /\
      forall s q,
        items (connection_queue (self st)) = s :: q ->
        live_sessions (trace st3) = (live_sessions (trace st) ∖ {[s]}) ∪ {[c]} /\
        (s ∈ live_sessions (trace st) ->
         Z.of_nat (size (live_sessions (trace st))) <= current_connections (self st) ->
         Z.of_nat (size (live_sessions (trace st3))) < current_connections (self st3)).
Proof.
  intros Hfast.
  pose proof (neutral_fast_path env st) as Hv. rewrite Hfast in Hv. simpl in Hv.
  split; [exact (get_connection_after_fast_path env st e st1 Hfast)|].
  split.
  { intros st0 H0.
    exact (get_connection_after_fast_path env st0 _ st0 (fast_path_empty env st0 H0)). }
  split; [exact Hv|].
  intros c st2 Hlt Hcreate.
  assert (Hcm : current_connections (self st1) = current_connections (self st) /\
                max_connections (self st1) = max_connections (self st)).
  { unfold view in Hv. split; congruence. }
  destruct Hcm as [Hc Hm].
  exists (leave_lock (add_current 1 st2).2).
  assert (Hget : get_connection env st = (Ok c, leave_lock (add_current 1 st2).2)).
  { rewrite (get_connection_after_fast_path env st e st1 Hfast).
    unfold grow_or_wait, bind. rewrite grow_path_eq, Hc, Hm.
    destruct (Z.ltb_spec (current_connections (self st)) (max_connections (self st)));
      [|lia].
    rewrite Hcreate. reflexivity. }
  split; [exact Hget|].
  apply create_connection_Ok in Hcreate. subst st2.
  split; [simpl; lia|].
  intros s q Hq.
  assert (Hlive : live_sessions (trace (leave_lock
                    (add_current 1 (record (EvConnect (Some c)) (enter_lock st1))).2)) =
                  live_sessions (trace st) ∖ {[s]} ∪ {[c]}).
  { simpl. rewrite !live_sessions_snoc. simpl.
    rewrite (fast_path_Raise_live env st s q e st1 Hq Hfast). reflexivity. }
  split; [exact Hlive|].
  intros Hin Hle. rewrite Hlive. simpl.
  pose proof (size_remove_add (live_sessions (trace st)) s c Hin) as Hsz.
  lia.
Qed.
(** A pool of at most two: the idle session is stale, its replacement
    fails, the grow path succeeds; two are counted, one session is live. *)
Lemma fast_path_exception_falls_through_witness :
  let st := (__init__ hiccup_env small_args []).2 in
  (fast_path hiccup_env st).1 =
    Raise (Exn ConnectionError ("创建连接失败 - 操作错误: " +:+ exn_str server_gone)) /\
  get_connection hiccup_env st = grow_or_wait hiccup_env (fast_path hiccup_env st).2 /\
  current_connections (self st) = 1 /\
  exists st3,
    get_connection hiccup_env st = (Ok 5%nat, st3) /\
    current_connections (self st3) = 2 /\
    live_sessions (trace st3) = {[5%nat]} /\
    Z.of_nat (size (live_sessions (trace st3))) < current_connections (self st3).
Proof.
  cbv zeta.
  pose (st := (__init__ hiccup_env small_args []).2).
  pose (st1 := (fast_path hiccup_env st).2).
  assert (H1 : fast_path hiccup_env st =
               (Raise (Exn ConnectionError
                         ("创建连接失败 - 操作错误: " +:+ exn_str server_gone)), st1))
    by (vm_compute; reflexivity).
  destruct (fast_path_exception_falls_through hiccup_env st st1 _ H1)
    as (Hgo & _ & _ & Hgrow).
  split; [vm_compute; reflexivity|]. split; [exact Hgo|].
  split; [vm_compute; reflexivity|].
  assert (H2 : current_connections (self st) < max_connections (self st))
    by (vm_compute; reflexivity).
  assert (H3 : _create_connection hiccup_env (enter_lock st1) =
               (Ok 5%nat, record (EvConnect (Some 5%nat)) (enter_lock st1)))
    by (vm_compute; reflexivity).
  destruct (Hgrow _ _ H2 H3) as (st3 & Hget & Hcur & Hlive).
  assert (Hq : items (connection_queue (self st)) = [0%nat]) by (vm_compute; reflexivity).
  destruct (Hlive _ _ Hq) as [Hl Hsize].
  assert (E : live_sessions (trace st) = {[0%nat]}) by (vm_compute; reflexivity).
  exists st3. split; [exact Hget|].
  split; [rewrite Hcur; vm_compute; reflexivity|].
  split; [rewrite Hl, E; apply leibniz_equiv; set_solver|].
  apply Hsize.
  - rewrite E. set_solver.
  - rewrite E, size_singleton. vm_compute. discriminate.
Defined.
(** ** The names bound twice in the class body *)

Lemma class_dict_execute_query :
  MySQLConnectionPool_dict !! "execute_query" = Some def_execute_query_671.
Proof. reflexivity. Qed.

Lemma class_dict_execute_update :
  MySQLConnectionPool_dict !! "execute_update" = Some def_execute_update_712.
Proof. reflexivity. Qed.

Lemma class_dict_from_config_file :
  MySQLConnectionPool_dict !! "from_config_file" = Some def_from_config_file_608.
Proof. reflexivity. Qed.

Lemma class_dict_connection :
  MySQLConnectionPool_dict !! "connection" = Some def_connection_347.
Proof. reflexivity. Qed.

(** On an object whose instance dict has no entry "connection",
    [self.connection] is the bound context manager. *)
Lemma self_connection_unset st :
  inst_connection (self st) = None ->
  self_connection st = (Ok (PyBoundMethod def_connection_347), st).
Proof.
  intros H. unfold self_connection, bind, get_self. rewrite H, class_dict_connection.
  reflexivity.
Qed.

(** C2: what the code does.  [pool.execute_query] is the function of
    line 671, not the pooled one of line 360.  On a pool object as the
    constructor leaves it (no instance attribute [connection]) it takes
    no session from the pool, sends nothing to the backend and raises
    [QueryError], because [self.connection] is the context-manager method
    and has no [cursor]; the pool and the trace are as before. *)
Theorem execute_query_bypasses_pool (env : Env) (query : string)
    (params : option (list cfgval)) (st : St) :
  inst_connection (self st) = None ->
  execute_query env query params = execute_query_671 env query params /\
  execute_query env query params st =
    (Raise (Exn QueryError "查询执行失败: 'function' object has no attribute 'cursor'"), st).
Proof.
  intros H.
  assert (E : execute_query env query params = execute_query_671 env query params).
  { unfold execute_query. rewrite class_dict_execute_query. reflexivity. }
  split; [exact E|]. rewrite E.
  unfold execute_query_671, bind, try_except.
  rewrite (self_connection_unset st H). cbn [negb truthy]. unfold ret at 1.
  rewrite (self_connection_unset st H). reflexivity.
Qed.

(** C7: what the code does.  [pool.execute_update] is the function of
    line 712, not the pooled one of line 395.  On a pool object as the
    constructor leaves it, it takes no session from the pool, sends
    nothing to the backend, and the [AttributeError] of
    [self.connection.rollback()] in its handler leaves the call instead of
    an [UpdateError]. *)
Theorem execute_update_bypasses_pool (env : Env) (query : string)
    (params : option (list cfgval)) (st : St) :
  inst_connection (self st) = None ->
  execute_update env query params = execute_update_712 env query params /\
  execute_update env query params st =
    (Raise (Exn AttributeError "'function' object has no attribute 'rollback'"), st).
Proof.
  intros H.
  assert (E : execute_update env query params = execute_update_712 env query params).
  { unfold execute_update. rewrite class_dict_execute_update. reflexivity. }
  split; [exact E|]. rewrite E.
  unfold execute_update_712, self_connection_rollback, bind, try_except.
  rewrite (self_connection_unset st H). cbn [negb truthy]. unfold ret at 1.
  rewrite (self_connection_unset st H).
  cbn [conn_attr raise].
  change (isinstance (Exn AttributeError ?m) pymysql_IntegrityError) with false.
  change (isinstance (Exn AttributeError ?m) pymysql_ProgrammingError) with false.
  cbv beta iota.
  rewrite (self_connection_unset st H). reflexivity.
Qed.

(** The constructor leaves no instance attribute [connection]. *)
Lemma initialize_loop_inst_connection env n st :
  inst_connection (self (initialize_loop env n st).2) = inst_connection (self st).
Proof.
  revert st. induction n as [|n IH]; intros st; [reflexivity|].
  cbn [initialize_loop]. unfold bind at 1, try_except, bind.
  destruct (create_connection_cases env st) as [[c E]|(m & st' & E & Hs & _)]; rewrite E.
  - rewrite queue_put_eq.
    destruct (queue_full (connection_queue (self (record (EvConnect (Some c)) st))));
      [reflexivity|].
    simpl. rewrite IH. reflexivity.
  - simpl. rewrite IH, Hs. reflexivity.
Qed.

Lemma init_inst_connection env a tr :
  inst_connection (self (__init__ env a tr).2) = None.
Proof.
  unfold __init__, _initialize_pool, bind, get_self.
  rewrite initialize_loop_inst_connection. reflexivity.
Qed.

(** A freshly built pool with one idle session. *)
Lemma execute_query_bypasses_pool_witness :
  let st := (__init__ (scripted []) small_args []).2 in
  items (connection_queue (self st)) = [0%nat] /\
  execute_query (scripted []) "SELECT 1" None st =
    (Raise (Exn QueryError "查询执行失败: 'function' object has no attribute 'cursor'"), st).
Proof.
  split; [vm_compute; reflexivity|].
  apply (execute_query_bypasses_pool (scripted []) "SELECT 1" None
           (__init__ (scripted []) small_args []).2).
  apply init_inst_connection.
Defined.

(** A freshly built pool with one idle session. *)
Lemma execute_update_bypasses_pool_witness :
  let st := (__init__ (scripted []) small_args []).2 in
  items (connection_queue (self st)) = [0%nat] /\
  execute_update (scripted []) "DELETE FROM t" None st =
    (Raise (Exn AttributeError "'function' object has no attribute 'rollback'"), st).
Proof.
  split; [vm_compute; reflexivity|].
  apply (execute_update_bypasses_pool (scripted []) "DELETE FROM t" None
           (__init__ (scripted []) small_args []).2).
  apply init_inst_connection.
Defined.
(** The pooled definitions, which the class dict no longer reaches, turn
    every exception into the documented one. *)
Lemma execute_query_360_raises_QueryError env query params st e st' :
  execute_query_360 env query params st = (Raise e, st') -> exn_cls e = QueryError.
Proof.
  unfold execute_query_360, try_except.
  destruct (with_self_connection _ _ st) as [[rows|e0|] st0]; try discriminate.
  destruct (isinstance e0 pymysql_ProgrammingError); unfold raise;
    intros H; injection H as <- _; reflexivity.
Qed.

Lemma execute_update_395_raises_UpdateError env query params st e st' :
  execute_update_395 env query params st = (Raise e, st') -> exn_cls e = UpdateError.
Proof.
  unfold execute_update_395, try_except.
  destruct (with_self_connection _ _ st) as [[n|e0|] st0]; try discriminate.
  destruct (isinstance e0 UpdateError) eqn:Hi; unfold raise;
    intros H; injection H as <- _; [|reflexivity].
  unfold isinstance, issubclass in Hi. destruct (exn_cls e0); try discriminate; reflexivity.
Qed.

(** ** Building a pool from a file *)

Lemma initialize_round_no_raise env st :
  forall e st',
    try_except
      (let! connection := _create_connection env in
       queue_put connection >> add_current 1)
      (fun _ => ret tt) st <> (Raise e, st').
Proof.
  intros e st'. unfold try_except.
  destruct (bind (_create_connection env) _ st) as [[[]|e0|] st0]; discriminate.
Qed.

Lemma initialize_loop_no_raise env n st e st' :
  initialize_loop env n st <> (Raise e, st').
Proof.
  revert st. induction n as [|n IH]; intros st; [discriminate|].
  cbn [initialize_loop]. unfold bind at 1.
  pose proof (initialize_round_no_raise env st) as Hr.
  destruct (try_except _ _ st) as [[[]|e0|] st0].
  - apply IH.
  - exfalso. exact (Hr e0 st0 eq_refl).
  - discriminate.
Qed.

Lemma cls_no_raise env a tr e tr' : cls env a tr <> (Raise e, tr').
Proof.
  unfold cls.
  pose proof (initialize_loop_no_raise env (Z.to_nat (arg_min_connections a))
                (mkSt (new_pool a) tr)) as H.
  unfold __init__, _initialize_pool. unfold bind at 1, get_self. cbv beta iota.
  change (min_connections (self (mkSt (new_pool a) tr))) with (arg_min_connections a).
  destruct (initialize_loop env _ _) as [[[]|e0|] st0]; try discriminate.
  exfalso. exact (H e0 st0 eq_refl).
Qed.

(** The function of line 462 refuses a file that lacks a required key
    before it builds anything. *)
Lemma from_config_file_462_validates env (fs : FileSystem) config_file d mn mx tr field :
  fs config_file = Some (JSONObject d) ->
  field ∈ required_fields ->
  d !! field = None ->
  exists missing,
    from_config_file_462 env fs config_file mn mx tr =
      (Raise (Exn ValueError ("配置文件缺少必要项: " +:+ missing)), tr).
Proof.
  intros Hfs Hin Hnone.
  unfold from_config_file_462, try_except, bind, open_json_load. rewrite Hfs.
  rewrite bool_decide_false by discriminate. unfold ret.
  assert (Hcheck : exists missing,
             check_required required_fields d tr =
               (Raise (Exn ValueError ("配置文件缺少必要项: " +:+ missing)), tr)).
  { revert Hin. generalize required_fields. intros fields.
    induction fields as [|f fields IH]; intros Hin; [inversion Hin|].
    simpl. destruct (bool_decide_reflect (d !! f = None)) as [Hf|Hf].
    - eexists. reflexivity.
    - apply IH. apply elem_of_cons in Hin as [->|Hin]; [contradiction|assumption]. }
  destruct Hcheck as [missing ->]. exists missing. reflexivity.
Qed.

(** C8: what the code does.  [MySQLConnectionPool.from_config_file] is the
    function of line 608, not the validating one of line 462.  For every
    file that holds a JSON object, whatever keys it has or lacks, it
    raises nothing: it calls the constructor with the object as [config]
    and the default sizes, and so builds the pool and makes the warm-up
    connection attempts. *)
Theorem from_config_file_skips_validation (env : Env) (fs : FileSystem)
    (config_file : string) (d : gmap string cfgval) (tr : list Event) :
  fs config_file = Some (JSONObject d) ->
  from_config_file env fs config_file = from_config_file_608 env fs config_file /\
  from_config_file env fs config_file tr = cls env (file_args d) tr /\
  (forall e tr', from_config_file env fs config_file tr <> (Raise e, tr')).
Proof.
  intros Hfs.
  assert (E : from_config_file env fs config_file = from_config_file_608 env fs config_file).
  { unfold from_config_file. rewrite class_dict_from_config_file. reflexivity. }
  assert (E2 : from_config_file_608 env fs config_file tr = cls env (file_args d) tr).
  { unfold from_config_file_608, try_except, bind, open_json_load. rewrite Hfs.
    unfold ret. fold (file_args d).
    pose proof (cls_no_raise env (file_args d) tr) as Hn.
    change (mkInitArgs (arg_min_connections default_args) (arg_max_connections default_args)
              (arg_host default_args) (arg_user default_args) (arg_password default_args)
              (arg_database default_args) (arg_port default_args)
              (arg_charset default_args) (Some d) (arg_connection_timeout default_args))
      with (file_args d).
    destruct (cls env (file_args d) tr) as [[p|e|] tr1]; try reflexivity.
    exfalso. exact (Hn e tr1 eq_refl). }
  split; [exact E|]. rewrite E, E2. split; [reflexivity|].
  intros e tr'. apply cls_no_raise.
Qed.

(** A file without "host": the function of line 462 refuses it, the one the
    class dict reaches builds a pool of five sessions to the default host. *)
Lemma from_config_file_skips_validation_witness :
  config_without_host !! "host" = None /\
  (exists missing,
     from_config_file_462 (scripted []) one_file_fs "db.json" 5 20 [] =
       (Raise (Exn ValueError ("配置文件缺少必要项: " +:+ missing)), [])) /\
  from_config_file (scripted []) one_file_fs "db.json" [] =
    cls (scripted []) (file_args config_without_host) [] /\
  (exists p, (from_config_file (scripted []) one_file_fs "db.json" []).1 = Ok p /\
             current_connections p = 5 /\
             config p !! "host" = Some (CStr "localhost")) /\
  (from_config_file (scripted []) one_file_fs "db.json" []).2 =
    [EvConnect (Some 0%nat); EvCounter 1 false; EvConnect (Some 2%nat); EvCounter 2 false;
     EvConnect (Some 4%nat); EvCounter 3 false; EvConnect (Some 6%nat); EvCounter 4 false;
     EvConnect (Some 8%nat); EvCounter 5 false].
Proof.
  split; [reflexivity|].
  split; [apply (from_config_file_462_validates _ _ _ config_without_host _ _ _ "host");
          [reflexivity|set_solver|reflexivity]|].
  destruct (from_config_file_skips_validation (scripted []) one_file_fs "db.json"
              config_without_host [] eq_refl) as (_ & E & _).
  split; [exact E|].
  rewrite E. split; [|vm_compute; reflexivity].
  eexists. split; [vm_compute; reflexivity|]. split; vm_compute; reflexivity.
Defined.

(** * Further properties of the class *)

(** ** What a computation keeps, whether it can wait for ever, what it raises *)

Section Keeps.

Context {X : Type} (g : St -> X).

Lemma keeps_ret {A} (a : A) : keeps g (ret a).
Proof. intros st. reflexivity. Qed.

Lemma keeps_raise {A} (e : exn) : keeps g (@raise St A e).
Proof. intros st. reflexivity. Qed.

Lemma keeps_bind {A B} (c : M A) (k : A -> M B) :
  keeps g c -> (forall a, keeps g (k a)) -> keeps g (bind c k).
Proof.
  intros Hc Hk st. unfold bind. specialize (Hc st).
  destruct (c st) as [[a|e|] st']; simpl in *; try assumption.
  rewrite Hk. assumption.
Qed.

Lemma keeps_try_except {A} (c : M A) (h : exn -> M A) :
  keeps g c -> (forall e, keeps g (h e)) -> keeps g (try_except c h).
Proof.
  intros Hc Hh st. unfold try_except. specialize (Hc st).
  destruct (c st) as [[a|e|] st']; simpl in *; try assumption.
  rewrite Hh. assumption.
Qed.

Lemma keeps_try_finally {A} (c : M A) (fin : M unit) :
  keeps g c -> keeps g fin -> keeps g (try_finally c fin).
Proof.
  intros Hc Hf st. unfold try_finally. specialize (Hc st).
  destruct (c st) as [[a|e|] st']; simpl in *; try assumption;
    unfold bind; specialize (Hf st'); destruct (fin st') as [[[]|e'|] st''];
    simpl in *; congruence.
Qed.

Lemma keeps_if {A} (b : bool) (c1 c2 : M A) :
  keeps g c1 -> keeps g c2 -> keeps g (if b then c1 else c2).
Proof. destruct b; auto. Qed.

Lemma keeps_get_self : keeps g get_self.
Proof. intros st. reflexivity. Qed.

Lemma keeps_config_item key : keeps g (config_item key).
Proof. intros st. unfold config_item. destruct (config (self st) !! key); reflexivity. Qed.

Hypothesis Hg : insensitive g.

Lemma keeps_backend_call env ev :
  (forall ok, stored (ev ok) = None) -> keeps g (backend_call env ev).
Proof.
  intros H st. unfold backend_call.
  destruct (env_raises env (length (trace st))); simpl; apply (ins_record g Hg), H.
Qed.

Lemma keeps_pymysql_connect env : keeps g (pymysql_connect env).
Proof.
  intros st. unfold pymysql_connect.
  destruct (env_raises env (length (trace st))); simpl; apply (ins_record g Hg); reflexivity.
Qed.

Lemma keeps_queue_get_nowait : keeps g queue_get_nowait.
Proof.
  intros st. unfold queue_get_nowait.
  destruct (items (connection_queue (self st))); simpl;
    [reflexivity|apply (ins_items g Hg)].
Qed.

Lemma keeps_queue_get_timeout env t : keeps g (queue_get_timeout env t).
Proof.
  intros st. unfold queue_get_timeout.
  destruct (t <? 0); [reflexivity|].
  destruct (items (connection_queue (self st))); [|apply (ins_items g Hg)].
  destruct (env_released env (length (trace st))); simpl;
    apply (ins_record g Hg); reflexivity.
Qed.

Lemma keeps_queue_put s : keeps g (queue_put s).
Proof.
  intros st. rewrite queue_put_eq.
  destruct (queue_full (connection_queue (self st))); simpl;
    [reflexivity|apply (ins_items g Hg)].
Qed.

Lemma keeps_create_connection env : keeps g (_create_connection env).
Proof.
  unfold _create_connection. apply keeps_try_except.
  - repeat (apply keeps_bind; [apply keeps_config_item | intros _]).
    apply keeps_pymysql_connect.
  - intros e. repeat apply keeps_if; apply keeps_raise.
Qed.

Lemma keeps_is_connection_valid env s : keeps g (_is_connection_valid env s).
Proof.
  intros st. rewrite is_connection_valid_eq. simpl. apply (ins_record g Hg). reflexivity.
Qed.

Lemma keeps_absorb_close env s : keeps g (absorb (conn_close env s)).
Proof.
  intros st. rewrite absorb_conn_close_eq. simpl. apply (ins_record g Hg). reflexivity.
Qed.

Lemma keeps_replace_invalid env s : keeps g (replace_invalid env s).
Proof.
  unfold replace_invalid. apply keeps_bind; [apply keeps_absorb_close|].
  intros _. apply keeps_create_connection.
Qed.

Lemma keeps_fast_path env : keeps g (fast_path env).
Proof.
  unfold fast_path. apply keeps_bind; [apply keeps_queue_get_nowait|]. intros c.
  apply keeps_bind; [apply keeps_is_connection_valid|]. intros b.
  apply keeps_if; [apply keeps_replace_invalid|apply keeps_ret].
Qed.

Lemma keeps_wait_path env : keeps g (wait_path env).
Proof.
  unfold wait_path. apply keeps_bind; [apply keeps_get_self|]. intros p.
  apply keeps_try_except; [|intros e; apply keeps_raise].
  apply keeps_bind; [apply keeps_queue_get_timeout|]. intros c.
  apply keeps_bind; [apply keeps_is_connection_valid|]. intros b.
  apply keeps_if; [apply keeps_replace_invalid|apply keeps_ret].
Qed.

End Keeps.

(** The observations used below. *)
Lemma insensitive_lock : insensitive (fun st => lock (self st)).
Proof. split; reflexivity. Qed.

Lemma insensitive_config : insensitive (fun st => config (self st)).
Proof. split; reflexivity. Qed.

Lemma insensitive_inst_connection : insensitive (fun st => inst_connection (self st)).
Proof. split; reflexivity. Qed.

Lemma insensitive_current : insensitive (fun st => current_connections (self st)).
Proof. split; reflexivity. Qed.

Lemma insensitive_store_locks : insensitive (fun st => store_locks (trace st)).
Proof.
  split; [|reflexivity]. intros ev st H. unfold record, store_locks. simpl.
  rewrite omap_app. simpl. destruct ev; try discriminate; simpl; apply app_nil_r.
Qed.

Section Nonblocking.

Lemma nonblocking_create_connection env : nonblocking (_create_connection env).
Proof.
  intros st. destruct (create_connection_cases env st) as [[c E]|(m & st' & E & _)];
    rewrite E; discriminate.
Qed.

Lemma nonblocking_fast_path env : nonblocking (fast_path env).
Proof.
  intros st. rewrite fast_path_eq.
  destruct (items (connection_queue (self st))) as [|s q]; [discriminate|]. cbv zeta.
  destruct (call_ok env (on_self (set_items q) st)); [discriminate|].
  apply nonblocking_create_connection.
Qed.

End Nonblocking.

(** ** What an acquisition can end in, and the lock *)

Lemma raise_class_grow_or_wait env st e :
  (grow_or_wait env st).1 = Raise e -> acquisition_error e.
Proof.
  unfold grow_or_wait, bind. rewrite grow_path_eq.
  destruct (current_connections (self st) <? max_connections (self st)).
  - destruct (_create_connection env (enter_lock st)) as [[c|e0|] st1]; simpl;
      intros H; try discriminate.
    injection H as <-. left. reflexivity.
  - rewrite wait_path_eq.
    destruct (queue_get_timeout env (connection_timeout (self st)) st) as [[s|e0|] st2];
      simpl; try discriminate.
    + destruct (call_ok env st2); simpl; [discriminate|].
      destruct (_create_connection env _) as [[c|e1|] st4]; simpl; intros H;
        try discriminate.
      injection H as <-. right. reflexivity.
    + intros H. injection H as <-. right. reflexivity.
Qed.

(** The locked block gives the lock back, and its one store, if any, is
    made with the lock held. *)
Lemma grow_path_lock env st :
  lock (self (grow_path env st).2) = lock (self st) /\
  (store_locks (trace (grow_path env st).2) = store_locks (trace st) \/
   store_locks (trace (grow_path env st).2) = store_locks (trace st) ++ [true]).
Proof.
  rewrite grow_path_eq.
  destruct (current_connections (self st) <? max_connections (self st));
    [|split; [reflexivity|left; reflexivity]].
  pose proof (keeps_create_connection _ insensitive_lock env (enter_lock st)) as Hl.
  pose proof (keeps_create_connection _ insensitive_store_locks env (enter_lock st)) as Hs.
  pose proof (nonblocking_create_connection env (enter_lock st)) as Hb.
  destruct (_create_connection env (enter_lock st)) as [[c|e|] st1];
    cbn [fst snd] in Hl, Hs, Hb |- *.
  - split.
    + simpl. rewrite Hl. reflexivity.
    + right. unfold add_current, bind, get_self, store_current. simpl.
      unfold store_locks in *. rewrite omap_app, Hs. simpl.
      simpl in Hl. rewrite Hl. reflexivity.
  - split; [simpl; rewrite Hl; reflexivity|left; exact Hs].
  - exfalso. apply Hb. reflexivity.
Qed.

Lemma grow_or_wait_lock env st :
  lock (self (grow_or_wait env st).2) = lock (self st) /\
  (store_locks (trace (grow_or_wait env st).2) = store_locks (trace st) \/
   store_locks (trace (grow_or_wait env st).2) = store_locks (trace st) ++ [true]).
Proof.
  unfold grow_or_wait, bind.
  pose proof (grow_path_lock env st) as Hg.
  destruct (grow_path env st) as [[[c|]|e|] st1]; cbn [fst snd] in *; try exact Hg.
  rewrite (keeps_wait_path _ insensitive_lock env st1).
  rewrite (keeps_wait_path _ insensitive_store_locks env st1). exact Hg.
Qed.

(** X1.  On a pool whose sizes and timeout are numbers, an exception
    that leaves [get_connection] is a [ConnectionError] or a
    [PoolExhaustedError], whatever the backend calls and the wait on the
    queue raise.  However the call ends, it leaves the configuration, the
    sizes and the timeout of the pool alone. *)
Theorem get_connection_outcomes (env : Env) (st : St) :
  match (get_connection env st).1 with
  | Raise e => exn_cls e = ConnectionError \/ exn_cls e = PoolExhaustedError
  | _ => True
  end /\
  config (self (get_connection env st).2) = config (self st) /\
  min_connections (self (get_connection env st).2) = min_connections (self st) /\
  max_connections (self (get_connection env st).2) = max_connections (self st) /\
  connection_timeout (self (get_connection env st).2) = connection_timeout (self st).
Proof.
  assert (Hshape : forall X (g : Pool -> X),
             (forall l p, g (set_items l p) = g p) ->
             (forall n p, g (set_lock n p) = g p) ->
             (forall v p, g (set_current v p) = g p) ->
             g (self (get_connection env st).2) = g (self st)).
  { intros X g Hi Hl Hc.
    assert (Hins : insensitive (fun s => g (self s))).
    { split; [reflexivity|]. intros l s. apply Hi. }
    pose proof (keeps_fast_path _ Hins env st) as Hf.
    destruct (fast_path env st) as [[c|e|] st1] eqn:E; cbn [fst snd] in Hf.
    - rewrite (get_connection_fast_path_Ok env st c st1 E). exact Hf.
    - rewrite (get_connection_after_fast_path env st e st1 E), <- Hf.
      unfold grow_or_wait, bind. rewrite grow_path_eq.
      destruct (current_connections (self st1) <? max_connections (self st1)).
      + pose proof (keeps_create_connection _ Hins env (enter_lock st1)) as Hcr.
        destruct (_create_connection env (enter_lock st1)) as [[c|e0|] st2];
          cbn [fst snd] in Hcr |- *.
        * unfold add_current, bind, get_self, store_current, leave_lock, on_self, record.
          simpl. rewrite Hl, Hc, Hcr. simpl. apply Hl.
        * simpl. rewrite Hl, Hcr. simpl. apply Hl.
        * rewrite Hcr. simpl. apply Hl.
      + apply (keeps_wait_path _ Hins env st1).
    - exfalso. exact (nonblocking_fast_path env st ltac:(rewrite E; reflexivity)). }
  split.
  - destruct (fast_path env st) as [[c|e|] st1] eqn:E.
    + rewrite (get_connection_fast_path_Ok env st c st1 E). exact I.
    + rewrite (get_connection_after_fast_path env st e st1 E).
      pose proof (raise_class_grow_or_wait env st1) as Hr.
      destruct (grow_or_wait env st1) as [[c|e0|] st2]; cbn [fst snd] in *;
        [exact I|apply Hr; reflexivity|exact I].
    + exfalso. exact (nonblocking_fast_path env st ltac:(rewrite E; reflexivity)).
  - split; [apply (Hshape _ config); reflexivity|].
    split; [apply (Hshape _ min_connections); reflexivity|].
    split; [apply (Hshape _ max_connections); reflexivity|].
    apply (Hshape _ connection_timeout); reflexivity.
Qed.

(** X2.  [get_connection] and [release_connection] end with the lock
    held exactly as often as before the call, and each makes at most one
    store to [current_connections], which is made while the lock is
    held. *)
Theorem counter_stores_under_lock (env : Env) (connection : Session) (st : St) :
  (lock (self (get_connection env st).2) = lock (self st) /\
   (store_locks (trace (get_connection env st).2) = store_locks (trace st) \/
    store_locks (trace (get_connection env st).2) = store_locks (trace st) ++ [true])) /\
  (lock (self (release_connection env connection st).2) = lock (self st) /\
   (store_locks (trace (release_connection env connection st).2) = store_locks (trace st) \/
    store_locks (trace (release_connection env connection st).2) =
      store_locks (trace st) ++ [true])).
Proof.
  split.
  - pose proof (keeps_fast_path _ insensitive_lock env st) as Hl.
    pose proof (keeps_fast_path _ insensitive_store_locks env st) as Hs.
    destruct (fast_path env st) as [[c|e|] st1] eqn:E; cbn [fst snd] in Hl, Hs.
    + rewrite (get_connection_fast_path_Ok env st c st1 E). simpl. auto.
    + rewrite (get_connection_after_fast_path env st e st1 E).
      destruct (grow_or_wait_lock env st1) as [Hl' Hs']. rewrite Hl', <- Hl, <- Hs.
      split; [reflexivity|exact Hs'].
    + exfalso. exact (nonblocking_fast_path env st ltac:(rewrite E; reflexivity)).
  - rewrite release_connection_eq. destruct (call_ok env st).
    + rewrite (keeps_queue_put _ insensitive_lock).
      rewrite (keeps_queue_put _ insensitive_store_locks).
      split; [reflexivity|left]. apply (ins_record _ insensitive_store_locks). reflexivity.
    + cbv zeta. cbn [snd]. split.
      * destruct st as [[mn mx cur lk to cfg q ic] tr]. reflexivity.
      * right. destruct st as [[mn mx cur lk to cfg q ic] tr].
        unfold store_locks. simpl. rewrite !omap_app. simpl.
        rewrite !app_nil_r. reflexivity.
Qed.

(** ** Reuse, round trip and growth *)

Lemma create_connection_complete env st :
  complete (config (self st)) ->
  _create_connection env st =
  match env_raises env (length (trace st)) with
  | None => (Ok (length (trace st)), record (EvConnect (Some (length (trace st)))) st)
  | Some e => (Raise (create_error e), record (EvConnect None) st)
  end.
Proof.
  intros Hc. unfold complete, connect_keys in Hc.
  repeat match goal with
  | H : Forall _ (_ :: _) |- _ => apply Forall_cons in H; destruct H as [[? ?] H]
  end.
  unfold _create_connection, try_except, bind, config_item, pymysql_connect, create_error.
  repeat match goal with H : config (self st) !! _ = Some _ |- _ => rewrite H; clear H end.
  destruct (env_raises env (length (trace st))) as [e|]; [|reflexivity].
  destruct (isinstance e pymysql_OperationalError);
    [|destruct (isinstance e pymysql_ProgrammingError)]; reflexivity.
Qed.

(** X3.  An idle session that answers the ping is handed out in FIFO
    order: [get_connection] returns the head of the idle queue, after one
    ping with [reconnect=False] and nothing else; no connection is made,
    the counter is not touched and the rest of the queue stays in
    order. *)
Theorem get_connection_reuses_idle_head (env : Env) (st : St) (s : Session)
    (q : list Session) :
  items (connection_queue (self st)) = s :: q ->
  env_raises env (length (trace st)) = None ->
  get_connection env st =
    (Ok s, mkSt (set_items q (self st)) (trace st ++ [EvPing s false true])).
Proof.
  intros Hq Hping. apply get_connection_fast_path_Ok.
  rewrite fast_path_eq, Hq. cbv zeta.
  change (call_ok env (on_self (set_items q) st)) with (call_ok env st).
  unfold call_ok. rewrite Hping. reflexivity.
Qed.

(** X4.  Release and acquire are a round trip: on a pool whose idle
    queue is empty, a session that answers the ping is put back by
    [release_connection] and is the very session the next
    [get_connection] returns; the pool object ends as it began and the
    backend has seen two pings and no connect. *)
Theorem release_then_get_connection (env : Env) (st : St) (s : Session) :
  items (connection_queue (self st)) = [] ->
  env_raises env (length (trace st)) = None ->
  env_raises env (S (length (trace st))) = None ->
  (release_connection env s >> get_connection env) st =
    (Ok s, mkSt (self st) (trace st ++ [EvPing s false true; EvPing s false true])).
Proof.
  intros Hq H1 H2.
  assert (Hrel : release_connection env s st =
                 (Ok tt, mkSt (set_items [s] (self st)) (trace st ++ [EvPing s false true]))).
  { rewrite release_connection_eq. unfold call_ok. rewrite H1.
    rewrite queue_put_eq. cbn [self record connection_queue].
    assert (Hroom : queue_full (connection_queue (self st)) = false).
    { unfold queue_full. rewrite Hq. cbn [length Z.of_nat].
      generalize (maxsize (connection_queue (self st))). intros m.
      change (Z.of_nat 0) with 0.
      destruct (Z.ltb_spec 0 m); destruct (Z.leb_spec m 0); try reflexivity; lia. }
    rewrite Hroom, Hq. reflexivity. }
  unfold bind. rewrite Hrel.
  apply get_connection_fast_path_Ok.
  rewrite fast_path_eq. cbn [self connection_queue set_items items]. cbv zeta.
  unfold call_ok. cbn [trace on_self record]. rewrite length_app. cbn [length].
  rewrite Nat.add_1_r, H2.
  destruct st as [[mn mx cur lk to cfg [ms its] ic] tr]. simpl in *. subst its.
  unfold record, on_self, set_items. simpl. rewrite <- app_assoc. reflexivity.
Qed.

(** X5.  Growth: on a pool with an empty idle queue, fewer sessions
    counted than [max_connections] and a configuration with the six
    connection keys, [get_connection] makes exactly one connection
    attempt.  If it succeeds the new session is returned and the counter
    is incremented by one store made under the lock; if it fails the
    caller gets a [ConnectionError] whose text wraps the text of the
    factory's error, and the pool object, counter included, is as
    before. *)
Theorem get_connection_grows (env : Env) (st : St) :
  items (connection_queue (self st)) = [] ->
  current_connections (self st) < max_connections (self st) ->
  complete (config (self st)) ->
  get_connection env st =
  match env_raises env (length (trace st)) with
  | None =>
      (Ok (length (trace st)),
       mkSt (set_current (current_connections (self st) + 1) (self st))
            (trace st ++ [EvConnect (Some (length (trace st)));
                          EvCounter (current_connections (self st) + 1) true]))
  | Some e =>
      (Raise (Exn ConnectionError ("创建新连接失败: " +:+ exn_str (create_error e))),
       mkSt (self st) (trace st ++ [EvConnect None]))
  end.
Proof.
  intros Hq Hlt Hc.
  rewrite (get_connection_after_fast_path env st _ st (fast_path_empty env st Hq)).
  unfold grow_or_wait, bind. rewrite grow_path_eq.
  destruct (Z.ltb_spec (current_connections (self st)) (max_connections (self st)));
    [|lia].
  rewrite (create_connection_complete env (enter_lock st) Hc).
  change (length (trace (enter_lock st))) with (length (trace st)).
  destruct st as [[mn mx cur lk to cfg q ic] tr]. cbn [trace self] in *.
  destruct (env_raises env (length tr)) as [e|].
  - unfold leave_lock, enter_lock, record, on_self, set_lock. simpl. reflexivity.
  - unfold leave_lock, enter_lock, record, on_self, set_lock, add_current, bind, get_self,
      store_current, set_current. simpl. rewrite <- app_assoc. reflexivity.
Qed.

(** ** The constructor *)

Lemma initial_config_complete a : complete (initial_config a).
Proof.
  unfold complete, connect_keys, initial_config.
  set (defaults := <["host" := _]> _).
  assert (Hd : Forall (fun k => is_Some (defaults !! k))
                 ["host"; "user"; "password"; "database"; "port"; "charset"]).
  { unfold defaults. repeat constructor; eexists; reflexivity. }
  destruct (arg_config a) as [c|]; [|exact Hd].
  destruct (bool_decide (c = ∅)); [exact Hd|].
  eapply Forall_impl; [exact Hd|]. intros k [v Hv]. simpl.
  rewrite lookup_union_is_Some. right. eexists. exact Hv.
Qed.

(** One round of the warm-up loop, lines 191-200. *)
Lemma initialize_round_eq env st :
  try_except
    (let! connection := _create_connection env in
     queue_put connection >> add_current 1)
    (fun _ => ret tt) st =
  match _create_connection env st with
  | (Ok c, st1) =>
      if queue_full (connection_queue (self st1)) then (Blocked, st1)
      else add_current 1
             (on_self (set_items (items (connection_queue (self st1)) ++ [c])) st1)
  | (Raise _, st1) => (Ok tt, st1)
  | (Blocked, st1) => (Blocked, st1)
  end.
Proof.
  unfold try_except, bind.
  destruct (_create_connection env st) as [[c|e|] st1]; try reflexivity.
  rewrite queue_put_eq.
  destruct (queue_full (connection_queue (self st1))); reflexivity.
Qed.

Lemma initialize_loop_S env n st :
  initialize_loop env (S n) st =
  match try_except
          (let! connection := _create_connection env in
           queue_put connection >> add_current 1)
          (fun _ => ret tt) st with
  | (Ok _, st1) => initialize_loop env n st1
  | (Raise e, st1) => (Raise e, st1)
  | (Blocked, st1) => (Blocked, st1)
  end.
Proof. reflexivity. Qed.

(** What the warm-up loop does to the pool object: it appends some
    sessions to the idle queue and counts each of them; it stops early
    only by blocking on a full queue, and a bounded queue is never
    overfilled. *)
Lemma initialize_loop_shape env n st :
  exists new,
    self (initialize_loop env n st).2 =
      set_current (current_connections (self st) + Z.of_nat (length new))
        (set_items (items (connection_queue (self st)) ++ new) (self st)) /\
    (length new <= n)%nat /\
    ((initialize_loop env n st).1 = Ok tt \/
     ((initialize_loop env n st).1 = Blocked /\ (length new < n)%nat /\
      queue_full (connection_queue (self (initialize_loop env n st).2)) = true)) /\
    (healthy env -> complete (config (self st)) ->
     (initialize_loop env n st).1 = Ok tt -> length new = n) /\
    (0 < maxsize (connection_queue (self st)) ->
     Z.of_nat (length (items (connection_queue (self st)))) <=
       maxsize (connection_queue (self st)) ->
     Z.of_nat (length (items (connection_queue (self st)) ++ new)) <=
       maxsize (connection_queue (self st))).
Proof.
  revert st. induction n as [|n IH]; intros st.
  - exists []. simpl. rewrite app_nil_r, Z.add_0_r.
    destruct st as [[mn mx cur lk to cfg [ms its] ic] tr].
    repeat split; auto.
  - rewrite initialize_loop_S, initialize_round_eq.
    destruct (create_connection_cases env st) as [[c E]|(m & st1 & E & Hs & _)]; rewrite E.
    + cbn [self record].
      destruct (queue_full (connection_queue (self st))) eqn:Hfull.
      * exists []. cbn [fst snd self record length]. rewrite app_nil_r, Z.add_0_r.
        split; [destruct st as [[mn mx cur lk to cfg [ms its] ic] tr]; reflexivity|].
        split; [lia|].
        split; [right; split; [reflexivity|split; [lia|exact Hfull]]|].
        split; [intros _ _ H; discriminate|auto].
      * set (st2 := (add_current 1 (on_self (set_items
                       (items (connection_queue (self st)) ++ [c]))
                       (record (EvConnect (Some c)) st))).2).
        change (add_current 1 _) with (Ok tt, st2). cbv beta iota.
        destruct (IH st2) as (new & Hself & Hlen & Hres & Hh & Hcap).
        assert (Hq2 : connection_queue (self st2) =
                      mkQueue (maxsize (connection_queue (self st)))
                              (items (connection_queue (self st)) ++ [c])).
        { destruct st as [[mn mx cur lk to cfg [ms its] ic] tr]. reflexivity. }
        exists (c :: new).
        split.
        { rewrite Hself. destruct st as [[mn mx cur lk to cfg [ms its] ic] tr].
          unfold st2, add_current, bind, get_self, store_current, set_current, set_items,
            on_self, record. simpl. rewrite <- app_assoc. simpl.
          f_equal. lia. }
        split; [simpl; lia|].
        split.
        { destruct Hres as [Hok|(Hb & Hlt & Hf)]; [left; exact Hok|].
          right. split; [exact Hb|]. split; [simpl; lia|exact Hf]. }
        split.
        { intros Hhealthy Hcomplete Hok. simpl. f_equal. apply Hh; auto. }
        intros Hpos Hle. rewrite Hq2 in Hcap. cbn [maxsize items] in Hcap.
        rewrite <- app_assoc in Hcap. apply Hcap; [exact Hpos|].
        unfold queue_full in Hfull.
        destruct (Z.ltb_spec 0 (maxsize (connection_queue (self st)))); [|lia].
        destruct (Z.leb_spec (maxsize (connection_queue (self st)))
                    (Z.of_nat (length (items (connection_queue (self st))))));
          [discriminate|].
        rewrite length_app. simpl. lia.
    + cbv beta iota.
      destruct (IH st1) as (new & Hself & Hlen & Hres & Hh & Hcap).
      exists new.
      split; [rewrite Hself, Hs; reflexivity|]. split; [lia|].
      split.
      { destruct Hres as [Hok|(Hb & Hlt & Hf)]; [left; exact Hok|].
        right. split; [exact Hb|]. split; [lia|exact Hf]. }
      split.
      { intros Hhealthy Hcomplete Hok. exfalso.
        rewrite (create_connection_complete env st Hcomplete), (Hhealthy _) in E.
        discriminate. }
      rewrite Hs in Hcap. exact Hcap.
Qed.

Lemma init_eq env a tr :
  __init__ env a tr =
  initialize_loop env (Z.to_nat (arg_min_connections a)) (mkSt (new_pool a) tr).
Proof. reflexivity. Qed.


(** X7.  A constructor call with [0 < max_connections < min_connections]
    and a backend that answers every call never returns: after
    [max_connections] sessions the idle queue is full, one more session
    is connected, and the put of that session blocks; the counter stands
    at [max_connections]. *)
Theorem init_blocks_when_min_exceeds_max (env : Env) (a : InitArgs) (tr : list Event) :
  healthy env ->
  0 < arg_max_connections a < arg_min_connections a ->
  (__init__ env a tr).1 = Blocked /\
  current_connections (self (__init__ env a tr).2) = arg_max_connections a /\
  Z.of_nat (length (items (connection_queue (self (__init__ env a tr).2)))) =
    arg_max_connections a.
Proof.
  intros Hhealthy [Hpos Hlt].
  rewrite !init_eq.
  set (n := Z.to_nat (arg_min_connections a)).
  destruct (initialize_loop_shape env n (mkSt (new_pool a) tr))
    as (new & Hself & Hlen & Hres & Hh & Hcap).
  cbn [self new_pool current_connections connection_queue items maxsize app length] in *.
  specialize (Hcap Hpos ltac:(lia)).
  destruct Hres as [Hok|(Hb & Hlt' & Hf)].
  - pose proof (Hh Hhealthy (initial_config_complete a) Hok). lia.
  - rewrite Hself in Hf |- *. unfold queue_full in Hf. cbn in Hf |- *.
    destruct (Z.ltb_spec 0 (arg_max_connections a)); [|discriminate].
    destruct (Z.leb_spec (arg_max_connections a) (Z.of_nat (length new)));
      [|discriminate].
    split; [exact Hb|]. split; lia.
Qed.

(** ** Shutdown *)

Lemma drain_loop_spec env its :
  forall fuel st closed errors,
    items (connection_queue (self st)) = its ->
    (length its < fuel)%nat ->
    exists oks,
      length oks = length its /\
      drain_loop env fuel closed errors st =
        (Ok (Some (closed + count_of true oks, errors + count_of false oks)),
         mkSt (set_items [] (self st)) (trace st ++ zip_with EvClose its oks)).
Proof.
  induction its as [|s q IH]; intros fuel st closed errors Hq Hfuel.
  - destruct fuel as [|fuel]; [simpl in Hfuel; lia|].
    exists []. split; [reflexivity|].
    cbn [drain_loop]. unfold bind, get_self. rewrite Hq.
    rewrite bool_decide_true by reflexivity.
    unfold ret, count_of. simpl. rewrite !Z.add_0_r, app_nil_r.
    destruct st as [[mn mx cur lk to cfg [ms its] ic] tr]. simpl in Hq. subst its.
    reflexivity.
  - destruct fuel as [|fuel]; [simpl in Hfuel; lia|].
    cbn [drain_loop]. unfold bind at 1, get_self. rewrite Hq.
    rewrite bool_decide_false by discriminate.
    unfold bind at 1, try_except at 1, bind at 1, queue_get_nowait. rewrite Hq.
    unfold try_except, bind, conn_close, backend_call.
    cbn [trace on_self].
    destruct (env_raises env (length (trace st))) as [e|] eqn:Hr.
    + destruct (IH fuel (record (EvClose s false) (on_self (set_items q) st))
                  closed (errors + 1)) as (oks & Hlen & Hrun).
      { destruct st as [[mn mx cur lk to cfg [ms its] ic] tr]. reflexivity. }
      { simpl in Hfuel. lia. }
      exists (false :: oks). split; [simpl; lia|].
      unfold ret. cbn [fst snd]. rewrite Hrun. unfold count_of.
      cbn [count_occ zip_with]. destruct (Bool.bool_dec false true); [discriminate|].
      destruct (Bool.bool_dec false false); [|contradiction].
      f_equal; [f_equal; f_equal; f_equal; lia|].
      destruct st as [[mn mx cur lk to cfg [ms its] ic] tr].
      unfold record, on_self, set_items. simpl. rewrite <- app_assoc. reflexivity.
    + destruct (IH fuel (record (EvClose s true) (on_self (set_items q) st))
                  (closed + 1) errors) as (oks & Hlen & Hrun).
      { destruct st as [[mn mx cur lk to cfg [ms its] ic] tr]. reflexivity. }
      { simpl in Hfuel. lia. }
      exists (true :: oks). split; [simpl; lia|].
      unfold ret. cbn [fst snd]. rewrite Hrun. unfold count_of.
      cbn [count_occ zip_with]. destruct (Bool.bool_dec true false); [discriminate|].
      destruct (Bool.bool_dec true true); [|contradiction].
      f_equal; [f_equal; f_equal; f_equal; lia|].
      destruct st as [[mn mx cur lk to cfg [ms its] ic] tr].
      unfold record, on_self, set_items. simpl. rewrite <- app_assoc. reflexivity.
Qed.

(** X8.  [close_all_connections], given fuel for one more round than
    there are idle sessions, finishes and never raises, whatever the
    closes do: every idle session is taken from the queue and closed once,
    in queue order; the queue ends empty; the counter is reset to 0 by one
    store made under the lock, after the closes; the lock is given back.
    The two counts it reports are the closes that returned and the closes
    that raised. *)
Theorem close_all_connections_drains (env : Env) (fuel : nat) (st : St) :
  (length (items (connection_queue (self st))) < fuel)%nat ->
  exists oks,
    length oks = length (items (connection_queue (self st))) /\
    close_all_connections env fuel st =
      (Ok (Some (count_of true oks, count_of false oks)),
       mkSt (set_current 0 (set_items [] (self st)))
            (trace st ++ zip_with EvClose (items (connection_queue (self st))) oks ++
             [EvCounter 0 true])).
Proof.
  intros Hfuel.
  destruct (drain_loop_spec env (items (connection_queue (self st))) fuel (enter_lock st)
              0 0) as (oks & Hlen & Hrun).
  { destruct st as [[mn mx cur lk to cfg [ms its] ic] tr]. reflexivity. }
  { exact Hfuel. }
  exists oks. split; [exact Hlen|].
  unfold close_all_connections. rewrite with_lock_eq. unfold bind at 1. rewrite Hrun.
  unfold bind, store_current, ret. simpl.
  destruct st as [[mn mx cur lk to cfg [ms its] ic] tr].
  unfold leave_lock, record, on_self, set_lock, set_current, set_items. simpl.
  rewrite <- app_assoc. reflexivity.
Qed.

Lemma queue_full_empty ms : queue_full (mkQueue ms []) = false.
Proof.
  unfold queue_full. cbn [maxsize items length]. change (Z.of_nat 0) with 0.
  destruct (Z.ltb_spec 0 ms); destruct (Z.leb_spec ms 0); try reflexivity; lia.
Qed.

(** The state in which [close_all_connections] leaves the pool. *)
Lemma close_all_connections_state env fuel st :
  (length (items (connection_queue (self st))) < fuel)%nat ->
  self (close_all_connections env fuel st).2 = set_current 0 (set_items [] (self st)).
Proof.
  intros Hfuel.
  destruct (drain_loop_spec env (items (connection_queue (self st))) fuel (enter_lock st)
              0 0) as (oks & Hlen & Hrun).
  { destruct st as [[mn mx cur lk to cfg [ms its] ic] tr]. reflexivity. }
  { exact Hfuel. }
  unfold close_all_connections. rewrite with_lock_eq. unfold bind at 1. rewrite Hrun.
  destruct st as [[mn mx cur lk to cfg [ms its] ic] tr]. reflexivity.
Qed.

(** X9.  After a shutdown the pool starts from scratch: whatever was
    counted before [close_all_connections], the next [get_connection], on
    a pool with room ([0 < max_connections]), a configuration with the six
    connection keys and a backend that accepts the connection, returns a
    newly made session and the counter is 1. *)
Theorem get_connection_after_close_all (env : Env) (fuel : nat) (st : St) :
  (length (items (connection_queue (self st))) < fuel)%nat ->
  0 < max_connections (self st) ->
  complete (config (self st)) ->
  env_raises env (length (trace (close_all_connections env fuel st).2)) = None ->
  exists st2,
    get_connection env (close_all_connections env fuel st).2 =
      (Ok (length (trace (close_all_connections env fuel st).2)), st2) /\
    current_connections (self st2) = 1 /\
    items (connection_queue (self st2)) = [].
Proof.
  intros Hfuel Hmax Hc Hok.
  pose proof (close_all_connections_state env fuel st Hfuel) as Hst.
  set (st1 := (close_all_connections env fuel st).2) in *.
  assert (Hq : items (connection_queue (self st1)) = []) by (rewrite Hst; reflexivity).
  assert (Hcur : current_connections (self st1) = 0) by (rewrite Hst; reflexivity).
  assert (Hmx : max_connections (self st1) = max_connections (self st))
    by (rewrite Hst; reflexivity).
  assert (Hcfg : config (self st1) = config (self st)) by (rewrite Hst; reflexivity).
  rewrite (get_connection_after_fast_path env st1 _ st1 (fast_path_empty env st1 Hq)).
  unfold grow_or_wait, bind. rewrite grow_path_eq, Hcur, Hmx.
  destruct (Z.ltb_spec 0 (max_connections (self st))); [|lia].
  rewrite (create_connection_complete env (enter_lock st1)) by (simpl; rewrite Hcfg; exact Hc).
  change (length (trace (enter_lock st1))) with (length (trace st1)). rewrite Hok.
  eexists. split; [reflexivity|].
  simpl. rewrite Hcur, Hq. split; reflexivity.
Qed.

(** X10.  A shutdown forgets the sessions that are checked out: when
    such a session is released afterwards and answers the ping, it goes
    onto the idle queue while the counter stays at 0, so the queue then
    holds more sessions than the pool counts. *)
Theorem release_after_close_all (env : Env) (fuel : nat) (st : St) (s : Session) :
  (length (items (connection_queue (self st))) < fuel)%nat ->
  env_raises env (length (trace (close_all_connections env fuel st).2)) = None ->
  exists st2,
    release_connection env s (close_all_connections env fuel st).2 = (Ok tt, st2) /\
    items (connection_queue (self st2)) = [s] /\
    current_connections (self st2) = 0.
Proof.
  intros Hfuel Hok.
  pose proof (close_all_connections_state env fuel st Hfuel) as Hst.
  set (st1 := (close_all_connections env fuel st).2) in *.
  rewrite release_connection_eq. unfold call_ok. rewrite Hok.
  rewrite queue_put_eq. cbn [self record]. rewrite Hst.
  cbn [connection_queue set_current set_items items].
  rewrite queue_full_empty.
  eexists. split; [reflexivity|].
  cbn [self on_self record set_items connection_queue items current_connections].
  rewrite Hst. split; reflexivity.
Qed.

(** ** Scoped acquisition and the pooled statement helpers *)

Lemma release_connection_never_raises env s st e st' :
  release_connection env s st <> (Raise e, st').
Proof.
  rewrite release_connection_eq. destruct (call_ok env st).
  - rewrite queue_put_eq. destruct (queue_full _); discriminate.
  - discriminate.
Qed.

Lemma connection_eq {A} env (body : Session -> M A) st :
  connection env body st =
  match get_connection env st with
  | (Ok conn, st1) =>
      match body conn st1 with
      | (Blocked, st2) => (Blocked, st2)
      | (r, st2) =>
          match release_connection env conn st2 with
          | (Ok _, st3) => (r, st3)
          | (Raise e, st3) => (Raise e, st3)
          | (Blocked, st3) => (Blocked, st3)
          end
      end
  | (Raise e, st1) => (Raise e, st1)
  | (Blocked, st1) => (Blocked, st1)
  end.
Proof.
  unfold connection, bind, try_finally.
  destruct (get_connection env st) as [[conn|e|] st1]; try reflexivity.
  destruct (body conn st1) as [[a|e|] st2]; try reflexivity;
    unfold bind; destruct (release_connection env conn st2) as [[[]|e'|] st3]; reflexivity.
Qed.

(** X11.  The context manager [connection] releases on every exit path.
    When the acquisition fails the block is not entered and the error is
    the acquisition's.  Otherwise, whether the block returns or raises,
    [release_connection] is run on the acquired session in the state the
    block left, and the outcome of the block, value or exception, is the
    outcome of the whole: the release raises nothing of its own, and only
    a release left waiting on a full queue keeps the outcome back. *)
Theorem connection_releases_on_every_exit {A : Type} (env : Env) (body : Session -> M A)
    (st : St) :
  connection env body st =
  match get_connection env st with
  | (Ok conn, st1) =>
      match body conn st1 with
      | (Blocked, st2) => (Blocked, st2)
      | (r, st2) =>
          match release_connection env conn st2 with
          | (Blocked, st3) => (Blocked, st3)
          | (_, st3) => (r, st3)
          end
      end
  | (Raise e, st1) => (Raise e, st1)
  | (Blocked, st1) => (Blocked, st1)
  end /\
  forall conn st2 e st3, release_connection env conn st2 <> (Raise e, st3).
Proof.
  split; [|intros conn st2 e st3; apply release_connection_never_raises].
  rewrite connection_eq.
  destruct (get_connection env st) as [[conn|e|] st1]; try reflexivity.
  destruct (body conn st1) as [[a|e|] st2]; try reflexivity;
    pose proof (release_connection_never_raises env conn st2) as Hn;
    destruct (release_connection env conn st2) as [[[]|e'|] st3]; try reflexivity;
    exfalso; exact (Hn e' st3 eq_refl).
Qed.

Lemma with_self_connection_unset {A} env (body : Session -> M A) st :
  inst_connection (self st) = None ->
  with_self_connection env body st = connection env body st.
Proof.
  intros H. unfold with_self_connection, bind.
  rewrite (self_connection_unset st H). reflexivity.
Qed.

Lemma length_record ev st : length (trace (record ev st)) = S (length (trace st)).
Proof. unfold record. simpl. rewrite length_app. simpl. lia. Qed.

Lemma backend_call_Ok env ev st :
  env_raises env (length (trace st)) = None ->
  backend_call env ev st = (Ok tt, record (ev true) st).
Proof. intros H. unfold backend_call. rewrite H. reflexivity. Qed.

Lemma backend_call_Raise env ev st e :
  env_raises env (length (trace st)) = Some e ->
  backend_call env ev st = (Raise e, record (ev false) st).
Proof. intros H. unfold backend_call. rewrite H. reflexivity. Qed.

Lemma cursor_execute_Ok env s query st :
  env_raises env (length (trace st)) = None ->
  cursor_execute env s query st =
    (Ok (env_rowcount env (length (trace st))), record (EvExecute s query true) st).
Proof. intros H. unfold cursor_execute. rewrite H. reflexivity. Qed.

Lemma cursor_execute_Raise env s query st e :
  env_raises env (length (trace st)) = Some e ->
  cursor_execute env s query st = (Raise e, record (EvExecute s query false) st).
Proof. intros H. unfold cursor_execute. rewrite H. reflexivity. Qed.

Lemma cursor_fetchall_Ok env s st :
  env_raises env (length (trace st)) = None ->
  cursor_fetchall env s st =
    (Ok (env_rows env (length (trace st))), record (EvFetchall s true) st).
Proof. intros H. unfold cursor_fetchall. rewrite H. reflexivity. Qed.

Lemma record_record_trace ev1 st l :
  trace st = l -> trace (record ev1 st) = l ++ [ev1].
Proof. intros <-. reflexivity. Qed.

Lemma connection_after_release {A} env (body : Session -> M A) st conn st1 r st2 :
  get_connection env st = (Ok conn, st1) ->
  body conn st1 = (r, st2) ->
  r <> Blocked ->
  connection env body st = after_release env conn r st2.
Proof.
  intros Hget Hbody Hr. rewrite connection_eq, Hget, Hbody. unfold after_release.
  pose proof (release_connection_never_raises env conn st2) as Hn.
  destruct r as [a|e|]; [| |contradiction];
    destruct (release_connection env conn st2) as [[[]|e'|] st3]; try reflexivity;
    exfalso; exact (Hn e' st3 eq_refl).
Qed.

(** X12.  The pooled [execute_update] of line 395, on a pool object
    without an instance attribute [connection]: when a session is
    acquired and the cursor, the statement, the commit and the closing of
    the cursor all succeed, the statement is executed and committed on
    that session, the session is released afterwards, and the result is
    the affected-row count that [cursor.execute] returned. *)
Theorem execute_update_395_commits (env : Env) (query : string)
    (params : option (list cfgval)) (st st1 : St) (conn : Session) :
  inst_connection (self st) = None ->
  get_connection env st = (Ok conn, st1) ->
  env_raises env (length (trace st1)) = None ->
  env_raises env (S (length (trace st1))) = None ->
  env_raises env (S (S (length (trace st1)))) = None ->
  env_raises env (S (S (S (length (trace st1))))) = None ->
  execute_update_395 env query params st =
    after_release env conn (Ok (env_rowcount env (S (length (trace st1)))))
      (mkSt (self st1)
            (trace st1 ++ [EvCursor conn true; EvExecute conn query true;
                           EvCommit conn true; EvCursorClose conn true])).
Proof.
  intros Hinst Hget H0 H1 H2 H3.
  unfold execute_update_395. unfold try_except at 1.
  rewrite (with_self_connection_unset env _ st Hinst).
  match goal with |- context [connection env ?b st] => set (body := b) end.
  assert (Hbody : body conn st1 =
            (Ok (env_rowcount env (S (length (trace st1)))),
             mkSt (self st1)
                  (trace st1 ++ [EvCursor conn true; EvExecute conn query true;
                                 EvCommit conn true; EvCursorClose conn true]))).
  { unfold body. unfold with_cursor. unfold bind at 1. unfold conn_cursor.
    rewrite (backend_call_Ok env _ st1 H0).
    unfold try_finally, try_except. unfold bind at 1.
    rewrite cursor_execute_Ok by (rewrite length_record; exact H1).
    unfold bind at 1. unfold conn_commit.
    rewrite backend_call_Ok by (rewrite !length_record; exact H2).
    unfold ret at 1. unfold bind. unfold cursor_close.
    rewrite backend_call_Ok by (rewrite !length_record; exact H3).
    unfold ret. rewrite length_record. f_equal.
    destruct st1 as [p tr]. unfold record. simpl. rewrite <- !app_assoc. reflexivity. }
  rewrite (connection_after_release env body st conn st1 _ _ Hget Hbody) by discriminate.
  unfold after_release.
  destruct (release_connection env conn _) as [[[]|e'|] st3]; reflexivity.
Qed.

(** X13.  The pooled [execute_update] of line 395: when the statement
    raises, no commit is attempted; the transaction is rolled back on the
    acquired session at once, the cursor is closed, the session is
    released, and the caller gets an [UpdateError] that carries the text of
    the statement's error, with one prefix for an integrity error and
    another for every other one. *)
Theorem execute_update_395_rolls_back (env : Env) (query : string)
    (params : option (list cfgval)) (st st1 : St) (conn : Session) (e : exn) :
  inst_connection (self st) = None ->
  get_connection env st = (Ok conn, st1) ->
  env_raises env (length (trace st1)) = None ->
  env_raises env (S (length (trace st1))) = Some e ->
  env_raises env (S (S (length (trace st1)))) = None ->
  env_raises env (S (S (S (length (trace st1))))) = None ->
  execute_update_395 env query params st =
    after_release env conn (Raise (Exn UpdateError (update_message e)))
      (mkSt (self st1)
            (trace st1 ++ [EvCursor conn true; EvExecute conn query false;
                           EvRollback conn true; EvCursorClose conn true])).
Proof.
  intros Hinst Hget H0 H1 H2 H3.
  unfold execute_update_395. unfold try_except at 1.
  rewrite (with_self_connection_unset env _ st Hinst).
  match goal with |- context [connection env ?b st] => set (body := b) end.
  assert (Hbody : body conn st1 =
            (Raise (Exn UpdateError (update_message e)),
             mkSt (self st1)
                  (trace st1 ++ [EvCursor conn true; EvExecute conn query false;
                                 EvRollback conn true; EvCursorClose conn true]))).
  { unfold body. unfold with_cursor. unfold bind at 1. unfold conn_cursor.
    rewrite (backend_call_Ok env _ st1 H0).
    unfold try_finally, try_except. unfold bind at 1.
    rewrite (cursor_execute_Raise env conn query _ e)
      by (rewrite length_record; exact H1).
    unfold update_message.
    destruct (isinstance e pymysql_IntegrityError);
      unfold bind at 1; unfold conn_rollback;
      (rewrite backend_call_Ok by (rewrite !length_record; exact H2));
      unfold raise at 1; unfold bind; unfold cursor_close;
      (rewrite backend_call_Ok by (rewrite !length_record; exact H3));
      unfold raise; f_equal;
      destruct st1 as [p tr]; unfold record; simpl; rewrite <- !app_assoc; reflexivity. }
  rewrite (connection_after_release env body st conn st1 _ _ Hget Hbody) by discriminate.
  unfold after_release.
  destruct (release_connection env conn _) as [[[]|e'|] st3]; reflexivity.
Qed.

(** X14.  The pooled [execute_update] of line 395: when the statement
    raises and the rollback raises as well, the [UpdateError] that reaches
    the caller carries the text of the rollback's error, under the prefix
    of the outer handler; the text of the statement's own error is not in
    it. *)
Theorem execute_update_395_rollback_failure (env : Env) (query : string)
    (params : option (list cfgval)) (st st1 : St) (conn : Session) (e e2 : exn) :
  inst_connection (self st) = None ->
  get_connection env st = (Ok conn, st1) ->
  env_raises env (length (trace st1)) = None ->
  env_raises env (S (length (trace st1))) = Some e ->
  env_raises env (S (S (length (trace st1)))) = Some e2 ->
  env_raises env (S (S (S (length (trace st1))))) = None ->
  exn_cls e2 <> UpdateError ->
  execute_update_395 env query params st =
    after_release env conn (Raise (Exn UpdateError ("更新操作异常: " +:+ exn_str e2)))
      (mkSt (self st1)
            (trace st1 ++ [EvCursor conn true; EvExecute conn query false;
                           EvRollback conn false; EvCursorClose conn true])).
Proof.
  intros Hinst Hget H0 H1 H2 H3 Hcls.
  unfold execute_update_395. unfold try_except at 1.
  rewrite (with_self_connection_unset env _ st Hinst).
  match goal with |- context [connection env ?b st] => set (body := b) end.
  assert (Hbody : body conn st1 =
            (Raise e2,
             mkSt (self st1)
                  (trace st1 ++ [EvCursor conn true; EvExecute conn query false;
                                 EvRollback conn false; EvCursorClose conn true]))).
  { unfold body. unfold with_cursor. unfold bind at 1. unfold conn_cursor.
    rewrite (backend_call_Ok env _ st1 H0).
    unfold try_finally, try_except. unfold bind at 1.
    rewrite (cursor_execute_Raise env conn query _ e)
      by (rewrite length_record; exact H1).
    destruct (isinstance e pymysql_IntegrityError);
      unfold bind at 1; unfold conn_rollback;
      (rewrite (backend_call_Raise env _ _ e2) by (rewrite !length_record; exact H2));
      unfold bind; unfold cursor_close;
      (rewrite backend_call_Ok by (rewrite !length_record; exact H3));
      unfold raise; f_equal;
      destruct st1 as [p tr]; unfold record; simpl; rewrite <- !app_assoc; reflexivity. }
  rewrite (connection_after_release env body st conn st1 _ _ Hget Hbody) by discriminate.
  assert (Hi : isinstance e2 UpdateError = false).
  { unfold isinstance, issubclass. destruct e2 as [c m]. simpl in *.
    rewrite bool_decide_false by assumption. destruct c; reflexivity. }
  unfold after_release.
  destruct (release_connection env conn _) as [[[]|e'|] st3]; try reflexivity;
    rewrite Hi; reflexivity.
Qed.

(** X15.  The pooled [execute_query] of line 360, on a pool object
    without an instance attribute [connection], with a session acquired
    and a cursor that opens and closes: when the statement and the fetch
    succeed the result is all the rows that [fetchall] returned; when the
    statement raises, nothing is fetched and the caller gets a
    [QueryError] with the text of the error, under one prefix for a
    programming (syntax) error and another for every other one.  In both
    cases the session is released. *)
Theorem execute_query_360_outcome (env : Env) (query : string)
    (params : option (list cfgval)) (st st1 : St) (conn : Session) :
  inst_connection (self st) = None ->
  get_connection env st = (Ok conn, st1) ->
  env_raises env (length (trace st1)) = None ->
  match env_raises env (S (length (trace st1))) with
  | None =>
      env_raises env (S (S (length (trace st1)))) = None ->
      env_raises env (S (S (S (length (trace st1))))) = None ->
      execute_query_360 env query params st =
        after_release env conn (Ok (env_rows env (S (S (length (trace st1))))))
          (mkSt (self st1)
                (trace st1 ++ [EvCursor conn true; EvExecute conn query true;
                               EvFetchall conn true; EvCursorClose conn true]))
  | Some e =>
      env_raises env (S (S (length (trace st1)))) = None ->
      execute_query_360 env query params st =
        after_release env conn (Raise (Exn QueryError (query_message e)))
          (mkSt (self st1)
                (trace st1 ++ [EvCursor conn true; EvExecute conn query false;
                               EvCursorClose conn true]))
  end.
Proof.
  intros Hinst Hget H0.
  destruct (env_raises env (S (length (trace st1)))) as [e|] eqn:H1.
  - intros H2.
    unfold execute_query_360. unfold try_except at 1.
    rewrite (with_self_connection_unset env _ st Hinst).
    match goal with |- context [connection env ?b st] => set (body := b) end.
    assert (Hbody : body conn st1 =
              (Raise e,
               mkSt (self st1)
                    (trace st1 ++ [EvCursor conn true; EvExecute conn query false;
                                   EvCursorClose conn true]))).
    { unfold body. unfold with_cursor. unfold bind at 1. unfold conn_cursor.
      rewrite (backend_call_Ok env _ st1 H0).
      unfold try_finally. unfold bind at 1.
      rewrite (cursor_execute_Raise env conn query _ e)
        by (rewrite length_record; exact H1).
      unfold bind. unfold cursor_close.
      rewrite backend_call_Ok by (rewrite !length_record; exact H2).
      unfold raise. f_equal.
      destruct st1 as [p tr]. unfold record. simpl. rewrite <- !app_assoc. reflexivity. }
    rewrite (connection_after_release env body st conn st1 _ _ Hget Hbody) by discriminate.
    unfold after_release, query_message.
    destruct (release_connection env conn _) as [[[]|e'|] st3]; try reflexivity;
      destruct (isinstance e pymysql_ProgrammingError); reflexivity.
  - intros H2 H3.
    unfold execute_query_360. unfold try_except at 1.
    rewrite (with_self_connection_unset env _ st Hinst).
    match goal with |- context [connection env ?b st] => set (body := b) end.
    assert (Hbody : body conn st1 =
              (Ok (env_rows env (S (S (length (trace st1))))),
               mkSt (self st1)
                    (trace st1 ++ [EvCursor conn true; EvExecute conn query true;
                                   EvFetchall conn true; EvCursorClose conn true]))).
    { unfold body. unfold with_cursor. unfold bind at 1. unfold conn_cursor.
      rewrite (backend_call_Ok env _ st1 H0).
      unfold try_finally. unfold bind at 1.
      rewrite cursor_execute_Ok by (rewrite length_record; exact H1).
      rewrite cursor_fetchall_Ok by (rewrite !length_record; exact H2).
      unfold bind. unfold cursor_close.
      rewrite backend_call_Ok by (rewrite !length_record; exact H3).
      unfold ret. rewrite !length_record. f_equal.
      destruct st1 as [p tr]. unfold record. simpl. rewrite <- !app_assoc. reflexivity. }
    rewrite (connection_after_release env body st conn st1 _ _ Hget Hbody) by discriminate.
    unfold after_release.
    destruct (release_connection env conn _) as [[[]|e'|] st3]; reflexivity.
Qed.

(** ** The single-connection methods that the pool class also has *)

Lemma connect_eq env st :
  complete (config (self st)) ->
  connect env st =
  match env_raises env (length (trace st)) with
  | None =>
      (Ok (length (trace st)),
       mkSt (set_inst_connection (Some (PyConn (length (trace st)))) (self st))
            (trace st ++ [EvConnect (Some (length (trace st)))]))
  | Some e =>
      (Raise (Exn ConnectionError (connect_message e)),
       mkSt (self st) (trace st ++ [EvConnect None]))
  end.
Proof.
  intros Hc. unfold complete, connect_keys in Hc.
  repeat match goal with
  | H : Forall _ (_ :: _) |- _ => apply Forall_cons in H; destruct H as [[? ?] H]
  end.
  unfold connect, try_except, bind, config_item, pymysql_connect, connect_message.
  repeat match goal with H : config (self st) !! _ = Some _ |- _ => rewrite H; clear H end.
  destruct (env_raises env (length (trace st))) as [e|]; [|reflexivity].
  destruct (isinstance e pymysql_OperationalError);
    [|destruct (isinstance e pymysql_InternalError);
      [|destruct (isinstance e pymysql_ProgrammingError)]]; reflexivity.
Qed.

Lemma self_connection_set st v :
  inst_connection (self st) = Some v -> self_connection st = (Ok v, st).
Proof. intros H. unfold self_connection, bind, get_self. rewrite H. reflexivity. Qed.

(** X16.  [connect], on a configuration with the six connection keys,
    makes one connection attempt (without a connect timeout).  On success
    the new session is returned and stored as the instance attribute
    [connection]; from then on [self.connection] is that session and no
    longer the context manager, so a [with self.connection()] block raises
    [TypeError] without touching the pool.  On failure a
    [ConnectionError] is raised, with a prefix that depends on the class
    of the backend's error, and the object is unchanged. *)
Theorem connect_outcome (env : Env) (st : St) :
  complete (config (self st)) ->
  match env_raises env (length (trace st)) with
  | None =>
      exists st1,
        connect env st = (Ok (length (trace st)), st1) /\
        self st1 = set_inst_connection (Some (PyConn (length (trace st)))) (self st) /\
        trace st1 = trace st ++ [EvConnect (Some (length (trace st)))] /\
        forall A (body : Session -> M A),
          with_self_connection env body st1 =
            (Raise (Exn TypeError "'Connection' object is not callable"), st1)
  | Some e =>
      connect env st =
        (Raise (Exn ConnectionError (connect_message e)),
         mkSt (self st) (trace st ++ [EvConnect None]))
  end.
Proof.
  intros Hc. rewrite (connect_eq env st Hc).
  destruct (env_raises env (length (trace st))) as [e|]; [reflexivity|].
  eexists. split; [reflexivity|]. split; [reflexivity|]. split; [reflexivity|].
  intros A body. unfold with_self_connection, bind.
  rewrite (self_connection_set _ (PyConn (length (trace st)))) by reflexivity.
  reflexivity.
Qed.

(** X17.  [close] never raises and leaves [self.connection] false: a
    connection held in the attribute is closed (a failure of the close is
    absorbed) and the attribute becomes [None]; an attribute that is
    already [None] is left alone; and on an object that never connected,
    where [self.connection] is the context-manager method, nothing is
    closed, yet the attribute [None] is planted in the instance. *)
Theorem close_outcome (env : Env) (st : St) :
  match inst_connection (self st) with
  | Some PyNone => close env st = (Ok tt, st)
  | Some (PyConn c) =>
      close env st =
        (Ok tt, mkSt (set_inst_connection (Some PyNone) (self st))
                     (trace st ++ [EvClose c (call_ok env st)]))
  | Some (PyBoundMethod _) | None =>
      close env st =
        (Ok tt, mkSt (set_inst_connection (Some PyNone) (self st)) (trace st))
  end.
Proof.
  unfold close, bind.
  destruct (inst_connection (self st)) as [[|c|d]|] eqn:Hi.
  - rewrite (self_connection_set st _ Hi). reflexivity.
  - rewrite (self_connection_set st _ Hi). cbn [truthy].
    unfold try_except, bind, conn_attr, ret, conn_close, backend_call, call_ok.
    destruct (env_raises env (length (trace st))); reflexivity.
  - rewrite (self_connection_set st _ Hi). reflexivity.
  - rewrite (self_connection_unset st Hi). reflexivity.
Qed.

(** X18.  [pool.execute_query] on an object that holds its own
    connection [c] in [self.connection] (after [connect]) works on that
    connection and not on the pool: with a cursor that opens and closes,
    a statement that succeeds returns all the rows fetched, and one that
    raises gives a [QueryError] with the text of the error under one of
    three prefixes; either way the pool object, its idle queue and
    counter included, is untouched and no session is acquired or
    released. *)
Theorem execute_query_on_own_connection (env : Env) (query : string)
    (params : option (list cfgval)) (st : St) (c : Session) :
  inst_connection (self st) = Some (PyConn c) ->
  env_raises env (length (trace st)) = None ->
  match env_raises env (S (length (trace st))) with
  | None =>
      env_raises env (S (S (length (trace st)))) = None ->
      env_raises env (S (S (S (length (trace st))))) = None ->
      execute_query env query params st =
        (Ok (env_rows env (S (S (length (trace st))))),
         mkSt (self st)
              (trace st ++ [EvCursor c true; EvExecute c query true;
                            EvFetchall c true; EvCursorClose c true]))
  | Some e =>
      env_raises env (S (S (length (trace st)))) = None ->
      execute_query env query params st =
        (Raise (Exn QueryError (query_message_671 e)),
         mkSt (self st)
              (trace st ++ [EvCursor c true; EvExecute c query false;
                            EvCursorClose c true]))
  end.
Proof.
  intros Hi H0.
  assert (E : execute_query env query params = execute_query_671 env query params).
  { unfold execute_query. rewrite class_dict_execute_query. reflexivity. }
  rewrite E. clear E.
  destruct (env_raises env (S (length (trace st)))) as [e|] eqn:H1.
  - intros H2.
    unfold execute_query_671, with_cursor, conn_cursor, cursor_close, try_except,
      try_finally, bind.
    rewrite (self_connection_set st _ Hi). cbn [truthy negb]. unfold ret at 1.
    rewrite (self_connection_set st _ Hi). cbn [conn_attr]. unfold ret at 1.
    rewrite (backend_call_Ok env _ st H0). cbv beta iota.
    rewrite (cursor_execute_Raise env c query _ e) by (rewrite length_record; exact H1).
    cbv beta iota.
    rewrite backend_call_Ok by (rewrite !length_record; exact H2).
    cbv beta iota. unfold raise at 1. unfold query_message_671.
    destruct (isinstance e pymysql_ProgrammingError);
      [|destruct (isinstance e pymysql_InternalError)];
      unfold raise; f_equal;
      destruct st as [p tr]; unfold record; simpl; rewrite <- !app_assoc; reflexivity.
  - intros H2 H3.
    unfold execute_query_671, with_cursor, conn_cursor, cursor_close, try_except,
      try_finally, bind.
    rewrite (self_connection_set st _ Hi). cbn [truthy negb]. unfold ret at 1.
    rewrite (self_connection_set st _ Hi). cbn [conn_attr]. unfold ret at 1.
    rewrite (backend_call_Ok env _ st H0). cbv beta iota.
    rewrite cursor_execute_Ok by (rewrite length_record; exact H1).
    cbv beta iota.
    rewrite cursor_fetchall_Ok by (rewrite !length_record; exact H2).
    cbv beta iota.
    rewrite backend_call_Ok by (rewrite !length_record; exact H3).
    cbv beta iota. unfold ret. rewrite !length_record. f_equal.
    destruct st as [p tr]. unfold record. simpl. rewrite <- !app_assoc. reflexivity.
Qed.

(** X19.  [pool.execute_query] on an object whose [self.connection] is
    [None] (after [close]) first calls [connect]; when that fails the
    [ConnectionError] of [connect] leaves the call as it is, not wrapped
    in a [QueryError], and no statement is sent. *)
Theorem execute_query_reconnect_failure (env : Env) (query : string)
    (params : option (list cfgval)) (st : St) (e : exn) :
  inst_connection (self st) = Some PyNone ->
  complete (config (self st)) ->
  env_raises env (length (trace st)) = Some e ->
  execute_query env query params st =
    (Raise (Exn ConnectionError (connect_message e)),
     mkSt (self st) (trace st ++ [EvConnect None])).
Proof.
  intros Hi Hc He.
  assert (E : execute_query env query params = execute_query_671 env query params).
  { unfold execute_query. rewrite class_dict_execute_query. reflexivity. }
  rewrite E. unfold execute_query_671, bind.
  rewrite (self_connection_set st _ Hi). cbn [truthy negb].
  rewrite (connect_eq env st Hc), He. reflexivity.
Qed.

Ltac own_connection_prefix Hi H0 :=
  unfold execute_update_712, self_connection_rollback, with_cursor, conn_cursor,
    cursor_close, conn_commit, conn_rollback, try_except, try_finally, bind;
  rewrite (self_connection_set _ _ Hi); cbn [truthy negb]; unfold ret at 1;
  rewrite (self_connection_set _ _ Hi); cbn [conn_attr]; unfold ret at 1;
  rewrite (backend_call_Ok _ _ _ H0); cbv beta iota.

(** X20.  [pool.execute_update] on an object that holds its own
    connection [c] in [self.connection] works on that connection and not
    on the pool.  A statement that succeeds is committed and its
    affected-row count returned.  A statement that raises is not
    committed: the cursor is closed, the transaction is rolled back, and
    the caller gets an [UpdateError] with the text of the error under one
    of three prefixes.  The pool object is untouched either way. *)
Theorem execute_update_on_own_connection (env : Env) (query : string)
    (params : option (list cfgval)) (st : St) (c : Session) :
  inst_connection (self st) = Some (PyConn c) ->
  env_raises env (length (trace st)) = None ->
  env_raises env (S (S (length (trace st)))) = None ->
  env_raises env (S (S (S (length (trace st))))) = None ->
  execute_update env query params st =
  match env_raises env (S (length (trace st))) with
  | None =>
      (Ok (env_rowcount env (S (length (trace st)))),
       mkSt (self st)
            (trace st ++ [EvCursor c true; EvExecute c query true;
                          EvCommit c true; EvCursorClose c true]))
  | Some e =>
      (Raise (Exn UpdateError (update_message_712 e)),
       mkSt (self st)
            (trace st ++ [EvCursor c true; EvExecute c query false;
                          EvCursorClose c true; EvRollback c true]))
  end.
Proof.
  intros Hi H0 H2 H3.
  assert (E : execute_update env query params = execute_update_712 env query params).
  { unfold execute_update. rewrite class_dict_execute_update. reflexivity. }
  rewrite E. clear E.
  destruct (env_raises env (S (length (trace st)))) as [e|] eqn:H1.
  - own_connection_prefix Hi H0.
    rewrite (cursor_execute_Raise env c query _ e) by (rewrite length_record; exact H1).
    cbv beta iota.
    rewrite backend_call_Ok by (rewrite !length_record; exact H2).
    cbv beta iota. unfold raise at 1. unfold update_message_712.
    destruct (isinstance e pymysql_IntegrityError);
      [|destruct (isinstance e pymysql_ProgrammingError)];
      (rewrite self_connection_set with (v := PyConn c) by exact Hi);
      cbn [conn_attr]; unfold ret at 1;
      (rewrite backend_call_Ok by (rewrite !length_record; exact H3));
      unfold raise; f_equal;
      destruct st as [p tr]; unfold record; simpl; rewrite <- !app_assoc; reflexivity.
  - own_connection_prefix Hi H0.
    rewrite cursor_execute_Ok by (rewrite length_record; exact H1).
    cbv beta iota.
    rewrite self_connection_set with (v := PyConn c) by exact Hi.
    cbn [conn_attr]. unfold ret at 1.
    rewrite backend_call_Ok by (rewrite !length_record; exact H2).
    cbv beta iota. unfold ret at 1.
    rewrite backend_call_Ok by (rewrite !length_record; exact H3).
    cbv beta iota. unfold ret. rewrite !length_record. f_equal.
    destruct st as [p tr]. unfold record. simpl. rewrite <- !app_assoc. reflexivity.
Qed.

(** X21.  [pool.execute_update] on an object that holds its own
    connection: when the statement raises and the rollback raises as
    well, it is the rollback's exception itself that leaves the call, not
    an [UpdateError]. *)
Theorem execute_update_rollback_failure_escapes (env : Env) (query : string)
    (params : option (list cfgval)) (st : St) (c : Session) (e e2 : exn) :
  inst_connection (self st) = Some (PyConn c) ->
  env_raises env (length (trace st)) = None ->
  env_raises env (S (length (trace st))) = Some e ->
  env_raises env (S (S (length (trace st)))) = None ->
  env_raises env (S (S (S (length (trace st))))) = Some e2 ->
  execute_update env query params st =
    (Raise e2,
     mkSt (self st)
          (trace st ++ [EvCursor c true; EvExecute c query false;
                        EvCursorClose c true; EvRollback c false])).
Proof.
  intros Hi H0 H1 H2 H3.
  assert (E : execute_update env query params = execute_update_712 env query params).
  { unfold execute_update. rewrite class_dict_execute_update. reflexivity. }
  rewrite E. clear E.
  own_connection_prefix Hi H0.
  rewrite (cursor_execute_Raise env c query _ e) by (rewrite length_record; exact H1).
  cbv beta iota.
  rewrite backend_call_Ok by (rewrite !length_record; exact H2).
  cbv beta iota. unfold raise at 1.
  destruct (isinstance e pymysql_IntegrityError);
    [|destruct (isinstance e pymysql_ProgrammingError)];
    (rewrite self_connection_set with (v := PyConn c) by exact Hi);
    cbn [conn_attr]; unfold ret at 1;
    (rewrite (backend_call_Raise env _ _ e2) by (rewrite !length_record; exact H3));
    f_equal;
    destruct st as [p tr]; unfold record; simpl; rewrite <- !app_assoc; reflexivity.
Qed.

Lemma complete_union d c : complete c -> complete (d ∪ c).
Proof.
  unfold complete. intros H. eapply Forall_impl; [exact H|].
  intros k [v Hv]. simpl. rewrite lookup_union_is_Some. right. eexists. exact Hv.
Qed.

Lemma close_unset env st :
  inst_connection (self st) = None ->
  close env st = (Ok tt, mkSt (set_inst_connection (Some PyNone) (self st)) (trace st)).
Proof.
  intros Hi. unfold close, bind. rewrite (self_connection_unset st Hi). reflexivity.
Qed.

(** X22.  [update_config] with a non-empty dict, on a pool object that
    never connected: the entries of the dict replace those of the
    configuration, and, because [self.connection] is then the (truthy)
    context-manager method, [close] and [connect] run: nothing is closed,
    one connection is attempted with the new configuration, and on
    success that session becomes the instance attribute [connection]; on
    failure the [ConnectionError] of [connect] leaves [update_config],
    with the configuration already changed. *)
Theorem update_config_on_fresh_pool (env : Env) (d : gmap string cfgval) (st : St) :
  d <> ∅ ->
  inst_connection (self st) = None ->
  complete (config (self st)) ->
  update_config env (Some d) st =
  match env_raises env (length (trace st)) with
  | None =>
      (Ok tt,
       mkSt (set_inst_connection (Some (PyConn (length (trace st))))
               (set_config (d ∪ config (self st)) (self st)))
            (trace st ++ [EvConnect (Some (length (trace st)))]))
  | Some e =>
      (Raise (Exn ConnectionError (connect_message e)),
       mkSt (set_inst_connection (Some PyNone)
               (set_config (d ∪ config (self st)) (self st)))
            (trace st ++ [EvConnect None]))
  end.
Proof.
  intros Hd Hi Hc. unfold update_config.
  rewrite bool_decide_false by exact Hd.
  unfold bind at 1. unfold modify_self at 1.
  set (st1 := on_self (fun p => set_config (d ∪ config p) p) st).
  assert (Hi1 : inst_connection (self st1) = None) by exact Hi.
  assert (Hc1 : complete (config (self st1))) by (apply complete_union; exact Hc).
  unfold bind at 1. rewrite (self_connection_unset st1 Hi1). cbn [truthy].
  unfold bind at 1.
  rewrite (close_unset env st1 Hi1).
  unfold bind.
  rewrite connect_eq by exact Hc1.
  cbn [trace]. change (trace st1) with (trace st).
  destruct (env_raises env (length (trace st))); reflexivity.
Qed.

(** ** Configuration files *)

Lemma check_required_eq fields d tr :
  check_required fields d tr =
  match filter (fun k => d !! k = None) fields with
  | [] => (Ok tt, tr)
  | k :: _ => (Raise (Exn ValueError ("配置文件缺少必要项: " +:+ k)), tr)
  end.
Proof.
  induction fields as [|f fields IH]; [reflexivity|].
  cbn [check_required]. rewrite filter_cons.
  destruct (decide (d !! f = None)) as [Hf|Hf].
  - rewrite bool_decide_true by exact Hf. reflexivity.
  - rewrite bool_decide_false by exact Hf. exact IH.
Qed.

(** X23.  The validating [from_config_file] of line 462, on a path that
    does not exist, on a file whose text [json.load] rejects, and on a
    file that holds a JSON object.  A path that does not exist raises
    [IOError], text that is not JSON raises [ValueError], and an object
    that lacks a required key raises [ValueError] naming the first key
    missing in the order host, user, password, database; in these three
    cases nothing is built and no backend call made.  For an object with
    all four keys the constructor is called, with the sizes given and the
    object as [config], and its outcome is the outcome of the call. *)
Theorem from_config_file_462_outcome (env : Env) (fs : FileSystem) (config_file : string)
    (min_connections max_connections : Z) (tr : list Event) :
  from_config_file_462 env fs config_file min_connections max_connections tr =
  match fs config_file with
  | None => (Raise (Exn IOError ("配置文件不存在: " +:+ config_file)), tr)
  | Some (NotJSON msg) => (Raise (Exn ValueError ("配置文件格式错误: " +:+ msg)), tr)
  | Some (JSONObject d) =>
      match missing_fields d with
      | k :: _ => (Raise (Exn ValueError ("配置文件缺少必要项: " +:+ k)), tr)
      | [] => cls env (sized_file_args min_connections max_connections d) tr
      end
  end.
Proof.
  unfold from_config_file_462, try_except, bind, open_json_load.
  destruct (fs config_file) as [[msg|d]|] eqn:Hfs.
  - rewrite bool_decide_false by discriminate. reflexivity.
  - rewrite bool_decide_false by discriminate. unfold ret.
    rewrite check_required_eq. fold (missing_fields d).
    destruct (missing_fields d) as [|k rest]; [|reflexivity].
    change (mkInitArgs min_connections max_connections (arg_host default_args)
              (arg_user default_args) (arg_password default_args)
              (arg_database default_args) (arg_port default_args)
              (arg_charset default_args) (Some d) (arg_connection_timeout default_args))
      with (sized_file_args min_connections max_connections d).
    pose proof (cls_no_raise env (sized_file_args min_connections max_connections d) tr)
      as Hn.
    destruct (cls env (sized_file_args min_connections max_connections d) tr)
      as [[p|e|] tr1]; try reflexivity.
    exfalso. exact (Hn e tr1 eq_refl).
  - rewrite bool_decide_true by reflexivity. reflexivity.
Qed.

(** X24.  The [from_config_file] that the class reaches (line 608), on
    a path that does not exist, on a file whose text [json.load] rejects,
    and on a file that holds a JSON object.  In the first two cases what
    leaves the call is a bare [Exception], neither the [IOError] nor the
    [ValueError] that the docstring of line 462 announces; its text is the
    prefix of line 623 followed by the text of the error that [open] or
    [json.load] raised, and no backend call has been made.  A JSON object
    never makes the call raise. *)
Theorem from_config_file_raises_generic (env : Env) (fs : FileSystem)
    (config_file : string) (tr : list Event) :
  match fs config_file with
  | None =>
      from_config_file env fs config_file tr =
        (Raise (Exn Exception ("从配置文件加载失败: " +:+ fs_strerror fs config_file)), tr)
  | Some (NotJSON msg) =>
      from_config_file env fs config_file tr =
        (Raise (Exn Exception ("从配置文件加载失败: " +:+ msg)), tr)
  | Some (JSONObject d) =>
      forall e tr', from_config_file env fs config_file tr <> (Raise e, tr')
  end.
Proof.
  unfold from_config_file. rewrite class_dict_from_config_file.
  unfold from_config_file_608, try_except, bind, open_json_load.
  destruct (fs config_file) as [[msg|d]|] eqn:Hfs; try reflexivity.
  unfold ret. intros e tr'.
  match goal with |- context [cls env ?a tr] =>
    pose proof (cls_no_raise env a tr) as Hn;
    destruct (cls env a tr) as [[p|e0|] tr1] end; try discriminate.
  exfalso. exact (Hn e0 tr1 eq_refl).
Qed.

(** X25.  [MySQLConnectionPool.from_env()] with none of the six
    [MYSQL_*] variables set builds exactly the pool that
    [MySQLConnectionPool()] builds: the defaults of [os.getenv] are the
    defaults of the constructor, [int] is applied to the number 3306 and
    not to a string, and the sizes are the default 5 and 20. *)
Theorem from_env_defaults (env : Env) (environ : gmap string string)
    (py_int : string -> Z + string) (tr : list Event) :
  Forall (fun name => environ !! name = None) environ_names ->
  from_env env environ py_int tr = cls env default_args tr.
Proof.
  intros H. unfold environ_names in H.
  repeat match goal with
  | H : Forall _ (_ :: _) |- _ => apply Forall_cons in H; destruct H as [? H]
  end.
  unfold from_env.
  assert (Hd : MySQLConnectionPool_dict !! "from_env" = Some def_from_env_626)
    by reflexivity.
  rewrite Hd. unfold from_env_626, environ_config, getenv_port, getenv, bind.
  repeat match goal with H : environ !! _ = None |- _ => rewrite H; clear H end.
  unfold ret. cbn [default].
  unfold cls, __init__, _initialize_pool, bind, get_self.
  match goal with |- context [new_pool ?a] =>
    assert (Hp : new_pool a = new_pool default_args) by (vm_compute; reflexivity);
    rewrite Hp end.
  reflexivity.
Qed.

(** X26.  [from_env] with a [MYSQL_PORT] that [int] rejects: the
    [ValueError] of [int] leaves the call as it is, before any pool is
    built or any connection attempted, whatever the other variables
    hold. *)
Theorem from_env_bad_port (env : Env) (environ : gmap string string)
    (py_int : string -> Z + string) (tr : list Event) (s msg : string) :
  environ !! "MYSQL_PORT" = Some s ->
  py_int s = inr msg ->
  from_env env environ py_int tr = (Raise (Exn ValueError msg), tr).
Proof.
  intros Hs Hint. unfold from_env.
  assert (Hd : MySQLConnectionPool_dict !! "from_env" = Some def_from_env_626)
    by reflexivity.
  rewrite Hd. unfold from_env_626, environ_config, getenv_port, bind.
  rewrite Hs, Hint. reflexivity.
Qed.

(** ** Configuration dicts *)



(** ** The properties above at concrete pools *)

Lemma healthy_calm_env : healthy calm_env.
Proof. intros t. reflexivity. Qed.

Ltac complete_by_computation :=
  unfold complete, connect_keys;
  repeat (constructor; [eexists; vm_compute; reflexivity|]);
  constructor.

(** The idle session of the warm pool is handed out. *)
Lemma get_connection_reuses_idle_head_witness :
  get_connection calm_env warm_pool =
    (Ok 0%nat, mkSt (set_items [] (self warm_pool))
                    (trace warm_pool ++ [EvPing 0%nat false true])).
Proof.
  apply (get_connection_reuses_idle_head calm_env warm_pool 0%nat []);
    vm_compute; reflexivity.
Defined.

(** Session 0 goes back to the busy pool and comes out again. *)
Lemma release_then_get_connection_witness :
  (release_connection calm_env 0%nat >> get_connection calm_env) busy_pool =
    (Ok 0%nat, mkSt (self busy_pool)
                    (trace busy_pool ++ [EvPing 0%nat false true; EvPing 0%nat false true])).
Proof.
  apply (release_then_get_connection calm_env busy_pool 0%nat); vm_compute; reflexivity.
Defined.

(** The busy pool of at most two grows by one session. *)
Lemma get_connection_grows_witness :
  current_connections (self busy_pool) = 1 /\
  (get_connection calm_env busy_pool).1 = Ok 3%nat /\
  current_connections (self (get_connection calm_env busy_pool).2) = 2 /\
  trace (get_connection calm_env busy_pool).2 =
    trace busy_pool ++ [EvConnect (Some 3%nat); EvCounter 2 true].
Proof.
  split; [vm_compute; reflexivity|].
  assert (H1 : items (connection_queue (self busy_pool)) = []) by (vm_compute; reflexivity).
  assert (H2 : current_connections (self busy_pool) < max_connections (self busy_pool))
    by (vm_compute; reflexivity).
  assert (H3 : complete (config (self busy_pool))) by complete_by_computation.
  rewrite (get_connection_grows calm_env busy_pool H1 H2 H3).
  split; [vm_compute; reflexivity|]. split; vm_compute; reflexivity.
Defined.

(** [MySQLConnectionPool(min_connections=3, max_connections=2)] hangs. *)
Lemma init_blocks_when_min_exceeds_max_witness :
  (__init__ calm_env inverted_args []).1 = Blocked /\
  current_connections (self (__init__ calm_env inverted_args []).2) =
    arg_max_connections inverted_args /\
  Z.of_nat (length (items (connection_queue (self (__init__ calm_env inverted_args []).2)))) =
    arg_max_connections inverted_args.
Proof.
  apply (init_blocks_when_min_exceeds_max calm_env inverted_args []);
    [exact healthy_calm_env|split; reflexivity].
Defined.

(** Shutting down the warm pool of two idle sessions. *)
Lemma close_all_connections_drains_witness :
  exists oks,
    length oks = length (items (connection_queue (self warm_pair))) /\
    close_all_connections calm_env 3 warm_pair =
      (Ok (Some (count_of true oks, count_of false oks)),
       mkSt (set_current 0 (set_items [] (self warm_pair)))
            (trace warm_pair ++
             zip_with EvClose (items (connection_queue (self warm_pair))) oks ++
             [EvCounter 0 true])).
Proof.
  apply (close_all_connections_drains calm_env 3 warm_pair). vm_compute. lia.
Defined.

(** After the shutdown the pool of two makes a session again. *)
Lemma get_connection_after_close_all_witness :
  exists st2,
    get_connection calm_env (close_all_connections calm_env 3 warm_pair).2 =
      (Ok (length (trace (close_all_connections calm_env 3 warm_pair).2)), st2) /\
    current_connections (self st2) = 1 /\
    items (connection_queue (self st2)) = [].
Proof.
  apply (get_connection_after_close_all calm_env 3 warm_pair).
  - vm_compute. lia.
  - vm_compute. reflexivity.
  - complete_by_computation.
  - vm_compute. reflexivity.
Defined.

(** A session released after the shutdown is idle and not counted. *)
Lemma release_after_close_all_witness :
  exists st2,
    release_connection calm_env 7%nat (close_all_connections calm_env 3 warm_pair).2 =
      (Ok tt, st2) /\
    items (connection_queue (self st2)) = [7%nat] /\
    current_connections (self st2) = 0.
Proof.
  apply (release_after_close_all calm_env 3 warm_pair 7%nat).
  - vm_compute. lia.
  - vm_compute. reflexivity.
Defined.

Ltac by_computation := vm_compute; reflexivity.

(** A pooled update on the warm pool: committed on session 0, which is
    idle again afterwards. *)
Lemma execute_update_395_commits_witness :
  (execute_update_395 calm_env "UPDATE t SET n = 1" None warm_pool).1 = Ok 1 /\
  trace (execute_update_395 calm_env "UPDATE t SET n = 1" None warm_pool).2 =
    trace warm_pool ++
    [EvPing 0%nat false true; EvCursor 0%nat true;
     EvExecute 0%nat "UPDATE t SET n = 1" true; EvCommit 0%nat true;
     EvCursorClose 0%nat true; EvPing 0%nat false true] /\
  items (connection_queue
           (self (execute_update_395 calm_env "UPDATE t SET n = 1" None warm_pool).2)) =
    [0%nat].
Proof.
  assert (Hi : inst_connection (self warm_pool) = None) by by_computation.
  assert (Hg : get_connection calm_env warm_pool = (Ok 0%nat, busy_pool)) by by_computation.
  assert (H0 : env_raises calm_env (length (trace busy_pool)) = None) by by_computation.
  assert (H1 : env_raises calm_env (S (length (trace busy_pool))) = None) by by_computation.
  assert (H2 : env_raises calm_env (S (S (length (trace busy_pool)))) = None)
    by by_computation.
  assert (H3 : env_raises calm_env (S (S (S (length (trace busy_pool))))) = None)
    by by_computation.
  rewrite (execute_update_395_commits calm_env "UPDATE t SET n = 1" None warm_pool
             busy_pool 0%nat Hi Hg H0 H1 H2 H3).
  split; [by_computation|]. split; by_computation.
Defined.

(** A pooled insert that violates a unique key: rolled back, reported as
    an integrity error. *)
Lemma execute_update_395_rolls_back_witness :
  (execute_update_395 duplicate_env "INSERT INTO t VALUES (1)" None warm_pool).1 =
    Raise (Exn UpdateError "数据完整性错误: (1062, 'Duplicate entry')") /\
  trace (execute_update_395 duplicate_env "INSERT INTO t VALUES (1)" None warm_pool).2 =
    trace warm_pool ++
    [EvPing 0%nat false true; EvCursor 0%nat true;
     EvExecute 0%nat "INSERT INTO t VALUES (1)" false; EvRollback 0%nat true;
     EvCursorClose 0%nat true; EvPing 0%nat false true].
Proof.
  assert (Hi : inst_connection (self warm_pool) = None) by by_computation.
  assert (Hg : get_connection duplicate_env warm_pool = (Ok 0%nat, busy_pool))
    by by_computation.
  assert (H0 : env_raises duplicate_env (length (trace busy_pool)) = None)
    by by_computation.
  assert (H1 : env_raises duplicate_env (S (length (trace busy_pool))) = Some duplicate_key)
    by by_computation.
  assert (H2 : env_raises duplicate_env (S (S (length (trace busy_pool)))) = None)
    by by_computation.
  assert (H3 : env_raises duplicate_env (S (S (S (length (trace busy_pool))))) = None)
    by by_computation.
  rewrite (execute_update_395_rolls_back duplicate_env "INSERT INTO t VALUES (1)" None
             warm_pool busy_pool 0%nat duplicate_key Hi Hg H0 H1 H2 H3).
  split; by_computation.
Defined.

(** The same insert when the rollback fails too: the caller reads the
    rollback's error. *)
Lemma execute_update_395_rollback_failure_witness :
  (execute_update_395 broken_rollback_env "INSERT INTO t VALUES (1)" None warm_pool).1 =
    Raise (Exn UpdateError "更新操作异常: (2006, 'MySQL server has gone away')").
Proof.
  assert (Hi : inst_connection (self warm_pool) = None) by by_computation.
  assert (Hg : get_connection broken_rollback_env warm_pool = (Ok 0%nat, busy_pool))
    by by_computation.
  assert (H0 : env_raises broken_rollback_env (length (trace busy_pool)) = None)
    by by_computation.
  assert (H1 : env_raises broken_rollback_env (S (length (trace busy_pool))) =
               Some duplicate_key) by by_computation.
  assert (H2 : env_raises broken_rollback_env (S (S (length (trace busy_pool)))) =
               Some server_gone) by by_computation.
  assert (H3 : env_raises broken_rollback_env (S (S (S (length (trace busy_pool))))) = None)
    by by_computation.
  assert (H4 : exn_cls server_gone <> UpdateError) by discriminate.
  rewrite (execute_update_395_rollback_failure broken_rollback_env
             "INSERT INTO t VALUES (1)" None warm_pool busy_pool 0%nat duplicate_key
             server_gone Hi Hg H0 H1 H2 H3 H4).
  by_computation.
Defined.

(** A pooled query with a syntax error. *)
Lemma execute_query_360_outcome_witness :
  (execute_query_360 syntax_env "SELEC 1" None warm_pool).1 =
    Raise (Exn QueryError
             "查询语法错误: (1064, 'You have an error in your SQL syntax')") /\
  items (connection_queue (self (execute_query_360 syntax_env "SELEC 1" None warm_pool).2)) =
    [0%nat].
Proof.
  assert (Hi : inst_connection (self warm_pool) = None) by by_computation.
  assert (Hg : get_connection syntax_env warm_pool = (Ok 0%nat, busy_pool))
    by by_computation.
  assert (H0 : env_raises syntax_env (length (trace busy_pool)) = None) by by_computation.
  assert (H1 : env_raises syntax_env (S (length (trace busy_pool))) = Some syntax_error)
    by by_computation.
  assert (H2 : env_raises syntax_env (S (S (length (trace busy_pool)))) = None)
    by by_computation.
  pose proof (execute_query_360_outcome syntax_env "SELEC 1" None warm_pool busy_pool
                0%nat Hi Hg H0) as W.
  rewrite H1 in W. rewrite (W H2).
  split; by_computation.
Defined.

(** [connect] on the warm pool: session 2 becomes [self.connection]. *)
Lemma connect_outcome_witness :
  exists st1,
    connect calm_env warm_pool = (Ok (length (trace warm_pool)), st1) /\
    self st1 =
      set_inst_connection (Some (PyConn (length (trace warm_pool)))) (self warm_pool) /\
    trace st1 = trace warm_pool ++ [EvConnect (Some (length (trace warm_pool)))] /\
    forall A (body : Session -> M A),
      with_self_connection calm_env body st1 =
        (Raise (Exn TypeError "'Connection' object is not callable"), st1).
Proof.
  assert (Hc : complete (config (self warm_pool))) by complete_by_computation.
  assert (Hr : env_raises calm_env (length (trace warm_pool)) = None) by by_computation.
  pose proof (connect_outcome calm_env warm_pool Hc) as W.
  rewrite Hr in W. exact W.
Defined.

(** A query with a syntax error on the pool's own connection. *)
Lemma execute_query_on_own_connection_witness :
  execute_query own_syntax_env "SELEC 1" None connected_pool =
    (Raise (Exn QueryError (query_message_671 syntax_error)),
     mkSt (self connected_pool)
          (trace connected_pool ++
           [EvCursor 2%nat true; EvExecute 2%nat "SELEC 1" false; EvCursorClose 2%nat true])).
Proof.
  assert (Hi : inst_connection (self connected_pool) = Some (PyConn 2%nat))
    by by_computation.
  assert (H0 : env_raises own_syntax_env (length (trace connected_pool)) = None)
    by by_computation.
  assert (H1 : env_raises own_syntax_env (S (length (trace connected_pool))) =
               Some syntax_error) by by_computation.
  assert (H2 : env_raises own_syntax_env (S (S (length (trace connected_pool)))) = None)
    by by_computation.
  pose proof (execute_query_on_own_connection own_syntax_env "SELEC 1" None connected_pool
                2%nat Hi H0) as W.
  rewrite H1 in W. exact (W H2).
Defined.

(** A query after [close], with the backend gone. *)
Lemma execute_query_reconnect_failure_witness :
  execute_query gone_env "SELECT 1" None closed_pool =
    (Raise (Exn ConnectionError (connect_message server_gone)),
     mkSt (self closed_pool) (trace closed_pool ++ [EvConnect None])).
Proof.
  apply (execute_query_reconnect_failure gone_env "SELECT 1" None closed_pool server_gone).
  - by_computation.
  - complete_by_computation.
  - by_computation.
Defined.

(** An update on the pool's own connection. *)
Lemma execute_update_on_own_connection_witness :
  (execute_update calm_env "UPDATE t SET n = 1" None connected_pool).1 = Ok 1 /\
  trace (execute_update calm_env "UPDATE t SET n = 1" None connected_pool).2 =
    trace connected_pool ++
    [EvCursor 2%nat true; EvExecute 2%nat "UPDATE t SET n = 1" true;
     EvCommit 2%nat true; EvCursorClose 2%nat true].
Proof.
  assert (Hi : inst_connection (self connected_pool) = Some (PyConn 2%nat))
    by by_computation.
  assert (H0 : env_raises calm_env (length (trace connected_pool)) = None)
    by by_computation.
  assert (H2 : env_raises calm_env (S (S (length (trace connected_pool)))) = None)
    by by_computation.
  assert (H3 : env_raises calm_env (S (S (S (length (trace connected_pool))))) = None)
    by by_computation.
  rewrite (execute_update_on_own_connection calm_env "UPDATE t SET n = 1" None
             connected_pool 2%nat Hi H0 H2 H3).
  split; by_computation.
Defined.

(** An insert on the pool's own connection whose rollback fails. *)
Lemma execute_update_rollback_failure_escapes_witness :
  (execute_update own_broken_rollback_env "INSERT INTO t VALUES (1)" None
     connected_pool).1 = Raise server_gone.
Proof.
  assert (Hi : inst_connection (self connected_pool) = Some (PyConn 2%nat))
    by by_computation.
  assert (H0 : env_raises own_broken_rollback_env (length (trace connected_pool)) = None)
    by by_computation.
  assert (H1 : env_raises own_broken_rollback_env (S (length (trace connected_pool))) =
               Some duplicate_key) by by_computation.
  assert (H2 : env_raises own_broken_rollback_env (S (S (length (trace connected_pool)))) =
               None) by by_computation.
  assert (H3 : env_raises own_broken_rollback_env
                 (S (S (S (length (trace connected_pool))))) = Some server_gone)
    by by_computation.
  rewrite (execute_update_rollback_failure_escapes own_broken_rollback_env
             "INSERT INTO t VALUES (1)" None connected_pool 2%nat duplicate_key
             server_gone Hi H0 H1 H2 H3).
  reflexivity.
Defined.

(** [update_config({'host': 'replica'})] on the warm pool opens a
    connection. *)
Lemma update_config_on_fresh_pool_witness :
  (update_config calm_env (Some {["host" := CStr "replica"]}) warm_pool).1 = Ok tt /\
  inst_connection
    (self (update_config calm_env (Some {["host" := CStr "replica"]}) warm_pool).2) =
    Some (PyConn 2%nat) /\
  config (self (update_config calm_env (Some {["host" := CStr "replica"]}) warm_pool).2)
    !! "host" = Some (CStr "replica").
Proof.
  assert (Hd : ({["host" := CStr "replica"]} : gmap string cfgval) <> ∅)
    by apply insert_non_empty.
  assert (Hi : inst_connection (self warm_pool) = None) by by_computation.
  assert (Hc : complete (config (self warm_pool))) by complete_by_computation.
  rewrite (update_config_on_fresh_pool calm_env _ warm_pool Hd Hi Hc).
  split; [by_computation|]. split; by_computation.
Defined.

(** No variable set. *)
Lemma from_env_defaults_witness :
  from_env calm_env ∅ example_int [] = cls calm_env default_args [].
Proof.
  apply (from_env_defaults calm_env ∅ example_int []).
  unfold environ_names. repeat constructor.
Defined.

(** [MYSQL_PORT=three]. *)
Lemma from_env_bad_port_witness :
  from_env calm_env {["MYSQL_PORT" := "three"]} example_int [] =
    (Raise (Exn ValueError "invalid literal for int() with base 10: 'three'"), []).
Proof.
  apply (from_env_bad_port calm_env {["MYSQL_PORT" := "three"]} example_int [] "three");
    by_computation.
Defined.
